(** * The action-plugin base class of Ansible, embedded in Rocq

    This development follows [lib/ansible/plugins/action/__init__.py]
    (class [ActionBase]).  Python text is a [string] whose characters are
    code points below 256; a Python [dict] with text keys is an
    association list kept in insertion order; an exception is an
    [outcome]; the task object and the calls made on the connection and
    shell plugins live in a [World] that every method threads through. *)

From Stdlib Require Import List String Ascii ZArith Bool Lia Arith.
From Stdlib Require Import Numbers.DecimalString.
Import ListNotations.

Local Open Scope string_scope.
Local Open Scope list_scope.
Local Open Scope nat_scope.

Infix "+++" := String.append (at level 60, right associativity).

(* ================================================================== *)
(** * Python text *)

Module PyStr.

Definition LF : ascii := Ascii.ascii_of_nat 10.
Definition CR : ascii := Ascii.ascii_of_nat 13.
Definition SQ : ascii := Ascii.ascii_of_nat 39.   (* single quote *)
Definition DQ : ascii := Ascii.ascii_of_nat 34.   (* double quote *)

Definition chr (c : ascii) : string := String c EmptyString.

(** [bool(s)] for text: empty text is falsy. *)
Definition nonempty (s : string) : bool :=
  match s with EmptyString => false | _ => true end.

(** [s.startswith(p)] *)
Definition startswith (s p : string) : bool := String.prefix p s.

(** [p in s] for text *)
Fixpoint contains (p s : string) : bool :=
  if String.prefix p s then true
  else match s with
       | EmptyString => false
       | String _ s' => contains p s'
       end.

Fixpoint rev_acc (s acc : string) : string :=
  match s with
  | EmptyString => acc
  | String c s' => rev_acc s' (String c acc)
  end.

Definition rev (s : string) : string := rev_acc s EmptyString.

(** [s.endswith(p)] *)
Definition endswith (s p : string) : bool := String.prefix (rev p) (rev s).

(** [unicode.isspace] on code points below 256. *)
Definition isspace (c : ascii) : bool :=
  let n := Ascii.nat_of_ascii c in
  ((9 <=? n) && (n <=? 13)) || ((28 <=? n) && (n <=? 32))
  || (n =? 133) || (n =? 160).

Fixpoint lstrip (s : string) : string :=
  match s with
  | EmptyString => EmptyString
  | String c s' => if isspace c then lstrip s' else s
  end.

(** [s.rstrip()]: a character stays when something after it stays
    or when it is not white space itself. *)
Fixpoint rstrip (s : string) : string :=
  match s with
  | EmptyString => EmptyString
  | String c s' =>
      match rstrip s' with
      | EmptyString => if isspace c then EmptyString else chr c
      | r => String c r
      end
  end.

(** [s.strip()] *)
Definition strip (s : string) : string := rstrip (lstrip s).

(** Line boundaries of [unicode.splitlines] below 256:
    LF, VT, FF, CR, FS, GS, RS and NEL; CR LF counts as one. *)
Definition islinebreak (c : ascii) : bool :=
  let n := Ascii.nat_of_ascii c in
  ((10 <=? n) && (n <=? 13)) || ((28 <=? n) && (n <=? 30)) || (n =? 133).

Definition ends_line_here (c : ascii) (rest : string) : bool :=
  islinebreak c && negb (Ascii.eqb c CR && startswith rest (chr LF)).

(** [s.splitlines(True)] *)
Fixpoint splitlines_keepends (s : string) : list string :=
  match s with
  | EmptyString => []
  | String c s' =>
      if ends_line_here c s' then chr c :: splitlines_keepends s'
      else match splitlines_keepends s' with
           | [] => [chr c]
           | l :: ls => String c l :: ls
           end
  end.

(** A line of [splitlines(True)] without its terminator. *)
Fixpoint chomp (l : string) : string :=
  match l with
  | EmptyString => EmptyString
  | String c l' => if islinebreak c then EmptyString else String c (chomp l')
  end.

(** [s.splitlines()] *)
Definition splitlines (s : string) : list string :=
  map chomp (splitlines_keepends s).

(** [s[n:]] for [0 <= n] *)
Fixpoint slice_from (n : nat) (s : string) : string :=
  match n, s with
  | O, _ => s
  | S _, EmptyString => EmptyString
  | S n', String _ s' => slice_from n' s'
  end.

(** [s.replace(c, r)] for a one-character pattern [c]. *)
Fixpoint replace_char (c : ascii) (r : string) (s : string) : string :=
  match s with
  | EmptyString => EmptyString
  | String x s' =>
      if Ascii.eqb x c then r +++ replace_char c r s'
      else String x (replace_char c r s')
  end.

Fixpoint forallb (f : ascii -> bool) (s : string) : bool :=
  match s with
  | EmptyString => true
  | String c s' => f c && forallb f s'
  end.

(** [unicode(n)] for an integer. *)
Definition of_Z (z : Z) : string := NilZero.string_of_int (Z.to_int z).

End PyStr.

(* ================================================================== *)
(** * [pipes.quote] *)

Module Pipes.
Import PyStr.

(** [_safechars]: letters, digits and [@%_-+=:,./] *)
Definition safechar (c : ascii) : bool :=
  let n := Ascii.nat_of_ascii c in
  ((65 <=? n) && (n <=? 90)) || ((97 <=? n) && (n <=? 122))
  || ((48 <=? n) && (n <=? 57))
  || existsb (Nat.eqb n) [64; 37; 95; 45; 43; 61; 58; 44; 46; 47].

(** The five characters that stand for one single quote inside a
    single-quoted word: quote, double quote, quote, double quote, quote. *)
Definition quote_escape : string :=
  String SQ (String DQ (String SQ (String DQ (String SQ EmptyString)))).

Definition quote (file : string) : string :=
  if PyStr.forallb safechar file then
    (if nonempty file then file else "''")
  else chr SQ +++ replace_char SQ quote_escape file +++ chr SQ.

End Pipes.

(* ================================================================== *)
(** * Python values and dictionaries *)

Set Warnings "-register-all".

Inductive pyval : Type :=
| PNone
| PBool (b : bool)
| PInt (z : Z)
| PStr (s : string)
| PList (l : list pyval)
| PDict (d : list (string * pyval)).

(** A [dict] with text keys: one entry per key, in insertion order. *)
Definition dict : Type := list (string * pyval).

Module Dict.

(** [d.get(k)] *)
Fixpoint get (k : string) (d : dict) : option pyval :=
  match d with
  | [] => None
  | (k', v) :: d' => if String.eqb k k' then Some v else get k d'
  end.

(** [k in d] *)
Definition mem (k : string) (d : dict) : bool :=
  match get k d with Some _ => true | None => false end.

(** [d[k] = v]: an existing key keeps its place, a new one goes last. *)
Fixpoint set (k : string) (v : pyval) (d : dict) : dict :=
  match d with
  | [] => [(k, v)]
  | (k', v') :: d' =>
      if String.eqb k k' then (k', v) :: d' else (k', v') :: set k v d'
  end.

(** [d.update(other)] *)
Definition update (d other : dict) : dict :=
  fold_left (fun acc kv => set (fst kv) (snd kv) acc) other d.

Definition keys (d : dict) : list string := map fst d.

End Dict.

(** [bool(v)] *)
Definition truthy (v : pyval) : bool :=
  match v with
  | PNone => false
  | PBool b => b
  | PInt z => negb (Z.eqb z 0)
  | PStr s => PyStr.nonempty s
  | PList l => match l with [] => false | _ => true end
  | PDict d => match d with [] => false | _ => true end
  end.

(** [text_type(v)]; [repr] renders lists and dictionaries. *)
Definition text_type (repr : pyval -> string) (v : pyval) : string :=
  match v with
  | PStr s => s
  | PBool true => "True"
  | PBool false => "False"
  | PInt z => PyStr.of_Z z
  | PNone => "None"
  | _ => repr v
  end.

Definition of_option_text (o : option string) : pyval :=
  match o with Some s => PStr s | None => PNone end.

(** [u == v] where [u] is [None] or text. *)
Definition text_eq (u : option string) (v : pyval) : bool :=
  match u, v with
  | None, PNone => true
  | Some a, PStr b => String.eqb a b
  | _, _ => false
  end.

(* ================================================================== *)
(** * Exceptions *)

(** [AnsibleConnectionFailure] derives from [AnsibleError]; every other
    exception class is a [PyException] with the name of its class. *)
Inductive exn : Type :=
| AnsibleError (msg : string)
| AnsibleConnectionFailure (msg : string)
| PyException (cls : string).

Inductive outcome (A : Type) : Type :=
| Ret (a : A)
| Raise (e : exn).
Arguments Ret {A} a.
Arguments Raise {A} e.

(** The message of an exception that [except AnsibleError] catches. *)
Definition ansible_error_text (e : exn) : option string :=
  match e with
  | AnsibleError m => Some m
  | AnsibleConnectionFailure m => Some m
  | PyException _ => None
  end.

(* ================================================================== *)
(** * Collaborators *)

Record Constants : Type := {
  DEFAULT_KEEP_REMOTE_FILES : bool;
  DEFAULT_NO_TARGET_SYSLOG : bool;
  DEFAULT_DEBUG : bool;
  ALLOW_WORLD_READABLE_TMPFILES : bool;
  BECOME_ALLOW_SAME_USER : bool
}.

Record PlayContext : Type := {
  become : bool;
  become_user : option string;
  become_method : option string;
  remote_user : option string;
  pipelining : bool;
  check_mode : bool;
  no_log : bool;
  diff : bool;
  verbosity : Z;
  executable : option string;
  module_compression : string;
  make_become_cmd : string -> option string -> string
}.

(** The string builders of the shell plugin. *)
Record Shell : Type := {
  SHELL_FAMILY : string;
  mkdtemp : string -> bool -> Z -> string;
  remove : string -> bool -> string;
  chmod : string -> string -> bool -> string;
  chown : string -> option string -> option string -> bool -> string;
  set_user_facl : string -> option string -> string -> bool -> string;
  exists_ : string -> string;
  expand_user : string -> string;
  join_path : string -> list string -> string;
  env_prefix : dict -> string;
  get_remote_filename : string -> string;
  build_module_command :
    string -> string -> string -> option string -> option string -> string;
  _unquote : option (pyval -> pyval)
}.

(** The calls the methods make on the connection ([exec_command],
    [put_file]) and the two calls on the shell plugin whose arguments
    the properties below speak of ([env_prefix], [build_module_command]),
    in the order they are made. *)
Inductive Event : Type :=
| EvExec (cmd : string) (in_data : option string) (sudoable : bool)
| EvPutFile (remote_path : option string) (data : string)
| EvEnvPrefix (env : dict)
| EvBuildModuleCommand (env shebang cmd : string)
                       (arg_path rm_tmp : option string).

Record Connection : Type := {
  transport : string;
  module_implementation_preferences : list string;
  has_pipelining : bool;
  allow_executable : bool;
  _shell : Shell;
  (** [exec_command(cmd, in_data, sudoable)]: the answer of the remote
      side may depend on everything that happened before. *)
  exec_command :
    list Event -> string -> option string -> bool ->
    outcome (option Z * string * string);
  (** [put_file(local, remote)], with the content of [local]. *)
  put_file : list Event -> option string -> string -> outcome unit
}.

(** The task: the only object the methods share with their caller. *)
Record Task : Type := {
  action : string;
  args : dict;
  environment : pyval;
  async : Z
}.

Record World : Type := {
  w_task : Task;
  w_trace : list Event
}.

(** What a call of [json.loads] comes to: the document, a [ValueError]
    (or one of its subclasses), which is how the reader refuses a text
    that is no JSON, or an exception of another class, such as the one
    that ends a recursion gone too deep. *)
Inductive json_result : Type :=
| JsonDocument (document : pyval)
| JsonValueError
| JsonOtherError (e : exn).

(** What [__init__] stores in [self], the module-level services the
    class imports, and the two class-level flags. *)
Record ActionBase : Type := {
  _connection : Connection;
  _play_context : PlayContext;
  C : Constants;
  (** [self._templar.template] *)
  template : pyval -> pyval;
  (** [module_loader.find_plugin(name, suffix)] *)
  find_plugin : string -> string -> option string;
  (** [module_loader.find_plugin(name, suffixes)] *)
  find_plugin_any : string -> list string -> option string;
  (** [modify_module(name, path, args, task_vars, module_compression)],
      giving [(module_data, module_style, module_shebang)] *)
  modify_module :
    string -> string -> dict -> dict -> string ->
    outcome (string * string * option string);
  (** [json.loads] *)
  json_loads : string -> json_result;
  json_dumps : dict -> string;
  (** [unicode(v)] of a list or dictionary *)
  py_repr : pyval -> string;
  display_verbosity : Z;
  (** [time.time()] as [%s] prints it, and [random.randint(0, 2**48)] *)
  time_time : list Event -> string;
  randint : list Event -> Z;
  _cleanup_remote_tmp : bool;
  _supports_check_mode : bool;
  TRANSFERS_FILES : bool
}.

(* ================================================================== *)
(** * Methods as state transformers that may raise *)

Definition M (A : Type) : Type := World -> outcome A * World.

Definition ret {A} (a : A) : M A := fun w => (Ret a, w).

Definition raise {A} (e : exn) : M A := fun w => (Raise e, w).

Definition bind {A B} (m : M A) (k : A -> M B) : M B :=
  fun w =>
    match m w with
    | (Ret a, w') => k a w'
    | (Raise e, w') => (Raise e, w')
    end.

Notation "x <- m ;; k" := (bind m (fun x => k))
  (at level 61, m at next level, right associativity).
Notation "' p <- m ;; k" := (bind m (fun x => let p := x in k))
  (at level 61, p pattern, m at next level, right associativity).
Notation "m ;;; k" := (bind m (fun _ => k))
  (at level 61, right associativity).

Definition lift {A} (o : outcome A) : M A := fun w => (o, w).

Definition get_trace : M (list Event) := fun w => (Ret (w_trace w), w).

Definition get_task : M Task := fun w => (Ret (w_task w), w).

Definition set_task (t : Task) : M unit :=
  fun w => (Ret tt, {| w_task := t; w_trace := w_trace w |}).

Definition emit (e : Event) : M unit :=
  fun w => (Ret tt, {| w_task := w_task w; w_trace := w_trace w ++ [e] |}).

(** The events a run adds to the trace. *)
Definition emitted {A} (m : M A) (w : World) : list Event :=
  skipn (List.length (w_trace w)) (w_trace (snd (m w))).

(* ================================================================== *)
(** * Operations on values whose type is only known at run time *)

Module Dyn.

(** [k in v] for a text [k] *)
Definition contains (k : string) (v : pyval) : outcome bool :=
  match v with
  | PDict d => Ret (Dict.mem k d)
  | PList l =>
      Ret (existsb (fun x => match x with
                             | PStr s => String.eqb s k
                             | _ => false
                             end) l)
  | PStr s => Ret (PyStr.contains k s)
  | _ => Raise (PyException "TypeError")
  end.

(** [v[k]] for a text [k] *)
Definition getitem (k : string) (v : pyval) : outcome pyval :=
  match v with
  | PDict d =>
      match Dict.get k d with
      | Some x => Ret x
      | None => Raise (PyException "KeyError")
      end
  | _ => Raise (PyException "TypeError")
  end.

(** [v[k] = x] for a text [k] *)
Definition setitem (k : string) (x : pyval) (v : pyval) : outcome pyval :=
  match v with
  | PDict d => Ret (PDict (Dict.set k x d))
  | _ => Raise (PyException "TypeError")
  end.

(** [v.get(k, default)] *)
Definition get (k : string) (default : pyval) (v : pyval) : outcome pyval :=
  match v with
  | PDict d =>
      match Dict.get k d with
      | Some x => Ret x
      | None => Ret default
      end
  | _ => Raise (PyException "AttributeError")
  end.

(** [v.splitlines()] *)
Definition splitlines (v : pyval) : outcome pyval :=
  match v with
  | PStr s => Ret (PList (map PStr (PyStr.splitlines s)))
  | _ => Raise (PyException "AttributeError")
  end.

End Dyn.

(* ================================================================== *)
(** * The fragment of [re] that [_strip_success_message] uses *)

Module Re.

Inductive regex : Type :=
| Lit (s : string)            (* literal characters *)
| Opt (r : regex)             (* (r)?  greedy *)
| Seq (r1 r2 : regex)
| DotStar.                    (* .*  greedy; the dot excludes LF *)

Fixpoint strip_prefix (p s : string) : option string :=
  match p, s with
  | EmptyString, _ => Some s
  | String a p', String b s' =>
      if Ascii.eqb a b then strip_prefix p' s' else None
  | String _ _, EmptyString => None
  end.

(** Backtracking in the order of the [re] module: [.*] first takes
    as much as it can and gives characters back one at a time. *)
Fixpoint dotstar (s : string) (k : string -> option string)
  : option string :=
  match s with
  | EmptyString => k EmptyString
  | String c s' =>
      if Ascii.eqb c PyStr.LF then k s
      else match dotstar s' k with
           | Some r => Some r
           | None => k s
           end
  end.

(** [matches r s k]: match [r] at the start of [s] and hand what is
    left to [k]; the first success in backtracking order wins. *)
Fixpoint matches (r : regex) (s : string) (k : string -> option string)
  : option string :=
  match r with
  | Lit l =>
      match strip_prefix l s with
      | Some s' => k s'
      | None => None
      end
  | Opt r' =>
      match matches r' s k with
      | Some x => Some x
      | None => k s
      end
  | Seq r1 r2 => matches r1 s (fun s' => matches r2 s' k)
  | DotStar => dotstar s k
  end.

(** [re.sub('^' + r, '', data)]: without [re.MULTILINE] the anchor
    holds at the first character only, so at most one match, at the
    start, is removed. *)
Definition sub_at_start (r : regex) (data : string) : string :=
  match matches r data Some with
  | Some rest => rest
  | None => data
  end.

End Re.

(** The result dictionary of [_low_level_execute_command]; a field is
    [None] when the dictionary has no such key. *)
Record CmdResult : Type := {
  res_rc : option Z;
  res_stdout : option string;
  res_stdout_lines : option (list string);
  res_stderr : option string
}.

Definition KeyError {A} : M A := raise (PyException "KeyError").

Definition getitem_rc (res : CmdResult) : M Z :=
  match res_rc res with Some z => ret z | None => KeyError end.

Definition getitem_stdout (res : CmdResult) : M string :=
  match res_stdout res with Some s => ret s | None => KeyError end.

Definition getitem_stderr (res : CmdResult) : M string :=
  match res_stderr res with Some s => ret s | None => KeyError end.

Definition opt_truthy (o : option string) : bool :=
  match o with Some s => PyStr.nonempty s | None => false end.

Definition opt_text_eqb (a b : option string) : bool :=
  match a, b with
  | None, None => true
  | Some x, Some y => String.eqb x y
  | _, _ => false
  end.

(** [^((\r)?\n)?BECOME-SUCCESS.*(\r)?\n] without its anchor. *)
Definition become_success_re : Re.regex :=
  Re.Seq (Re.Opt (Re.Seq (Re.Opt (Re.Lit (PyStr.chr PyStr.CR)))
                         (Re.Lit (PyStr.chr PyStr.LF))))
    (Re.Seq (Re.Lit "BECOME-SUCCESS")
       (Re.Seq Re.DotStar
          (Re.Seq (Re.Opt (Re.Lit (PyStr.chr PyStr.CR)))
                  (Re.Lit (PyStr.chr PyStr.LF))))).

(** [_strip_success_message] *)
Definition _strip_success_message (data : string) : string :=
  if PyStr.startswith (PyStr.strip data) "BECOME-SUCCESS-"
  then Re.sub_at_start become_success_re data
  else data.

(** The loop of [_filter_leading_non_json_lines]: [idx] after the
    lines not yet seen. *)
Fixpoint leading_non_json_idx (lines : list string) (idx : nat) : nat :=
  match lines with
  | [] => idx
  | line :: rest =>
      if PyStr.startswith line "{" || PyStr.startswith line "["
      then idx
      else leading_non_json_idx rest (idx + String.length line)
  end.

(** [_filter_leading_non_json_lines] *)
Definition _filter_leading_non_json_lines (data : string) : string :=
  let idx := leading_non_json_idx (PyStr.splitlines_keepends data) 0 in
  PyStr.slice_from idx data.

(* ================================================================== *)
(** * The methods of [ActionBase] *)

Section Methods.

Variable self : ActionBase.

Local Abbreviation conn := (_connection self).
Local Abbreviation pc := (_play_context self).
Local Abbreviation sh := (_shell (_connection self)).

(** [_parse_returned_data]; an exception of [json.loads] that is no
    [ValueError] passes the [except] clause by. *)
Definition _parse_returned_data (res : CmdResult) : outcome pyval :=
  let stdout := match res_stdout res with Some s => s | None => "" end in
  match json_loads self (_filter_leading_non_json_lines stdout) with
  | JsonDocument data => Ret data
  | JsonOtherError e => Raise e
  | JsonValueError =>
      (* not valid json, lets try to capture error *)
      let data := [("failed", PBool true); ("parsed", PBool false)] in
      let data := Dict.set "msg" (PStr "MODULE FAILURE") data in
      let data := Dict.set "module_stdout" (PStr stdout) data in
      let data :=
        match res_stderr res with
        | Some err =>
            let data := Dict.set "module_stderr" (PStr err) data in
            if PyStr.startswith err "Traceback"
            then Dict.set "exception" (PStr err) data
            else data
        | None => data
        end in
      Ret (PDict data)
  end.

(** [_low_level_execute_command]; the transport hands over text
    already decoded. *)
Definition _low_level_execute_command
    (cmd : string) (sudoable : bool) (in_data : option string)
    (executable_ : option string) : M CmdResult :=
  if negb (PyStr.nonempty cmd) then
    (* no command, exiting *)
    ret {| res_rc := Some 254%Z; res_stdout := Some "";
           res_stdout_lines := None; res_stderr := Some "" |}
  else
    let allow_same_user := BECOME_ALLOW_SAME_USER (C self) in
    let same_user := opt_text_eqb (become_user pc) (remote_user pc) in
    let cmd :=
      if sudoable && become pc && (allow_same_user || negb same_user)
      then make_become_cmd pc cmd executable_
      else cmd in
    let cmd :=
      if allow_executable conn then
        let executable_ :=
          match executable_ with
          | None => executable pc
          | Some _ => executable_
          end in
        match executable_ with
        | Some e =>
            if PyStr.nonempty e then e +++ " -c " +++ Pipes.quote cmd
            else cmd
        | None => cmd
        end
      else cmd in
    tr <- get_trace ;;
    emit (EvExec cmd in_data sudoable) ;;;
    ' (rc, stdout, stderr) <- lift (exec_command conn tr cmd in_data sudoable) ;;
    let rc := match rc with Some z => z | None => 0%Z end in
    (* be sure to remove the BECOME-SUCCESS message now *)
    let out := _strip_success_message stdout in
    ret {| res_rc := Some rc; res_stdout := Some out;
           res_stdout_lines := Some (PyStr.splitlines out);
           res_stderr := Some stderr |}.

(** [_remote_file_exists] *)
Definition _remote_file_exists (path : string) : M bool :=
  let cmd := exists_ sh path in
  result <- _low_level_execute_command cmd true None None ;;
  rc <- getitem_rc result ;;
  ret (Z.eqb rc 0).

(** [_remote_chmod] *)
Definition _remote_chmod (mode path : string) (recursive sudoable : bool)
  : M CmdResult :=
  let cmd := chmod sh mode path recursive in
  _low_level_execute_command cmd sudoable None None.

(** [_remote_chown] *)
Definition _remote_chown (path : string) (user group : option string)
    (recursive sudoable : bool) : M CmdResult :=
  let cmd := chown sh path user group recursive in
  _low_level_execute_command cmd sudoable None None.

(** [_remote_set_user_facl] *)
Definition _remote_set_user_facl (path : string) (user : option string)
    (mode : string) (recursive sudoable : bool) : M CmdResult :=
  let cmd := set_user_facl sh path user mode recursive in
  _low_level_execute_command cmd sudoable None None.

Definition rc_err_message (prefix : string) (res : CmdResult) : M string :=
  rc <- getitem_rc res ;;
  err <- getitem_stderr res ;;
  ret (prefix +++ " (rc: " +++ PyStr.of_Z rc +++ ", err: " +++ err +++ ")").

(** [become_user not in ('root', remote_user)] *)
Definition become_user_is_other (remote_user_ : pyval) : bool :=
  negb (text_eq (become_user pc) (PStr "root")
        || text_eq (become_user pc) remote_user_).

(** [_fixup_perms] *)
Definition _fixup_perms (remote_path : option string) (remote_user_ : pyval)
    (execute recursive : bool) : M (option string) :=
  if String.eqb (SHELL_FAMILY sh) "powershell" then ret remote_path
  else
    match remote_path with
    | None => ret remote_path
    | Some path =>
        if become pc && become_user_is_other remote_user_ then
          (* Unprivileged user that is different than the ssh user. *)
          res <- _remote_chown path (become_user pc) None recursive false ;;
          rc <- getitem_rc res ;;
          if Z.eqb rc 0 then
            if execute then
              res <- _remote_chmod "u+x" path recursive false ;;
              rc <- getitem_rc res ;;
              if negb (Z.eqb rc 0) then
                msg <- rc_err_message
                  "Failed to set file mode on remote temporary files" res ;;
                raise (AnsibleError msg)
              else ret remote_path
            else ret remote_path
          else if text_eq (Some "root") remote_user_ then
            raise (AnsibleError
              "Failed to change ownership of the temporary files Ansible needs to create despite connecting as root.  Unprivileged become user would be unable to read the file.")
          else
            (* Chown failed; try file system acls. *)
            let mode := if execute then "rx" else "rX" in
            res <- _remote_set_user_facl path (become_user pc) mode
                     recursive false ;;
            rc <- getitem_rc res ;;
            if negb (Z.eqb rc 0) then
              if ALLOW_WORLD_READABLE_TMPFILES (C self) then
                res <- _remote_chmod ("a+" +++ mode) path recursive false ;;
                rc <- getitem_rc res ;;
                if negb (Z.eqb rc 0) then
                  msg <- rc_err_message
                    "Failed to set file mode on remote files" res ;;
                  raise (AnsibleError msg)
                else ret remote_path
              else
                raise (AnsibleError
                  "Failed to set permissions on the temporary files Ansible needs to create when becoming an unprivileged user. For information on working around this, see https://docs.ansible.com/ansible/become.html#becoming-an-unprivileged-user")
            else ret remote_path
        else if execute then
          (* Only need user perms because no become was used here *)
          res <- _remote_chmod "u+x" path recursive false ;;
          rc <- getitem_rc res ;;
          if negb (Z.eqb rc 0) then
            msg <- rc_err_message
              "Failed to set file mode on remote files" res ;;
            raise (AnsibleError msg)
          else ret remote_path
        else ret remote_path
    end.

(** [_make_tmp_path] *)
Definition _make_tmp_path (remote_user_ : pyval) : M string :=
  tr <- get_trace ;;
  let basefile :=
    "ansible-tmp-" +++ time_time self tr +++ "-"
    +++ PyStr.of_Z (randint self tr) in
  let use_system_tmp := become pc && become_user_is_other remote_user_ in
  let tmp_mode := 448%Z in  (* 0o700 *)
  let cmd := mkdtemp sh basefile use_system_tmp tmp_mode in
  result <- _low_level_execute_command cmd false None None ;;
  rc <- getitem_rc result ;;
  (if negb (Z.eqb rc 0) then
     output <-
       (if Z.eqb rc 5 then ret "Authentication failure."
        else if Z.eqb rc 255 && String.eqb (transport conn) "ssh" then
          if Z.ltb 3 (verbosity pc) then
            out <- getitem_stdout result ;;
            err <- getitem_stderr result ;;
            ret ("SSH encountered an unknown error. The output was:"
                 +++ PyStr.chr PyStr.LF +++ out +++ err)
          else
            ret "SSH encountered an unknown error during the connection. We recommend you re-run the command using -vvvv, which will enable SSH debugging output to help diagnose the issue"
        else
          err <- getitem_stderr result ;;
          if PyStr.contains "No space left on device" err then ret err
          else
            ret ("Authentication or permission failure. In some cases, you may have been able to authenticate and did not have permissions on the remote directory. Consider changing the remote temp path in ansible.cfg to a path rooted in "
                 +++ PyStr.chr PyStr.DQ +++ "/tmp" +++ PyStr.chr PyStr.DQ
                 +++ ". Failed command was: " +++ cmd
                 +++ ", exited with result " +++ PyStr.of_Z rc)) ;;
     let output :=
       match res_stdout result with
       | Some out =>
           if negb (String.eqb out "") then output +++ ": " +++ out
           else output
       | None => output
       end in
     raise (AnsibleConnectionFailure output)
   else ret tt) ;;;
  out <- getitem_stdout result ;;
  let rc :=
    match List.rev (PyStr.splitlines (join_path sh (PyStr.strip out) [""])) with
    | last :: _ => last
    | [] => "/"   (* stdout was empty or just space *)
    end in
  if String.eqb rc "/" then
    raise (AnsibleError
      ("failed to resolve remote temporary directory from " +++ basefile
       +++ ": `" +++ cmd +++ "` returned empty string"))
  else ret rc.

(** [_remove_tmp_path] *)
Definition _remove_tmp_path (tmp_path : option string) : M unit :=
  match tmp_path with
  | Some path =>
      if PyStr.nonempty path && _cleanup_remote_tmp self
         && negb (DEFAULT_KEEP_REMOTE_FILES (C self))
         && PyStr.contains "-tmp-" path
      then
        let cmd := remove sh path true in
        _low_level_execute_command cmd false None None ;;; ret tt
      else ret tt
  | None => ret tt
  end.

(** [_transfer_file] and [_transfer_data]: the local temporary file is
    written, handed to [put_file] and unlinked whatever happens; what
    the remote side sees is its content. *)
Definition _transfer_data (remote_path : option string) (data : string)
  : M (option string) :=
  tr <- get_trace ;;
  emit (EvPutFile remote_path data) ;;;
  lift (put_file conn tr remote_path data) ;;;
  ret remote_path.

Definition type_text (v : pyval) : string :=
  match v with
  | PNone => "<type 'NoneType'>"
  | PBool _ => "<type 'bool'>"
  | PInt _ => "<type 'int'>"
  | PStr _ => "<type 'unicode'>"
  | PList _ => "<type 'list'>"
  | PDict _ => "<type 'dict'>"
  end.

(** The loop of [_compute_environment_string] over the list it has
    just reversed. *)
Fixpoint merge_environments (environments : list pyval)
    (final_environment : dict) : outcome dict :=
  match environments with
  | [] => Ret final_environment
  | PNone :: rest => merge_environments rest final_environment
  | environment_ :: rest =>
      match template self environment_ with
      | PDict temp_environment =>
          (* very deliberately using update here *)
          merge_environments rest
            (Dict.update final_environment temp_environment)
      | temp_environment =>
          Raise (AnsibleError
            ("environment must be a dictionary, received "
             +++ text_type (py_repr self) temp_environment
             +++ " (" +++ type_text temp_environment +++ ")"))
      end
  end.

(** [_compute_environment_string]; [environments.reverse()] works in
    place, on the list object the task holds. *)
Definition _compute_environment_string : M string :=
  task <- get_task ;;
  final_environment <-
    match environment task with
    | PNone => ret []
    | PList environments =>
        let reversed := List.rev environments in
        set_task {| action := action task; args := args task;
                    environment := PList reversed;
                    async := async task |} ;;;
        lift (merge_environments reversed [])
    | single => lift (merge_environments (List.rev [single]) [])
    end ;;
  match template self (PDict final_environment) with
  | PDict final_environment =>
      emit (EvEnvPrefix final_environment) ;;;
      ret (env_prefix sh final_environment)
  | _ => raise (PyException "TypeError")
  end.

(** [_early_needs_tmp_path] *)
Definition _early_needs_tmp_path : bool := TRANSFERS_FILES self.

(** [_late_needs_tmp_path] *)
Definition _late_needs_tmp_path (tmp : option string) (module_style : string)
  : bool :=
  if opt_truthy tmp
     && match tmp with Some t => PyStr.contains "tmp" t | None => false end
  then false  (* tmp has already been created *)
  else if negb (has_pipelining conn) || negb (pipelining pc)
          || DEFAULT_KEEP_REMOTE_FILES (C self)
          || opt_text_eqb (become_method pc) (Some "su")
  then true
  else if negb (String.eqb module_style "new") then true
  else false.

(** [module_args] is either the very dictionary the task holds
    ([module_args = self._task.args]) or one the caller built. *)
Inductive ArgsRef : Type :=
| TaskArgs
| OwnArgs (d : dict).

Definition args_read (h : ArgsRef) : M dict :=
  match h with
  | TaskArgs => task <- get_task ;; ret (args task)
  | OwnArgs d => ret d
  end.

(** [module_args[k] = v] *)
Definition args_setitem (k : string) (v : pyval) (h : ArgsRef) : M ArgsRef :=
  match h with
  | TaskArgs =>
      task <- get_task ;;
      set_task {| action := action task; args := Dict.set k v (args task);
                  environment := environment task;
                  async := async task |} ;;;
      ret TaskArgs
  | OwnArgs d => ret (OwnArgs (Dict.set k v d))
  end.

Definition text_in (s : string) (l : list string) : bool :=
  existsb (String.eqb s) l.

(** [for key in ('src', 'dest', 'path')] of [_configure_module] *)
Fixpoint unquote_keys (unquote : pyval -> pyval) (keys : list string)
    (h : ArgsRef) : M ArgsRef :=
  match keys with
  | [] => ret h
  | key :: rest =>
      d <- args_read h ;;
      h <- match Dict.get key d with
           | Some v => args_setitem key (unquote v) h
           | None => ret h
           end ;;
      unquote_keys unquote rest h
  end.

(** The [for mod_type in ...] loop of [_configure_module]; the first
    component is [None] when the loop ends without [break]. *)
Fixpoint search_module_path (prefs : list string) (module_name : string)
    (h : ArgsRef) : M (option string * string * ArgsRef) :=
  match prefs with
  | [] => ret (None, module_name, h)
  | mod_type :: rest =>
      ' (module_name, h) <-
        (if String.eqb mod_type ".ps1" then
           task <- get_task ;;
           let module_name :=
             if text_in module_name ["stat"; "file"; "copy"]
                && negb (String.eqb (action task) module_name)
             then "win_" +++ module_name
             else module_name in
           d <- args_read h ;;
           h <- match _unquote sh with
                | Some unquote =>
                    if text_in module_name
                         ["win_stat"; "win_file"; "win_copy"; "slurp"]
                       && match d with [] => false | _ => true end
                    then unquote_keys unquote ["src"; "dest"; "path"] h
                    else ret h
                | None => ret h
                end ;;
           ret (module_name, h)
         else ret (module_name, h)) ;;
      let module_path := find_plugin self module_name mod_type in
      if opt_truthy module_path then ret (module_path, module_name, h)
      else search_module_path rest module_name h
  end.

(** [_configure_module], giving [(module_style, module_shebang,
    module_data)] and the argument dictionary as it has become. *)
Definition _configure_module (module_name : string) (h : ArgsRef)
    (task_vars : dict)
  : M (string * option string * string * ArgsRef) :=
  ' (found, module_name, h) <-
    search_module_path (module_implementation_preferences conn)
      module_name h ;;
  match found with
  | None =>
      let ping_module :=
        if text_in ".ps1" (module_implementation_preferences conn)
        then "win_ping" else "ping" in
      match find_plugin_any self ping_module
              (module_implementation_preferences conn) with
      | Some _ =>
          raise (AnsibleError
            ("The module " +++ module_name
             +++ " was not found in configured module paths"))
      | None =>
          raise (AnsibleError
            ("The module " +++ module_name
             +++ " was not found in configured module paths. Additionally, core modules are missing. If this is a checkout, run 'git submodule update --init --recursive' to correct this problem."))
      end
  | Some module_path =>
      module_args <- args_read h ;;
      ' (module_data, module_style, module_shebang) <-
        lift (modify_module self module_name module_path module_args
                task_vars (module_compression pc)) ;;
      ret (module_style, module_shebang, module_data, h)
  end.

(** The [k=v] string that an old-style module reads its arguments from. *)
Definition args_data_of (module_args : dict) : string :=
  fold_left
    (fun args_data kv =>
       args_data +++ (fst kv +++ "=" +++ PyStr.chr PyStr.DQ
                      +++ Pipes.quote (text_type (py_repr self) (snd kv))
                      +++ PyStr.chr PyStr.DQ +++ " "))
    module_args "".

Definition tmp_contains (needle : string) (tmp : option string) : bool :=
  match tmp with Some t => PyStr.contains needle t | None => false end.

(** [_execute_module]; [module_name = None] and [module_args =
    TaskArgs] are the defaults taken from the task. *)
Definition _execute_module (module_name : option string)
    (module_args : ArgsRef) (tmp : option string) (task_vars : option dict)
    (persist_files delete_remote_tmp : bool) : M pyval :=
  let task_vars := match task_vars with Some tv => tv | None => [] end in
  task <- get_task ;;
  let module_name :=
    match module_name with Some n => n | None => action task end in
  (* set check mode in the module arguments, if required *)
  module_args <-
    (if check_mode pc then
       if negb (_supports_check_mode self) then
         raise (AnsibleError "check mode is not supported for this operation")
       else args_setitem "_ansible_check_mode" (PBool true) module_args
     else args_setitem "_ansible_check_mode" (PBool false) module_args) ;;
  (* Get the connection user for permission checks *)
  let remote_user_ :=
    match Dict.get "ansible_ssh_user" task_vars with
    | Some v => if truthy v then v else of_option_text (remote_user pc)
    | None => of_option_text (remote_user pc)
    end in
  module_args <-
    args_setitem "_ansible_no_log"
      (PBool (no_log pc || DEFAULT_NO_TARGET_SYSLOG (C self))) module_args ;;
  module_args <-
    args_setitem "_ansible_debug" (PBool (DEFAULT_DEBUG (C self)))
      module_args ;;
  module_args <-
    args_setitem "_ansible_diff" (PBool (diff pc)) module_args ;;
  module_args <-
    args_setitem "_ansible_verbosity" (PInt (display_verbosity self))
      module_args ;;
  ' (module_style, shebang, module_data, module_args) <-
    _configure_module module_name module_args task_vars ;;
  (if negb (opt_truthy shebang) then
     raise (AnsibleError
       ("module (" +++ module_name +++ ") is missing interpreter line"))
   else ret tt) ;;;
  let shebang := match shebang with Some s => s | None => "" end in
  (* a remote tmp path may be necessary and not already created *)
  tmp <-
    (if negb (opt_truthy tmp) && _late_needs_tmp_path tmp module_style
     then t <- _make_tmp_path remote_user_ ;; ret (Some t)
     else ret tmp) ;;
  let remote_module_path :=
    if opt_truthy tmp then
      match tmp with
      | Some t => Some (join_path sh t [get_remote_filename sh module_name])
      | None => None
      end
    else None in
  let args_file_path :=
    if opt_truthy tmp && text_in module_style ["old"; "non_native_want_json"]
    then match tmp with
         | Some t => Some (join_path sh t ["args"])
         | None => None
         end
    else None in
  (if opt_truthy remote_module_path || negb (String.eqb module_style "new")
   then
     _transfer_data remote_module_path module_data ;;;
     (if String.eqb module_style "old" then
        d <- args_read module_args ;;
        _transfer_data args_file_path (args_data_of d) ;;; ret tt
      else if String.eqb module_style "non_native_want_json" then
        d <- args_read module_args ;;
        _transfer_data args_file_path (json_dumps self d) ;;; ret tt
      else ret tt)
   else ret tt) ;;;
  environment_string <- _compute_environment_string ;;
  (* Fix permissions of the tmp path and tmp files. *)
  _fixup_perms tmp remote_user_ false true ;;;
  let pipelined :=
    has_pipelining conn && pipelining pc
    && negb (DEFAULT_KEEP_REMOTE_FILES (C self))
    && String.eqb module_style "new" in
  let in_data := if pipelined then Some module_data else None in
  let cmd :=
    if pipelined then ""
    else if opt_truthy remote_module_path then
      match remote_module_path with Some p => p | None => "" end
    else "" in
  let rm_tmp :=
    if opt_truthy tmp && tmp_contains "tmp" tmp
       && negb (DEFAULT_KEEP_REMOTE_FILES (C self))
       && negb persist_files && delete_remote_tmp
    then
      if negb (become pc) || opt_text_eqb (become_user pc) (Some "root")
      then tmp  (* can cleanup files in the same step *)
      else None
    else None in
  emit (EvBuildModuleCommand environment_string shebang cmd
          args_file_path rm_tmp) ;;;
  let cmd :=
    build_module_command sh environment_string shebang cmd
      args_file_path rm_tmp in
  let cmd := PyStr.strip cmd in
  (* always run the accelerate module as the user specified in the play *)
  let sudoable := negb (String.eqb module_name "accelerate") in
  res <- _low_level_execute_command cmd sudoable in_data None ;;
  (if opt_truthy tmp && tmp_contains "tmp" tmp
      && negb (DEFAULT_KEEP_REMOTE_FILES (C self))
      && negb persist_files && delete_remote_tmp
   then
     if become pc && negb (opt_text_eqb (become_user pc) (Some "root"))
     then
       (* clean up temp files as original user in a second step *)
       let tmp_rm_cmd :=
         remove sh (match tmp with Some t => t | None => "" end) true in
       tmp_rm_res <- _low_level_execute_command tmp_rm_cmd false None None ;;
       tmp_rm_data <- lift (_parse_returned_data tmp_rm_res) ;;
       lift (Dyn.get "rc" (PInt 0) tmp_rm_data) ;;; ret tt
     else ret tt
   else ret tt) ;;;
  (* parse the main result *)
  data <- lift (_parse_returned_data res) ;;
  has_stdout <- lift (Dyn.contains "stdout" data) ;;
  if has_stdout then
    has_lines <- lift (Dyn.contains "stdout_lines" data) ;;
    if negb has_lines then
      out <- lift (Dyn.get "stdout" (PStr "") data) ;;
      lines <- lift (Dyn.splitlines out) ;;
      lift (Dyn.setitem "stdout_lines" lines data)
    else ret data
  else ret data.

(** [_execute_remote_stat] *)
Definition _execute_remote_stat (path : string) (all_vars : option dict)
    (follow : bool) (tmp : option string) : M pyval :=
  let module_args :=
    [("path", PStr path); ("follow", PBool follow);
     ("get_md5", PBool false); ("get_checksum", PBool true);
     ("checksum_algo", PStr "sha1")] in
  mystat <- _execute_module (Some "stat") (OwnArgs module_args) tmp all_vars
              false (match tmp with None => true | Some _ => false end) ;;
  has_failed <- lift (Dyn.contains "failed" mystat) ;;
  failed <- (if has_failed
             then f <- lift (Dyn.getitem "failed" mystat) ;; ret (truthy f)
             else ret false) ;;
  (if failed then
     msg <- lift (Dyn.getitem "msg" mystat) ;;
     raise (AnsibleError
       ("Failed to get information on remote file (" +++ path +++ "): "
        +++ text_type (py_repr self) msg))
   else ret tt) ;;;
  stat <- lift (Dyn.getitem "stat" mystat) ;;
  exists_v <- lift (Dyn.getitem "exists" stat) ;;
  stat <-
    (if negb (truthy exists_v)
     then lift (Dyn.setitem "checksum" (PStr "1") stat)
     else ret stat) ;;
  (* happens sometimes when it is a dir and not on bsd *)
  has_checksum <- lift (Dyn.contains "checksum" stat) ;;
  if negb has_checksum
  then lift (Dyn.setitem "checksum" (PStr "") stat)
  else ret stat.

(** [_remote_checksum]: whatever happens in the [try], the [return x]
    of the [finally] clause ends the call. *)
Definition _remote_checksum (path : string) (all_vars : option dict)
  : M pyval :=
  fun w =>
    let x := PStr "0" in  (* unknown error has occured *)
    let body :=
      remote_stat <- _execute_remote_stat path all_vars false None ;;
      exists_v <- lift (Dyn.getitem "exists" remote_stat) ;;
      is_dir <-
        (if truthy exists_v
         then d <- lift (Dyn.getitem "isdir" remote_stat) ;; ret (truthy d)
         else ret false) ;;
      if is_dir then ret (PStr "3")  (* its a directory not a file *)
      else lift (Dyn.getitem "checksum" remote_stat) in
    match body w with
    | (Ret x, w') => (Ret x, w')
    | (Raise e, w') =>
        match ansible_error_text e with
        | Some errormsg =>
            if PyStr.endswith errormsg "Permission denied"
            then (Ret (PStr "2"), w')  (* cannot read file *)
            else if PyStr.endswith errormsg "MODULE FAILURE"
            then (Ret (PStr "4"), w')  (* python not found *)
            else (Ret x, w')
        | None => (Ret x, w')
        end
    end.

End Methods.

(* ================================================================== *)
(** * The methods that work on the controlling machine *)

(** [s.split(sep, 1)] for a separator of one character: the text before
    the first separator and, when there is one, the text after it. *)
Fixpoint split_once (sep : ascii) (s : string) : string * option string :=
  match s with
  | EmptyString => (EmptyString, None)
  | String c s' =>
      if Ascii.eqb c sep then (EmptyString, Some s')
      else let (a, b) := split_once sep s' in (String c a, b)
  end.

(** [os.path.sep] of the controlling machine, which is a POSIX one. *)
Definition os_path_sep : ascii := "/"%char.

(** [v == s] for a text [s] *)
Definition py_eq_text (v : pyval) (s : string) : bool :=
  match v with PStr t => String.eqb t s | _ => false end.

(** [v == n] for an integer [n]; a boolean is the integer 0 or 1. *)
Definition py_eq_int (v : pyval) (n : Z) : bool :=
  match v with
  | PInt z => Z.eqb z n
  | PBool b => Z.eqb (if b then 1 else 0) n
  | _ => false
  end.

(** [v > n] for an integer [n], in the order Python 2 puts values of
    different types in: [None] is below every number, text, lists and
    dictionaries are above. *)
Definition py_gt_int (v : pyval) (n : Z) : bool :=
  match v with
  | PNone => false
  | PBool b => Z.ltb n (if b then 1 else 0)
  | PInt z => Z.ltb n z
  | _ => true
  end.

(** What the two methods below see of the controlling machine: the
    role of the task, the loader, the local file system, and the
    constant and the decoder [_get_diff_data] uses. *)
Record Controller : Type := {
  (** [self._task._role._role_path]; [None] for a task outside a role *)
  role_path : option string;
  (** [self._loader.path_dwim_relative(lead, searchdir, name)] *)
  path_dwim_relative : pyval -> string -> pyval -> string;
  os_path_exists : string -> bool;
  (** [C.MAX_FILE_SIZE_FOR_DIFF] *)
  MAX_FILE_SIZE_FOR_DIFF : Z;
  (** [base64.b64decode] *)
  b64decode : pyval -> outcome string;
  (** [os.stat(path)[stat.ST_SIZE]] *)
  os_stat_size : string -> outcome Z;
  (** [open(path).read()]: the content, or [str(e)] of the exception *)
  read_file : string -> string + string
}.

(** The text that stands for a file content under [no_log]. *)
Definition hidden_diff_text : string :=
  " [[ Diff output has been hidden because 'no_log: true' was specified for this result ]]".

(** The last statements of [_get_diff_data]. *)
Definition hide_diff (diff : dict) : dict :=
  let diff :=
    if Dict.mem "before" diff then Dict.set "before" (PStr "") diff
    else diff in
  if Dict.mem "after" diff then Dict.set "after" (PStr hidden_diff_text) diff
  else diff.

Section LocalMethods.

Variable self : ActionBase.
Variable ctl : Controller.

Local Abbreviation pc := (_play_context self).
Local Abbreviation sh := (_shell (_connection self)).

(** [_remote_expand_user] *)
Definition _remote_expand_user (path : string) : M string :=
  if negb (PyStr.startswith path "~") then ret path
  else
    let split_path := split_once os_path_sep path in
    let expand_path := fst split_path in
    let expand_path :=
      if String.eqb expand_path "~" then
        if become pc && opt_truthy (become_user pc)
        then "~" +++ match become_user pc with Some u => u | None => "" end
        else expand_path
      else expand_path in
    let cmd := expand_user sh expand_path in
    data <- _low_level_execute_command self cmd false None None ;;
    out <- getitem_stdout data ;;
    match List.rev (PyStr.splitlines (PyStr.strip out)) with
    | [] => raise (PyException "IndexError")
    | initial_fragment :: _ =>
        if negb (PyStr.nonempty initial_fragment) then
          (* Something went wrong trying to expand the path remotely. *)
          ret path
        else
          match snd split_path with
          | Some rest => ret (join_path sh initial_fragment [rest])
          | None => ret initial_fragment
          end
    end.

(** [_get_first_available_file]; [of_] is the parameter [of], and
    [PNone] when it is left out. *)
Fixpoint _get_first_available_file (faf : list pyval) (of_ : pyval)
    (searchdir : string) : option string :=
  match faf with
  | [] => None
  | fn :: rest =>
      let fnt := template self fn in
      let lead :=
        match role_path ctl with Some p => PStr p | None => fnt end in
      let fnd := path_dwim_relative ctl lead searchdir fnt in
      let fnd :=
        if negb (os_path_exists ctl fnd)
           && match of_ with PNone => false | _ => true end
        then
          let lead :=
            match role_path ctl with Some p => PStr p | None => of_ end in
          path_dwim_relative ctl lead searchdir of_
        else fnd in
      if os_path_exists ctl fnd then Some fnd
      else _get_first_available_file rest of_ searchdir
  end.

(** The part of [_get_diff_data] that looks at the destination, once
    the peek went well. *)
Definition diff_before (destination : string) (task_vars : option dict)
    (peek_result : pyval) (diff : dict) : M dict :=
  state <- lift (Dyn.getitem "state" peek_result) ;;
  if py_eq_text state "absent" then ret (Dict.set "before" (PStr "") diff)
  else
    binary <- lift (Dyn.getitem "appears_binary" peek_result) ;;
    if truthy binary then ret (Dict.set "dst_binary" (PInt 1) diff)
    else
      larger <-
        (if Z.ltb 0 (MAX_FILE_SIZE_FOR_DIFF ctl) then
           size <- lift (Dyn.getitem "size" peek_result) ;;
           ret (py_gt_int size (MAX_FILE_SIZE_FOR_DIFF ctl))
         else ret false) ;;
      if larger
      then ret (Dict.set "dst_larger" (PInt (MAX_FILE_SIZE_FOR_DIFF ctl)) diff)
      else
        dest_result <-
          _execute_module self (Some "slurp")
            (OwnArgs [("path", PStr destination)]) None task_vars true true ;;
        has_content <- lift (Dyn.contains "content" dest_result) ;;
        if has_content then
          dest_contents <- lift (Dyn.getitem "content" dest_result) ;;
          encoding <- lift (Dyn.getitem "encoding" dest_result) ;;
          dest_contents <-
            (if py_eq_text encoding "base64"
             then lift (b64decode ctl dest_contents)
             else raise (AnsibleError
                    ("unknown encoding in content option, failed: "
                     +++ text_type (py_repr self) dest_result))) ;;
          let diff := Dict.set "before_header" (PStr destination) diff in
          ret (Dict.set "before" (PStr dest_contents) diff)
        else ret diff.

(** The part of [_get_diff_data] that looks at the source. *)
Definition diff_after (source : string) (source_file : bool) (diff : dict)
  : M dict :=
  if source_file then
    size <- lift (os_stat_size ctl source) ;;
    if Z.ltb 0 (MAX_FILE_SIZE_FOR_DIFF ctl)
       && Z.ltb (MAX_FILE_SIZE_FOR_DIFF ctl) size
    then ret (Dict.set "src_larger" (PInt (MAX_FILE_SIZE_FOR_DIFF ctl)) diff)
    else
      match read_file ctl source with
      | inr e =>
          raise (AnsibleError
            ("Unexpected error while reading source (" +++ source
             +++ ") for diff: " +++ e +++ " "))
      | inl src_contents =>
          if PyStr.contains (PyStr.chr Ascii.zero) src_contents
          then ret (Dict.set "src_binary" (PInt 1) diff)
          else
            let diff := Dict.set "after_header" (PStr source) diff in
            ret (Dict.set "after" (PStr src_contents) diff)
      end
  else
    (* source of file passed in *)
    let diff := Dict.set "after_header" (PStr "dynamically generated") diff in
    ret (Dict.set "after" (PStr source) diff).

(** [_get_diff_data] *)
Definition _get_diff_data (destination source : string)
    (task_vars : option dict) (source_file : bool) : M dict :=
  let diff := [] in
  (* Going to peek to see if file has changed permissions *)
  peek_result <-
    _execute_module self (Some "file")
      (OwnArgs [("path", PStr destination); ("diff_peek", PBool true)])
      None task_vars true true ;;
  has_failed <- lift (Dyn.contains "failed" peek_result) ;;
  failed <-
    (if has_failed
     then f <- lift (Dyn.getitem "failed" peek_result) ;; ret (truthy f)
     else ret false) ;;
  proceed <-
    (if negb failed then ret true
     else
       rc <- lift (Dyn.get "rc" (PInt 0) peek_result) ;;
       ret (py_eq_int rc 0)) ;;
  diff <-
    (if proceed then
       diff <- diff_before destination task_vars peek_result diff ;;
       diff_after source source_file diff
     else ret diff) ;;
  if no_log pc then ret (hide_diff diff) else ret diff.

End LocalMethods.

(* ================================================================== *)
(** * Reference definitions the properties are stated with *)

(** Leading lines that do not begin with an opening brace or bracket
    are discarded; what is left is put back together. *)
Fixpoint drop_banner_lines (lines : list string) : list string :=
  match lines with
  | [] => []
  | line :: rest =>
      if PyStr.startswith line "{" || PyStr.startswith line "["
      then lines
      else drop_banner_lines rest
  end.

Definition discard_banner (data : string) : string :=
  String.concat "" (drop_banner_lines (PyStr.splitlines_keepends data)).

(** A line that starts with the sentinel and ends with LF. *)
Definition is_become_success_line (line : string) : bool :=
  PyStr.startswith line "BECOME-SUCCESS-"
  && PyStr.endswith line (PyStr.chr PyStr.LF).

Definition has_become_success_line (out : string) : bool :=
  existsb is_become_success_line (PyStr.splitlines_keepends out).

(** The five sentinels of [_remote_checksum]. *)
Definition checksum_sentinels : list pyval :=
  [PStr "0"; PStr "1"; PStr "2"; PStr "3"; PStr "4"].

Definition is_hex_digit (c : ascii) : bool :=
  let n := Ascii.nat_of_ascii c in
  ((48 <=? n) && (n <=? 57)) || ((97 <=? n) && (n <=? 102))
  || ((65 <=? n) && (n <=? 70)).

(** Forty hexadecimal digits. *)
Definition is_sha1_hex (s : string) : bool :=
  (String.length s =? 40) && PyStr.forallb is_hex_digit s.

Definition no_newline (s : string) : bool :=
  PyStr.forallb (fun c => negb (Ascii.eqb c PyStr.LF)) s.


(** The value of [k] in the first mapping, in the order of the task,
    whose templated form has the key. *)
Fixpoint first_binding (template : pyval -> pyval) (k : string)
    (environments : list pyval) : option pyval :=
  match environments with
  | [] => None
  | PNone :: rest => first_binding template k rest
  | e :: rest =>
      match template e with
      | PDict d =>
          match Dict.get k d with
          | Some v => Some v
          | None => first_binding template k rest
          end
      | _ => first_binding template k rest
      end
  end.

(** The value of [k] in the last such mapping. *)
Definition last_binding (template : pyval -> pyval) (k : string)
    (environments : list pyval) : option pyval :=
  first_binding template k (List.rev environments).

(** [tmp and "tmp" in tmp]: a temporary directory is already there. *)
Definition tmp_exists (tmp : option string) : bool :=
  opt_truthy tmp && tmp_contains "tmp" tmp.

(** The need for a temporary directory read as one flat disjunction. *)
Definition late_needs_as_disjunction (self : ActionBase)
    (tmp : option string) (module_style : string) : bool :=
  negb (tmp_exists tmp)
  || negb (has_pipelining (_connection self))
  || negb (pipelining (_play_context self))
  || DEFAULT_KEEP_REMOTE_FILES (C self)
  || opt_text_eqb (become_method (_play_context self)) (Some "su")
  || negb (String.eqb module_style "new").

(** The arguments the module invoker itself writes into [module_args]. *)
Definition control_keys : list string :=
  ["_ansible_check_mode"; "_ansible_no_log"; "_ansible_debug";
   "_ansible_diff"; "_ansible_verbosity"].

(** The path arguments [_configure_module] may unquote. *)
Definition path_keys : list string := ["src"; "dest"; "path"].


(** Whatever mapping the templar makes of [e] is a dictionary: no key
    occurs twice in it. *)
Definition templates_to_dict (template : pyval -> pyval) (e : pyval) : Prop :=
  forall d : dict, template e = PDict d -> NoDup (Dict.keys d).

(** The arguments [_execute_remote_stat] calls the stat module with. *)
Definition stat_module_args (path : string) (follow : bool) : dict :=
  [("path", PStr path); ("follow", PBool follow);
   ("get_md5", PBool false); ("get_checksum", PBool true);
   ("checksum_algo", PStr "sha1")].

(** The run of the stat module that [_remote_checksum] starts. *)
Definition stat_run (self : ActionBase) (path : string)
    (all_vars : option dict) (w : World) : outcome pyval * World :=
  _execute_module self (Some "stat") (OwnArgs (stat_module_args path false))
    None all_vars false true w.

(** The checksum entry of the document the stat module printed. *)
Definition reported_checksum (mystat : pyval) : outcome pyval :=
  match Dyn.getitem "stat" mystat with
  | Ret stat => Dyn.getitem "checksum" stat
  | Raise e => Raise e
  end.

(** The command as the transport gets it when [sudoable] is false:
    only the executable wrapper of [_low_level_execute_command] applies. *)
Definition with_executable (self : ActionBase) (cmd : string)
    (executable_ : option string) : string :=
  if allow_executable (_connection self) then
    match match executable_ with
          | None => executable (_play_context self)
          | Some _ => executable_
          end with
    | Some e =>
        if PyStr.nonempty e then e +++ " -c " +++ Pipes.quote cmd else cmd
    | None => cmd
    end
  else cmd.

(** [m] takes every world to one that [R] relates it to, and what it
    returns satisfies [Q]. *)
Definition respects {A : Type} (R : World -> World -> Prop) (Q : A -> Prop)
    (m : M A) : Prop :=
  forall w : World,
    R w (snd (m w)) /\ (forall a : A, fst (m w) = Ret a -> Q a).

Definition any {A : Type} : A -> Prop := fun _ => True.

(** When [_execute_module] may ask the module command to remove [t]. *)
Definition piggyback_allowed (self : ActionBase)
    (persist_files delete_remote_tmp : bool) (t : string) : bool :=
  PyStr.contains "tmp" t
  && negb (DEFAULT_KEEP_REMOTE_FILES (C self))
  && negb persist_files && delete_remote_tmp
  && (negb (become (_play_context self))
      || opt_text_eqb (become_user (_play_context self)) (Some "root")).

(** A call of [build_module_command] that asks for a removal does so
    only when that is allowed. *)
Definition removal_allowed (self : ActionBase)
    (persist_files delete_remote_tmp : bool) (e : Event) : Prop :=
  match e with
  | EvBuildModuleCommand _ _ _ _ (Some t) =>
      piggyback_allowed self persist_files delete_remote_tmp t = true
  | _ => True
  end.

(** The trace only grows, by events that satisfy [ok]. *)
Definition grows_by (ok : Event -> Prop) (w w' : World) : Prop :=
  exists l : list Event, w_trace w' = w_trace w ++ l /\ Forall ok l.

(** The task is as before, except that a list environment may have
    been turned around and that [args] may differ at the given keys. *)
Definition task_kept_except (keys : list string) (w w' : World) : Prop :=
  action (w_task w') = action (w_task w)
  /\ async (w_task w') = async (w_task w)
  /\ (environment (w_task w') = environment (w_task w)
      \/ exists l : list pyval,
           environment (w_task w) = PList l
           /\ environment (w_task w') = PList (List.rev l))
  /\ (forall k : string,
         ~ In k keys ->
         Dict.get k (args (w_task w')) = Dict.get k (args (w_task w)))
  /\ (keys = [] -> args (w_task w') = args (w_task w)).

(** [module_args] may be written through when it is not the
    dictionary of the task, or when [allowed] holds. *)
Definition ref_ok (allowed : Prop) (h : ArgsRef) : Prop :=
  match h with
  | TaskArgs => allowed
  | OwnArgs _ => True
  end.

(** Modelled from the spec: shell unquoting, the way a POSIX shell
    takes a line apart into words.  White space separates words; between
    single quotes every character stands for itself; between double
    quotes a backslash takes the special meaning from a double quote, a
    backslash, a dollar sign and a backquote, and stands for itself before
    anything else; outside quotes a backslash makes the next character an
    ordinary one.  Expansions and comments are left out. *)
Inductive quoting : Type :=
| Unquoted
| SingleQuoted
| DoubleQuoted.

Definition BACKSLASH : ascii := Ascii.ascii_of_nat 92.

Definition shell_blank (c : ascii) : bool :=
  existsb (Nat.eqb (Ascii.nat_of_ascii c)) [32; 9; 10; 13].

(** The characters a backslash escapes between double quotes. *)
Definition escaped_in_double_quotes (c : ascii) : bool :=
  existsb (Nat.eqb (Ascii.nat_of_ascii c)) [34; 92; 36; 96].

Definition word_text (word : option string) : string :=
  match word with Some t => t | None => "" end.

Definition word_done (word : option string) : list string :=
  match word with Some t => [t] | None => [] end.

(** [word] is the word being read, [None] between words; the result is
    [None] when a quote is left open or a backslash ends the line. *)
Fixpoint shell_words (s : string) (q : quoting) (word : option string)
    (acc : list string) : option (list string) :=
  match s with
  | EmptyString =>
      match q with
      | Unquoted => Some (acc ++ word_done word)
      | _ => None
      end
  | String c rest =>
      match q with
      | Unquoted =>
          if shell_blank c
          then shell_words rest Unquoted None (acc ++ word_done word)
          else if Ascii.eqb c PyStr.SQ
          then shell_words rest SingleQuoted (Some (word_text word)) acc
          else if Ascii.eqb c PyStr.DQ
          then shell_words rest DoubleQuoted (Some (word_text word)) acc
          else if Ascii.eqb c BACKSLASH then
            match rest with
            | EmptyString => None
            | String d rest' =>
                shell_words rest' Unquoted
                  (Some (word_text word +++ PyStr.chr d)) acc
            end
          else
            shell_words rest Unquoted
              (Some (word_text word +++ PyStr.chr c)) acc
      | SingleQuoted =>
          if Ascii.eqb c PyStr.SQ then shell_words rest Unquoted word acc
          else
            shell_words rest SingleQuoted
              (Some (word_text word +++ PyStr.chr c)) acc
      | DoubleQuoted =>
          if Ascii.eqb c PyStr.DQ then shell_words rest Unquoted word acc
          else if Ascii.eqb c BACKSLASH then
            match rest with
            | EmptyString => None
            | String d rest' =>
                if escaped_in_double_quotes d
                then shell_words rest' DoubleQuoted
                       (Some (word_text word +++ PyStr.chr d)) acc
                else shell_words rest' DoubleQuoted
                       (Some (word_text word +++ PyStr.chr c
                              +++ PyStr.chr d)) acc
            end
          else
            shell_words rest DoubleQuoted
              (Some (word_text word +++ PyStr.chr c)) acc
      end
  end.

(** The arguments a line of [k=v] words stands for: every word, with
    its quoting taken away, is a key up to its first equals sign and a
    value after it. *)
Definition shell_args (line : string) : option (list (string * string)) :=
  match shell_words line Unquoted None [] with
  | Some words =>
      Some (map (fun word =>
                   let (k, v) := split_once "="%char word in
                   (k, word_text v)) words)
  | None => None
  end.

(** The texts a pattern matches, as the [re] module reads it. *)
Fixpoint re_matches_text (r : Re.regex) (p : string) : Prop :=
  match r with
  | Re.Lit l => p = l
  | Re.Opt r' => p = "" \/ re_matches_text r' p
  | Re.Seq r1 r2 =>
      exists a b : string,
        p = a +++ b /\ re_matches_text r1 a /\ re_matches_text r2 b
  | Re.DotStar => no_newline p = true
  end.

(** The text begins with an opening brace or bracket. *)
Definition starts_json (s : string) : bool :=
  PyStr.startswith s "{" || PyStr.startswith s "[".

(** The command [_make_tmp_path] builds in a world: the name of the
    directory comes from the clock and the random number generator, the
    system directory is asked for when become goes to a user other than
    root and the connecting one, and the mode is 0700. *)
Definition mkdtemp_command (self : ActionBase) (remote_user_ : pyval)
    (w : World) : string :=
  mkdtemp (_shell (_connection self))
    ("ansible-tmp-" +++ time_time self (w_trace w) +++ "-"
     +++ PyStr.of_Z (randint self (w_trace w)))
    (become (_play_context self) && become_user_is_other self remote_user_)
    448%Z.

(** The world after one more call on the connection. *)
Definition after_exec (w : World) (cmd : string) (in_data : option string)
    (sudoable : bool) : World :=
  {| w_task := w_task w;
     w_trace := w_trace w ++ [EvExec cmd in_data sudoable] |}.

(** The name [_remote_expand_user] has the remote shell expand: what
    stands before the first separator of the path, and for a bare tilde
    under become the home of the become user. *)
Definition expand_target (self : ActionBase) (path : string) : string :=
  let head := fst (split_once os_path_sep path) in
  if String.eqb head "~" && become (_play_context self)
     && opt_truthy (become_user (_play_context self))
  then "~" +++ match become_user (_play_context self) with
               | Some u => u
               | None => ""
               end
  else head.

(** Where [_get_first_available_file] looks for a name: below the role
    of the task when it has one, else relative to the name itself. *)
Definition candidate_path (ctl : Controller) (searchdir : string)
    (name : pyval) : string :=
  path_dwim_relative ctl
    match role_path ctl with Some p => PStr p | None => name end
    searchdir name.

(** The commands [_fixup_perms] has at hand for a path short of
    opening it to every user: chown to the become user, chmod u+x, and
    setfacl for the become user; none of them is run through become. *)
Definition private_perms_commands (self : ActionBase) (path : string)
    (execute recursive : bool) : list Event :=
  map (fun cmd => EvExec (with_executable self cmd None) None false)
    [chown (_shell (_connection self)) path
       (become_user (_play_context self)) None recursive;
     chmod (_shell (_connection self)) "u+x" path recursive;
     set_user_facl (_shell (_connection self)) path
       (become_user (_play_context self))
       (if execute then "rx" else "rX") recursive].

(** A call on the connection that is not a command run through become. *)
Definition unprivileged (e : Event) : Prop :=
  match e with
  | EvExec _ _ sudoable => sudoable = false
  | _ => True
  end.

(** A call on the connection that puts no file on the remote side. *)
Definition no_upload (e : Event) : Prop :=
  match e with
  | EvPutFile _ _ => False
  | _ => True
  end.

(** The module assembler hands out modules of the new style only. *)
Definition only_new_style (self : ActionBase) : Prop :=
  forall (name path : string) (module_args task_vars : dict)
         (compression data style : string) (shebang : option string),
    modify_module self name path module_args task_vars compression
    = Ret (data, style, shebang) ->
    style = "new".

(** The module assembler finds no interpreter line in any module. *)
Definition no_interpreter_line (self : ActionBase) : Prop :=
  forall (name path : string) (module_args task_vars : dict)
         (compression data style : string) (shebang : option string),
    modify_module self name path module_args task_vars compression
    = Ret (data, style, shebang) ->
    opt_truthy shebang = false.

(** No call on the connection at all. *)
Definition no_call (e : Event) : Prop := False.

(** Nothing the remote side prints is a JSON document, as when the
    interpreter a module needs is not there. *)
Definition never_json (self : ActionBase) : Prop :=
  forall s : string, json_loads self s = JsonValueError.

(* ================================================================== *)
(** * Concrete collaborators for running the methods *)

Module Fixture.

Definition LFs : string := PyStr.chr PyStr.LF.

Definition join_with_slash (a : string) (parts : list string) : string :=
  fold_left (fun acc p => acc +++ "/" +++ p) parts a.

Definition opt_text (o : option string) : string :=
  match o with Some s => s | None => "" end.

(** A shell of the POSIX family. *)
Definition sh : Shell := {|
  SHELL_FAMILY := "sh";
  mkdtemp := fun basefile _ _ => "mkdir -p /tmp/" +++ basefile;
  remove := fun path _ => "rm -rf " +++ path;
  chmod := fun mode path _ => "chmod " +++ mode +++ " " +++ path;
  chown := fun path user _ _ => "chown " +++ opt_text user +++ " " +++ path;
  set_user_facl := fun path user mode _ =>
    "setfacl -m u:" +++ opt_text user +++ ":" +++ mode +++ " " +++ path;
  exists_ := fun path => "test -e " +++ path;
  expand_user := fun u => "echo " +++ u;
  join_path := join_with_slash;
  env_prefix := fun _ => "";
  get_remote_filename := fun name => name;
  build_module_command := fun env shebang cmd arg_path rm_tmp =>
    env +++ " /usr/bin/python " +++ cmd +++ " " +++ opt_text arg_path
    +++ match rm_tmp with
        | Some t => "; rm -rf " +++ t
        | None => ""
        end;
  _unquote := None
|}.

(** A connection whose remote side answers every command alike. *)
Definition connection (pipelining_ok : bool)
    (answer : outcome (option Z * string * string)) : Connection := {|
  transport := "ssh";
  module_implementation_preferences := [""];
  has_pipelining := pipelining_ok;
  allow_executable := false;
  _shell := sh;
  exec_command := fun _ _ _ _ => answer;
  put_file := fun _ _ _ => Ret tt
|}.

Definition play (become_ : bool) (become_user_ : option string)
    (pipelining_ : bool) : PlayContext := {|
  become := become_;
  become_user := become_user_;
  become_method := Some "sudo";
  remote_user := Some "alice";
  pipelining := pipelining_;
  check_mode := false;
  no_log := false;
  diff := false;
  verbosity := 0%Z;
  executable := None;
  module_compression := "ZIP_STORED";
  make_become_cmd := fun cmd _ => "sudo " +++ cmd
|}.

Definition constants : Constants := {|
  DEFAULT_KEEP_REMOTE_FILES := false;
  DEFAULT_NO_TARGET_SYSLOG := false;
  DEFAULT_DEBUG := false;
  ALLOW_WORLD_READABLE_TMPFILES := false;
  BECOME_ALLOW_SAME_USER := false
|}.

(** An executor over [conn] and [pc]; the assembler hands out a
    module of the given style, [loads] is the JSON reader. *)
Definition action_base (conn : Connection) (pc : PlayContext)
    (style : string) (loads : string -> json_result) : ActionBase := {|
  _connection := conn;
  _play_context := pc;
  C := constants;
  template := fun v => v;
  find_plugin := fun name _ => Some ("/modules/" +++ name);
  find_plugin_any := fun name _ => Some ("/modules/" +++ name);
  modify_module := fun _ _ _ _ _ =>
    Ret ("#!/usr/bin/python" +++ LFs +++ "main()", style,
         Some "#!/usr/bin/python");
  json_loads := loads;
  json_dumps := fun _ => "{}";
  py_repr := fun _ => "<object>";
  display_verbosity := 0%Z;
  time_time := fun _ => "1458000000.0";
  randint := fun _ => 42%Z;
  _cleanup_remote_tmp := true;
  _supports_check_mode := true;
  TRANSFERS_FILES := false
|}.

Definition task (args_ : dict) (environment_ : pyval) : Task := {|
  action := "ping";
  args := args_;
  environment := environment_;
  async := 0%Z
|}.

Definition world (t : Task) : World := {| w_task := t; w_trace := [] |}.

(** No JSON reader: every text is refused. *)
Definition no_json : string -> json_result := fun _ => JsonValueError.

(** A JSON reader that knows one document. *)
Definition one_json (text : string) (doc : pyval) : string -> json_result :=
  fun s => if String.eqb s text then JsonDocument doc else JsonValueError.

(** [n] opening brackets. *)
Fixpoint brackets (n : nat) : string :=
  match n with
  | O => ""
  | S n' => String "[" (brackets n')
  end.

(** A JSON reader that knows no document and that, as the reader of
    the standard library does, gives up on brackets nested a thousand
    deep with the error of a recursion gone too deep. *)
Definition deep_json : string -> json_result :=
  fun s =>
    if String.eqb s (brackets 1000)
    then JsonOtherError (PyException "RuntimeError")
    else JsonValueError.

End Fixture.

(** A controlling machine for running the local methods: the files
    named in [present] exist, and the decoder hands its text back. *)
Module ControllerFixture.

Definition controller (present : list string) : Controller := {|
  role_path := None;
  path_dwim_relative := fun _ searchdir name =>
    searchdir +++ "/" +++ text_type (fun _ => "") name;
  os_path_exists := fun p => text_in p present;
  MAX_FILE_SIZE_FOR_DIFF := 104448%Z;
  b64decode := fun v =>
    match v with
    | PStr s => Ret s
    | _ => Raise (PyException "TypeError")
    end;
  os_stat_size := fun _ => Ret 13%Z;
  read_file := fun _ => inl "local content"
|}.

(** A play that hides its results. *)
Definition play_no_log : PlayContext := {|
  become := false;
  become_user := None;
  become_method := Some "sudo";
  remote_user := Some "alice";
  pipelining := true;
  check_mode := false;
  no_log := true;
  diff := true;
  verbosity := 0%Z;
  executable := None;
  module_compression := "ZIP_STORED";
  make_become_cmd := fun cmd _ => "sudo " +++ cmd
|}.

(** What the file module and the slurp module print here. *)
Definition peek_document : pyval :=
  PDict [("state", PStr "file"); ("appears_binary", PBool false);
         ("size", PInt 6); ("content", PStr "secret");
         ("encoding", PStr "base64")].

End ControllerFixture.

(** An executor whose module loader knows the modules named in
    [known] only, and whose assembler finds the interpreter line
    [shebang] in a module. *)
Module ExecutorFixture.

Definition executor (conn : Connection) (pc : PlayContext)
    (known : list string) (shebang : option string)
    (loads : string -> json_result) : ActionBase := {|
  _connection := conn;
  _play_context := pc;
  C := Fixture.constants;
  template := fun v => v;
  find_plugin := fun name _ =>
    if text_in name known then Some ("/modules/" +++ name) else None;
  find_plugin_any := fun name _ =>
    if text_in name known then Some ("/modules/" +++ name) else None;
  modify_module := fun _ _ _ _ _ => Ret ("main()", "new", shebang);
  json_loads := loads;
  json_dumps := fun _ => "{}";
  py_repr := fun _ => "<object>";
  display_verbosity := 0%Z;
  time_time := fun _ => "1458000000.0";
  randint := fun _ => 42%Z;
  _cleanup_remote_tmp := true;
  _supports_check_mode := true;
  TRANSFERS_FILES := false
|}.

End ExecutorFixture.

(* ================================================================== *)
(** * Properties *)

(* ------------------------------------------------------------------ *)
(** ** C6: when a temporary directory is needed late *)

(** C6, as stated, fails: with no temporary directory yet, pipelining
    available and enabled, files not kept, a become method other than su
    and a module of the new style, [_late_needs_tmp_path] answers no
    although the flat disjunction answers yes; and with a temporary
    directory at hand and pipelining disabled it answers no as well. *)
Lemma late_needs_tmp_path_not_a_disjunction :
  let piped :=
    Fixture.action_base (Fixture.connection true (Raise (PyException "IOError")))
      (Fixture.play false None true) "new" Fixture.no_json in
  let unpiped :=
    Fixture.action_base (Fixture.connection true (Raise (PyException "IOError")))
      (Fixture.play false None false) "new" Fixture.no_json in
  (_late_needs_tmp_path piped None "new" = false
   /\ late_needs_as_disjunction piped None "new" = true)
  /\ (_late_needs_tmp_path unpiped (Some "/home/alice/ansible-tmp-1") "new" = false
      /\ late_needs_as_disjunction unpiped (Some "/home/alice/ansible-tmp-1") "new"
         = true).
Proof. repeat split; reflexivity. Qed.

(** C6, amended: [_late_needs_tmp_path] answers yes exactly when no
    temporary directory is there yet (tmp is empty or its name lacks
    tmp) and, in addition, pipelining is unsupported or disabled, or
    remote files are kept, or the become method is su, or the module
    style is not new. *)
Theorem late_needs_tmp_path_spec :
  forall (self : ActionBase) (tmp : option string) (module_style : string),
    _late_needs_tmp_path self tmp module_style
    = negb (tmp_exists tmp)
      && (negb (has_pipelining (_connection self))
          || negb (pipelining (_play_context self))
          || DEFAULT_KEEP_REMOTE_FILES (C self)
          || opt_text_eqb (become_method (_play_context self)) (Some "su")
          || negb (String.eqb module_style "new")).
Proof.
  intros self tmp module_style.
  unfold _late_needs_tmp_path, tmp_exists, tmp_contains.
  destruct (opt_truthy tmp && _)%bool; simpl; [reflexivity|].
  destruct (negb (has_pipelining (_connection self)) || _ || _ || _)%bool;
    simpl; [reflexivity|].
  destruct (negb (module_style =? "new")%string); reflexivity.
Qed.

(* ------------------------------------------------------------------ *)
(** ** Text lemmas *)

Lemma append_empty_r : forall s : string, s +++ "" = s.
Proof. induction s as [|c s IH]; simpl; [reflexivity | now rewrite IH]. Qed.

Lemma append_assoc : forall a b c : string, (a +++ b) +++ c = a +++ (b +++ c).
Proof. induction a as [|x a IH]; intros; simpl; [reflexivity | now rewrite IH]. Qed.

Lemma length_append : forall a b : string,
  String.length (a +++ b) = String.length a + String.length b.
Proof. induction a as [|x a IH]; intros; simpl; [reflexivity | now rewrite IH]. Qed.

Lemma concat_empty_cons : forall (x : string) (xs : list string),
  String.concat "" (x :: xs) = x +++ String.concat "" xs.
Proof.
  intros x [|y ys]; simpl; [now rewrite append_empty_r | reflexivity].
Qed.

Lemma slice_from_append : forall (pre s : string) (n : nat),
  PyStr.slice_from (String.length pre + n) (pre +++ s) = PyStr.slice_from n s.
Proof. induction pre as [|c pre IH]; intros; simpl; [reflexivity | apply IH]. Qed.

Lemma concat_splitlines_keepends : forall s : string,
  String.concat "" (PyStr.splitlines_keepends s) = s.
Proof.
  induction s as [|c s IH]; [reflexivity|].
  simpl. destruct (PyStr.ends_line_here c s).
  - rewrite concat_empty_cons, IH. reflexivity.
  - destruct (PyStr.splitlines_keepends s) as [|l ls] eqn:E.
    + simpl in IH. subst s. reflexivity.
    + rewrite concat_empty_cons. rewrite concat_empty_cons in IH.
      simpl. now rewrite IH.
Qed.

(* ------------------------------------------------------------------ *)
(** ** C9: parsing what a module printed *)

Lemma leading_non_json_idx_slice : forall (lines : list string) (pre : string),
  PyStr.slice_from (leading_non_json_idx lines (String.length pre))
    (pre +++ String.concat "" lines)
  = String.concat "" (drop_banner_lines lines).
Proof.
  induction lines as [|line rest IH]; intros pre.
  - simpl. rewrite <- (Nat.add_0_r (String.length pre)).
    now rewrite slice_from_append.
  - cbn [leading_non_json_idx drop_banner_lines].
    destruct (PyStr.startswith line "{" || PyStr.startswith line "[")%bool.
    + rewrite <- (Nat.add_0_r (String.length pre)).
      now rewrite slice_from_append.
    + rewrite concat_empty_cons, <- append_assoc, <- length_append.
      apply IH.
Qed.

(** The index arithmetic of [_filter_leading_non_json_lines] drops
    exactly the leading lines that cannot start a JSON document. *)
Lemma filter_leading_non_json_lines_spec : forall data : string,
  _filter_leading_non_json_lines data = discard_banner data.
Proof.
  intros data. unfold _filter_leading_non_json_lines, discard_banner.
  pose proof (leading_non_json_idx_slice (PyStr.splitlines_keepends data) "") as H.
  simpl in H. now rewrite concat_splitlines_keepends in H.
Qed.

(** C9, as stated, fails: a thousand opening brackets are no JSON
    document, and the reader does not refuse them with a ValueError but
    ends in the error of a recursion gone too deep, which the except
    clause of [_parse_returned_data] lets through: the call raises and
    returns no mapping. *)
Lemma parse_returned_data_raises :
  let self :=
    Fixture.action_base (Fixture.connection true (Ret (Some 0%Z, "", "")))
      (Fixture.play false None true) "new" Fixture.deep_json in
  let stdout := Fixture.brackets 1000 in
  let res :=
    {| res_rc := Some 0%Z; res_stdout := Some stdout;
       res_stdout_lines := Some (PyStr.splitlines stdout);
       res_stderr := Some "" |} in
  (forall document : pyval,
      json_loads self (discard_banner stdout) <> JsonDocument document)
  /\ _parse_returned_data self res = Raise (PyException "RuntimeError")
  /\ forall d : dict, _parse_returned_data self res <> Ret (PDict d).
Proof.
  assert (H : discard_banner (Fixture.brackets 1000) = Fixture.brackets 1000)
    by (vm_compute; reflexivity).
  assert (Hf : _filter_leading_non_json_lines (Fixture.brackets 1000)
               = Fixture.brackets 1000)
    by (vm_compute; reflexivity).
  cbv zeta. split; [|split].
  - intros document. rewrite H. vm_compute. discriminate.
  - unfold _parse_returned_data. cbn [res_stdout]. rewrite Hf.
    vm_compute. reflexivity.
  - intros d. unfold _parse_returned_data. cbn [res_stdout]. rewrite Hf.
    vm_compute. discriminate.
Qed.

(** C9, amended: whenever [json.loads], given what is left of stdout
    after the leading lines that do not begin with an opening brace or
    bracket, returns a document or raises ValueError,
    [_parse_returned_data] returns.  On ValueError the result is a mapping
    with failed=true, parsed=false, msg=MODULE FAILURE, module_stdout the
    raw stdout, module_stderr the raw stderr when the result has one,
    exception that same stderr exactly when it begins with Traceback, and
    nothing else; a document is returned as it is. *)
Theorem parse_returned_data_spec :
  forall (self : ActionBase) (res : CmdResult),
    let stdout := match res_stdout res with Some s => s | None => "" end in
    (forall e : exn,
        json_loads self (discard_banner stdout) <> JsonOtherError e) ->
    match json_loads self (discard_banner stdout) with
    | JsonDocument document => _parse_returned_data self res = Ret document
    | _ =>
        exists d : dict,
          _parse_returned_data self res = Ret (PDict d)
          /\ Dict.get "failed" d = Some (PBool true)
          /\ Dict.get "parsed" d = Some (PBool false)
          /\ Dict.get "msg" d = Some (PStr "MODULE FAILURE")
          /\ Dict.get "module_stdout" d = Some (PStr stdout)
          /\ Dict.get "module_stderr" d = option_map PStr (res_stderr res)
          /\ Dict.get "exception" d
             = match res_stderr res with
               | Some err =>
                   if PyStr.startswith err "Traceback"
                   then Some (PStr err) else None
               | None => None
               end
          /\ incl (Dict.keys d)
               ["failed"; "parsed"; "msg"; "module_stdout"; "module_stderr";
                "exception"]
    end.
Proof.
  intros self res stdout Hcaught. unfold _parse_returned_data. fold stdout.
  rewrite filter_leading_non_json_lines_spec.
  destruct (json_loads self (discard_banner stdout)) as [document| |e];
    [reflexivity| |now elim (Hcaught e)].
  destruct (res_stderr res) as [err|]; simpl.
  - destruct (PyStr.startswith err "Traceback"); eexists;
      (split; [reflexivity|]); simpl; repeat split;
      intros k Hk; simpl in *; tauto.
  - eexists; split; [reflexivity|]; simpl; repeat split.
    intros k Hk; simpl in *; tauto.
Qed.

(** Two lines of a login banner, the second ended by CR LF, before
    the document: the document comes back. *)
Lemma parse_returned_data_spec_witness :
  let document := PDict [("changed", PBool false)] in
  let self :=
    Fixture.action_base (Fixture.connection true (Ret (Some 0%Z, "", "")))
      (Fixture.play false None true) "new"
      (Fixture.one_json "{}" document) in
  let stdout :=
    "Last login: today" +++ PyStr.chr PyStr.LF
    +++ "mesg: ttyname failed" +++ PyStr.chr PyStr.CR +++ PyStr.chr PyStr.LF
    +++ "{}" in
  let res :=
    {| res_rc := Some 0%Z; res_stdout := Some stdout;
       res_stdout_lines := Some (PyStr.splitlines stdout);
       res_stderr := Some "" |} in
  discard_banner stdout = "{}"
  /\ _parse_returned_data self res = Ret document.
Proof.
  intros document self stdout res. split; [reflexivity|].
  apply (parse_returned_data_spec self res).
  intros e. vm_compute. discriminate.
Defined.

(* ------------------------------------------------------------------ *)
(** ** C8: the BECOME-SUCCESS sentinel *)

Lemma rstrip_cons_nonspace : forall (c : ascii) (s : string),
  PyStr.isspace c = false ->
  PyStr.rstrip (String c s) = String c (PyStr.rstrip s).
Proof.
  intros c s H. simpl. rewrite H. now destruct (PyStr.rstrip s).
Qed.

Lemma strip_keeps_sentinel : forall t : string,
  PyStr.startswith (PyStr.rstrip ("BECOME-SUCCESS-" +++ t)) "BECOME-SUCCESS-"
  = true.
Proof.
  intros t. cbn [String.append].
  repeat (rewrite rstrip_cons_nonspace by reflexivity).
  unfold PyStr.startswith. cbn. now destruct (PyStr.rstrip t).
Qed.

Lemma dotstar_to_newline :
  forall (t rest : string) (k : string -> option string),
    no_newline t = true ->
    k (String PyStr.LF rest) = Some rest ->
    Re.dotstar (t +++ String PyStr.LF rest) k = Some rest.
Proof.
  induction t as [|c t IH]; intros rest k H Hk.
  - exact Hk.
  - simpl in H. apply andb_prop in H as [Hc Ht].
    cbn [String.append Re.dotstar].
    apply negb_true_iff in Hc. rewrite Hc.
    now rewrite (IH rest k Ht Hk).
Qed.

Lemma sub_removes_leading_sentinel : forall (pre token rest : string),
  In pre [""; PyStr.chr PyStr.LF; String PyStr.CR (PyStr.chr PyStr.LF)] ->
  no_newline token = true ->
  Re.sub_at_start become_success_re
    (pre +++ "BECOME-SUCCESS-" +++ token +++ String PyStr.LF rest)
  = rest.
Proof.
  intros pre token rest Hpre Htok.
  unfold Re.sub_at_start, become_success_re.
  destruct Hpre as [<-|[<-|[<-|[]]]]; cbn -[Re.dotstar];
    match goal with
    | |- context [Re.dotstar ?s ?k] =>
        replace (Re.dotstar s k) with (Some rest);
        [ reflexivity
        | symmetry; apply (dotstar_to_newline (String "-" token) rest k);
          [ exact Htok | reflexivity ] ]
    end.
Qed.

Lemma strip_success_message_leading : forall (pre token rest : string),
  In pre [""; PyStr.chr PyStr.LF; String PyStr.CR (PyStr.chr PyStr.LF)] ->
  no_newline token = true ->
  _strip_success_message
    (pre +++ "BECOME-SUCCESS-" +++ token +++ String PyStr.LF rest)
  = rest.
Proof.
  intros pre token rest Hpre Htok.
  unfold _strip_success_message.
  rewrite (sub_removes_leading_sentinel pre token rest Hpre Htok).
  assert (Hg : PyStr.startswith
                 (PyStr.strip
                    (pre +++ "BECOME-SUCCESS-" +++ token +++ String PyStr.LF rest))
                 "BECOME-SUCCESS-" = true).
  { unfold PyStr.strip.
    destruct Hpre as [<-|[<-|[<-|[]]]];
      cbn [String.append PyStr.lstrip PyStr.chr];
      change (PyStr.isspace PyStr.LF) with true;
      change (PyStr.isspace PyStr.CR) with true;
      change (PyStr.isspace "B") with false; cbv iota;
      apply (strip_keeps_sentinel (token +++ String PyStr.LF rest)). }
  now rewrite Hg.
Qed.

(** C8, as stated, fails: a sentinel line after two line breaks, or
    after a line of noise, is still there in the stdout that
    [_low_level_execute_command] returns. *)
Lemma become_success_line_survives :
  let LFs := Fixture.LFs in
  let run raw :=
    fst (_low_level_execute_command
           (Fixture.action_base
              (Fixture.connection false (Ret (Some 0%Z, raw, "")))
              (Fixture.play true (Some "root") false) "new" Fixture.no_json)
           "whoami" true None None (Fixture.world (Fixture.task [] PNone))) in
  let blank := LFs +++ LFs +++ "BECOME-SUCCESS-abcdef" +++ LFs +++ "root" +++ LFs in
  let noisy := "Last login: today" +++ LFs
               +++ "BECOME-SUCCESS-abcdef" +++ LFs +++ "root" +++ LFs in
  (exists r, run blank = Ret r /\ res_stdout r = Some blank
             /\ has_become_success_line blank = true)
  /\ (exists r, run noisy = Ret r /\ res_stdout r = Some noisy
                /\ has_become_success_line noisy = true).
Proof.
  split; eexists; (split; [reflexivity|]); split; reflexivity.
Qed.

(** C8, amended: when the raw stdout begins with the sentinel line
    BECOME-SUCCESS-<token>, preceded by nothing, by LF or by CR LF and
    ended by LF, [_low_level_execute_command] returns the stdout that
    follows that line, for every token; a sentinel elsewhere is not
    looked for. *)
Theorem low_level_execute_command_strips_leading_sentinel :
  forall (self : ActionBase) (cmd : string) (sudoable : bool)
         (in_data executable_ : option string) (w : World)
         (rc : option Z) (pre token rest err : string),
    PyStr.nonempty cmd = true ->
    In pre [""; PyStr.chr PyStr.LF; String PyStr.CR (PyStr.chr PyStr.LF)] ->
    no_newline token = true ->
    (forall c : string,
        exec_command (_connection self) (w_trace w) c in_data sudoable
        = Ret (rc, pre +++ "BECOME-SUCCESS-" +++ token +++ String PyStr.LF rest,
               err)) ->
    exists (r : CmdResult) (w' : World),
      _low_level_execute_command self cmd sudoable in_data executable_ w
      = (Ret r, w')
      /\ res_stdout r = Some rest
      /\ res_stdout_lines r = Some (PyStr.splitlines rest).
Proof.
  intros self cmd sudoable in_data executable_ w rc pre token rest err
         Hcmd Hpre Htok Hexec.
  unfold _low_level_execute_command. rewrite Hcmd. cbn [negb].
  unfold bind, get_trace, emit, lift. cbn [w_trace w_task].
  rewrite Hexec.
  rewrite (strip_success_message_leading pre token rest Hpre Htok).
  eexists. eexists. split; [reflexivity|]. split; reflexivity.
Qed.

Lemma low_level_execute_command_strips_leading_sentinel_witness :
  let LFs := Fixture.LFs in
  exists (r : CmdResult) (w' : World),
    _low_level_execute_command
      (Fixture.action_base
         (Fixture.connection false
            (Ret (Some 0%Z,
                  LFs +++ "BECOME-SUCCESS-" +++ "abcdef"
                  +++ String PyStr.LF ("root" +++ LFs), "")))
         (Fixture.play true (Some "root") false) "new" Fixture.no_json)
      "whoami" true None None (Fixture.world (Fixture.task [] PNone))
    = (Ret r, w')
    /\ res_stdout r = Some ("root" +++ LFs)
    /\ res_stdout_lines r = Some (PyStr.splitlines ("root" +++ LFs)).
Proof.
  intro LFs.
  apply (low_level_execute_command_strips_leading_sentinel
           _ "whoami" true None None _ (Some 0%Z) LFs "abcdef"
           ("root" +++ LFs) "").
  - reflexivity.
  - right. left. reflexivity.
  - reflexivity.
  - intros c. reflexivity.
Defined.

(* ------------------------------------------------------------------ *)
(** ** Dictionaries *)

Lemma dict_get_set : forall (k k' : string) (v : pyval) (d : dict),
  Dict.get k (Dict.set k' v d)
  = if String.eqb k k' then Some v else Dict.get k d.
Proof.
  intros k k' v d. induction d as [|[k0 v0] d IH]; simpl.
  - reflexivity.
  - destruct (String.eqb k' k0) eqn:E0; simpl.
    + apply String.eqb_eq in E0. subst k0.
      destruct (String.eqb k k'); reflexivity.
    + destruct (String.eqb k k0) eqn:E1.
      * apply String.eqb_eq in E1. subst k0.
        rewrite String.eqb_sym in E0. now rewrite E0.
      * exact IH.
Qed.

Lemma dict_get_in_keys : forall (k : string) (d : dict) (v : pyval),
  Dict.get k d = Some v -> In k (Dict.keys d).
Proof.
  induction d as [|[k0 v0] d IH]; simpl; intros v H; [discriminate|].
  destruct (String.eqb k k0) eqn:E.
  - left. symmetry. now apply String.eqb_eq.
  - right. eapply IH. eassumption.
Qed.

(** [d.update(other)]: the keys of [other] take its values, the rest
    keep theirs. *)
Lemma dict_get_update : forall (k : string) (other d : dict),
  NoDup (Dict.keys other) ->
  Dict.get k (Dict.update d other)
  = match Dict.get k other with
    | Some v => Some v
    | None => Dict.get k d
    end.
Proof.
  intros k other. unfold Dict.update.
  induction other as [|[k0 v0] other IH]; intros d Hnd; simpl.
  - reflexivity.
  - inversion Hnd as [|? ? Hnotin Hnd']; subst.
    rewrite (IH _ Hnd'). rewrite dict_get_set.
    destruct (Dict.get k other) as [v|] eqn:Eo.
    + destruct (String.eqb k k0) eqn:E; [|reflexivity].
      apply String.eqb_eq in E. subst k0.
      exfalso. apply Hnotin. eapply dict_get_in_keys. eassumption.
    + destruct (String.eqb k k0); reflexivity.
Qed.

Lemma skipn_length_app : forall (A : Type) (l l' : list A),
  skipn (List.length l) (l ++ l') = l'.
Proof. induction l as [|x l IH]; intros; simpl; [reflexivity | apply IH]. Qed.

(* ------------------------------------------------------------------ *)
(** ** C1: which environment entry wins *)

Lemma first_binding_app : forall template k (a b : list pyval),
  first_binding template k (a ++ b)
  = match first_binding template k a with
    | Some v => Some v
    | None => first_binding template k b
    end.
Proof.
  intros template k a b. induction a as [|e a IH]; simpl; [reflexivity|].
  destruct e; try exact IH;
    (destruct (template _); try exact IH;
     destruct (Dict.get k _); [reflexivity | exact IH]).
Qed.

(** The merge loop: what it leaves under a key is the value of the
    last mapping it went through that has the key. *)
Lemma merge_environments_get :
  forall (self : ActionBase) (k : string) (environments : list pyval)
         (final final' : dict),
    Forall (templates_to_dict (template self)) environments ->
    merge_environments self environments final = Ret final' ->
    Dict.get k final'
    = match first_binding (template self) k (List.rev environments) with
      | Some v => Some v
      | None => Dict.get k final
      end.
Proof.
  intros self k environments.
  induction environments as [|e rest IH]; intros final final' Hwf Hm.
  - simpl in *. now inversion Hm.
  - inversion Hwf as [|? ? He Hrest]; subst.
    cbn [List.rev]. rewrite first_binding_app.
    destruct e; cbn [merge_environments first_binding] in *.
    1: { rewrite (IH _ _ Hrest Hm).
         now destruct (first_binding (template self) k (List.rev rest)). }
    all: destruct (template self _) as [| | | | |te] eqn:Et;
      try discriminate Hm;
      rewrite (IH _ _ Hrest Hm);
      rewrite (dict_get_update k te final (He te Et));
      destruct (first_binding (template self) k (List.rev rest));
      [reflexivity|];
      destruct (Dict.get k te); reflexivity.
Qed.

(** One run of [_compute_environment_string] on a task whose
    environment is a list. *)
Lemma compute_environment_string_run :
  forall (self : ActionBase) (w : World) (environments : list pyval),
    environment (w_task w) = PList environments ->
    let reversed :=
      {| w_task := {| action := action (w_task w); args := args (w_task w);
                      environment := PList (List.rev environments);
                      async := async (w_task w) |};
         w_trace := w_trace w |} in
    _compute_environment_string self w
    = match merge_environments self (List.rev environments) [] with
      | Ret merged =>
          match template self (PDict merged) with
          | PDict passed =>
              (Ret (env_prefix (_shell (_connection self)) passed),
               {| w_task := w_task reversed;
                  w_trace := w_trace w ++ [EvEnvPrefix passed] |})
          | _ => (Raise (PyException "TypeError"), reversed)
          end
      | Raise e => (Raise e, reversed)
      end.
Proof.
  intros self w environments Henv reversed.
  unfold _compute_environment_string, bind, get_task, set_task, lift, emit, ret,
    raise.
  rewrite Henv. cbn [w_task w_trace].
  destruct (merge_environments self (List.rev environments) []); [|reflexivity].
  destruct (template self (PDict a)); reflexivity.
Qed.

(** C1, as stated, fails: of two mappings that both set PATH, the one
    handed to [env_prefix] carries the value of the first mapping of the
    task's list, not of the last. *)
Lemma environment_last_entry_does_not_win :
  let environments :=
    [PDict [("PATH", PStr "/first")]; PDict [("PATH", PStr "/last")]] in
  let self :=
    Fixture.action_base (Fixture.connection false (Raise (PyException "IOError")))
      (Fixture.play false None false) "new" Fixture.no_json in
  let w := Fixture.world (Fixture.task [] (PList environments)) in
  exists passed : dict,
    emitted (_compute_environment_string self) w = [EvEnvPrefix passed]
    /\ last_binding (template self) "PATH" environments = Some (PStr "/last")
    /\ Dict.get "PATH" passed = Some (PStr "/first")
    /\ Dict.get "PATH" passed
       <> last_binding (template self) "PATH" environments.
Proof.
  eexists. split; [reflexivity|]. split; [reflexivity|].
  split; [reflexivity|]. cbv. discriminate.
Qed.

(** C1, amended: when the environment of the task is a list whose
    entries the templar turns into dictionaries, the mapping
    [_compute_environment_string] builds gives every key the value of the
    first entry, in the order of the task's list, that has the key; that
    mapping, templated once more, is the one passed to [env_prefix], whose
    answer is returned. *)
Theorem compute_environment_string_first_entry_wins :
  forall (self : ActionBase) (w w' : World) (environments : list pyval)
         (s : string),
    environment (w_task w) = PList environments ->
    Forall (templates_to_dict (template self)) environments ->
    _compute_environment_string self w = (Ret s, w') ->
    exists merged passed : dict,
      (forall k : string,
          Dict.get k merged = first_binding (template self) k environments)
      /\ template self (PDict merged) = PDict passed
      /\ emitted (_compute_environment_string self) w = [EvEnvPrefix passed]
      /\ s = env_prefix (_shell (_connection self)) passed.
Proof.
  intros self w w' environments s Henv Hwf Hrun.
  unfold emitted.
  rewrite (compute_environment_string_run self w environments Henv) in *.
  destruct (merge_environments self (List.rev environments) []) as [merged|e]
    eqn:Hm; [|discriminate].
  destruct (template self (PDict merged)) as [| | | | |passed] eqn:Ht;
    try discriminate.
  inversion Hrun; subst. cbn [snd w_trace].
  exists merged, passed.
  split; [|split; [exact Ht|split; [apply skipn_length_app|reflexivity]]].
  - intros k.
    rewrite (merge_environments_get self k (List.rev environments) [] merged).
    + rewrite List.rev_involutive.
      now destruct (first_binding (template self) k environments).
    + apply Forall_rev. exact Hwf.
    + exact Hm.
Qed.

Lemma compute_environment_string_first_entry_wins_witness :
  let environments :=
    [PDict [("PATH", PStr "/first")]; PNone;
     PDict [("PATH", PStr "/last"); ("LANG", PStr "C")]] in
  let self :=
    Fixture.action_base (Fixture.connection false (Raise (PyException "IOError")))
      (Fixture.play false None false) "new" Fixture.no_json in
  let w := Fixture.world (Fixture.task [] (PList environments)) in
  exists merged passed : dict,
    (forall k : string,
        Dict.get k merged = first_binding (template self) k environments)
    /\ template self (PDict merged) = PDict passed
    /\ emitted (_compute_environment_string self) w = [EvEnvPrefix passed]
    /\ "" = env_prefix (_shell (_connection self)) passed.
Proof.
  intros environments self w.
  apply (compute_environment_string_first_entry_wins self w
           (snd (_compute_environment_string self w)) environments "").
  - reflexivity.
  - repeat constructor; intros d H; inversion H; subst;
      repeat constructor; simpl; intuition discriminate.
  - reflexivity.
Defined.

(* ------------------------------------------------------------------ *)
(** ** C3 and C10: the remote checksum *)

Lemma bind_unfold : forall (A B : Type) (m : M A) (k : A -> M B) (w : World),
  bind m k w
  = match m w with
    | (Ret a, w') => k a w'
    | (Raise e, w') => (Raise e, w')
    end.
Proof. reflexivity. Qed.

(** The last statements of [_execute_remote_stat]: they leave the
    world alone and either raise or return a dictionary with a
    checksum, which is the text 1, the empty text, or the checksum the
    stat module reported. *)
Lemma remote_stat_checksum_fixup :
  forall (mystat : pyval) (w1 : World),
    exists o : outcome pyval,
      (stat <- lift (Dyn.getitem "stat" mystat) ;;
       exists_v <- lift (Dyn.getitem "exists" stat) ;;
       stat <-
         (if negb (truthy exists_v)
          then lift (Dyn.setitem "checksum" (PStr "1") stat)
          else ret stat) ;;
       has_checksum <- lift (Dyn.contains "checksum" stat) ;;
       if negb has_checksum
       then lift (Dyn.setitem "checksum" (PStr "") stat)
       else ret stat) w1 = (o, w1)
      /\ match o with
         | Raise _ => True
         | Ret remote_stat =>
             exists (stat : pyval) (c : pyval),
               Dyn.getitem "stat" mystat = Ret stat
               /\ Dyn.getitem "checksum" remote_stat = Ret c
               /\ Dyn.getitem "exists" remote_stat = Dyn.getitem "exists" stat
               /\ Dyn.getitem "isdir" remote_stat = Dyn.getitem "isdir" stat
               /\ (c = PStr "1" \/ c = PStr ""
                   \/ Dyn.getitem "checksum" stat = Ret c)
         end.
Proof.
  intros mystat w1. unfold bind, lift, ret.
  destruct (Dyn.getitem "stat" mystat) as [stat|e];
    [|eexists; split; [reflexivity|exact I]].
  destruct stat as [| | | | |d];
    try (eexists; split; [reflexivity|exact I]).
  cbn [Dyn.getitem].
  destruct (Dict.get "exists" d) as [exists_v|] eqn:Eex;
    [|eexists; split; [reflexivity|exact I]].
  destruct (truthy exists_v); cbn [negb Dyn.setitem Dyn.contains];
    unfold Dict.mem.
  - destruct (Dict.get "checksum" d) as [c|] eqn:Ec; cbn [negb Dyn.setitem].
    + eexists. split; [reflexivity|].
      exists (PDict d), c. cbn [Dyn.getitem]. rewrite Ec.
      repeat split; auto.
    + eexists. split; [reflexivity|].
      exists (PDict d), (PStr ""). cbn [Dyn.getitem].
      rewrite !dict_get_set. cbn. repeat split; auto.
  - rewrite dict_get_set. cbn [String.eqb Ascii.eqb Bool.eqb negb].
    eexists. split; [reflexivity|].
    exists (PDict d), (PStr "1"). cbn [Dyn.getitem].
    rewrite !dict_get_set. cbn. repeat split; auto.
Qed.

(** What [_execute_remote_stat] makes of the answer of the stat
    module. *)
Lemma execute_remote_stat_cases :
  forall (self : ActionBase) (path : string) (all_vars : option dict)
         (follow : bool) (tmp : option string) (w : World),
    let run :=
      _execute_module self (Some "stat")
        (OwnArgs (stat_module_args path follow)) tmp all_vars false
        (match tmp with None => true | Some _ => false end) w in
    match fst run with
    | Raise e =>
        _execute_remote_stat self path all_vars follow tmp w = (Raise e, snd run)
    | Ret mystat =>
        exists o : outcome pyval,
          _execute_remote_stat self path all_vars follow tmp w = (o, snd run)
          /\ match o with
             | Raise _ => True
             | Ret remote_stat =>
                 exists (stat : pyval) (c : pyval),
                   Dyn.getitem "stat" mystat = Ret stat
                   /\ Dyn.getitem "checksum" remote_stat = Ret c
                   /\ Dyn.getitem "exists" remote_stat = Dyn.getitem "exists" stat
                   /\ Dyn.getitem "isdir" remote_stat = Dyn.getitem "isdir" stat
                   /\ (c = PStr "1" \/ c = PStr ""
                       \/ Dyn.getitem "checksum" stat = Ret c)
             end
    end.
Proof.
  intros self path all_vars follow tmp w run. subst run.
  unfold _execute_remote_stat. fold (stat_module_args path follow).
  rewrite bind_unfold.
  destruct (_execute_module self (Some "stat") _ tmp all_vars false _ w)
    as [[mystat|e] w1]; cbn [fst snd]; [|reflexivity].
  rewrite bind_unfold. unfold lift at 1.
  destruct (Dyn.contains "failed" mystat) as [has_failed|e1];
    [|eexists; split; [reflexivity|exact I]].
  rewrite bind_unfold.
  destruct has_failed.
  - rewrite bind_unfold. unfold lift at 1.
    destruct (Dyn.getitem "failed" mystat) as [f|e1];
      [|eexists; split; [reflexivity|exact I]].
    unfold ret at 1. destruct (truthy f).
    + rewrite bind_unfold, bind_unfold. unfold lift at 1.
      destruct (Dyn.getitem "msg" mystat);
        eexists; (split; [reflexivity|exact I]).
    + rewrite bind_unfold. unfold ret at 1.
      exact (remote_stat_checksum_fixup mystat w1).
  - unfold ret at 1. rewrite bind_unfold. unfold ret at 1.
    exact (remote_stat_checksum_fixup mystat w1).
Qed.

(** The [except] and [finally] clauses of [_remote_checksum] turn any
    exception into one of three sentinels. *)
Ltac swallow_exception :=
  cbn;
  repeat match goal with
         | |- context [ansible_error_text ?e] =>
             destruct (ansible_error_text e)
         | |- context [PyStr.endswith ?m ?s] =>
             destruct (PyStr.endswith m s)
         end;
  eexists; (split; [reflexivity | cbn; tauto]).




(** Every way through [_remote_checksum]. *)
Lemma remote_checksum_cases :
  forall (self : ActionBase) (path : string) (all_vars : option dict)
         (w : World),
    exists x : pyval,
      _remote_checksum self path all_vars w
      = (Ret x, snd (stat_run self path all_vars w))
      /\ match fst (stat_run self path all_vars w) with
         | Raise _ => In x [PStr "0"; PStr "2"; PStr "4"]
         | Ret mystat =>
             In x checksum_sentinels \/ x = PStr ""
             \/ reported_checksum mystat = Ret x
         end.
Proof.
  intros self path all_vars w.
  pose proof (execute_remote_stat_cases self path all_vars false None w) as Hs.
  cbv zeta in Hs. unfold stat_run.
  unfold _remote_checksum. rewrite bind_unfold.
  destruct (_execute_module self (Some "stat") _ None all_vars false true w)
    as [[mystat|e] w1]; cbn [fst snd] in *.
  - destruct Hs as [o [Hrun Hpost]]. rewrite Hrun.
    destruct o as [remote_stat|e]; [|swallow_exception].
    destruct Hpost as [stat [c [Hstat [Hc [Hex [Hdir Hor]]]]]].
    unfold bind, lift, ret.
    destruct (Dyn.getitem "exists" remote_stat) as [exists_v|e];
      [|swallow_exception].
    assert (Hrep : In c checksum_sentinels \/ c = PStr ""
                   \/ reported_checksum mystat = Ret c).
    { unfold reported_checksum. rewrite Hstat.
      destruct Hor as [->|[->|Hrep]]; cbn; tauto. }
    destruct (truthy exists_v).
    + destruct (Dyn.getitem "isdir" remote_stat) as [isdir|e];
        [|swallow_exception].
      destruct (truthy isdir).
      * eexists; split; [reflexivity|cbn; tauto].
      * rewrite Hc. eexists; split; [reflexivity|exact Hrep].
    + rewrite Hc. eexists; split; [reflexivity|exact Hrep].
  - rewrite Hs. swallow_exception.
Qed.

(** C3, as stated, fails: for a file that exists, is no directory and
    for which the stat module reports no checksum, [_remote_checksum]
    returns the empty text, which is neither a sentinel nor a digest. *)
Lemma remote_checksum_returns_empty_text :
  let document :=
    PDict [("stat", PDict [("exists", PBool true); ("isdir", PBool false)])] in
  let self :=
    Fixture.action_base (Fixture.connection true (Ret (Some 0%Z, "{}", "")))
      (Fixture.play false None true) "new" (Fixture.one_json "{}" document) in
  let w := Fixture.world (Fixture.task [] PNone) in
  fst (_remote_checksum self "/etc/motd" None w) = Ret (PStr "")
  /\ ~ In (PStr "") checksum_sentinels
  /\ is_sha1_hex "" = false.
Proof.
  split; [reflexivity|]. split; [|reflexivity].
  cbn. intuition discriminate.
Qed.

(** C3, amended: [_remote_checksum] returns one of the five sentinels
    0, 1, 2, 3, 4, or the empty text (put in when the stat result has no
    checksum), or else the checksum entry of the document the stat
    module printed, as it is. *)
Theorem remote_checksum_values :
  forall (self : ActionBase) (path : string) (all_vars : option dict)
         (w : World),
    exists (x : pyval) (w' : World),
      _remote_checksum self path all_vars w = (Ret x, w')
      /\ (In x checksum_sentinels \/ x = PStr ""
          \/ exists mystat : pyval,
               fst (stat_run self path all_vars w) = Ret mystat
               /\ reported_checksum mystat = Ret x).
Proof.
  intros self path all_vars w.
  destruct (remote_checksum_cases self path all_vars w) as [x [Hrun Hx]].
  exists x, (snd (stat_run self path all_vars w)). split; [exact Hrun|].
  destruct (fst (stat_run self path all_vars w)) as [mystat|e].
  - destruct Hx as [H|[H|H]]; [tauto|tauto|].
    right. right. exists mystat. split; [reflexivity|exact H].
  - left. cbn in *. tauto.
Qed.




(* ------------------------------------------------------------------ *)
(** ** C7: the permission fixer when nothing has to be handed over *)

(** What one [_low_level_execute_command] adds to the trace: nothing
    for an empty command, else the one command the transport is given;
    the become wrapper is left out when [sudoable] is false. *)
Lemma low_level_execute_command_emitted :
  forall (self : ActionBase) (cmd : string) (in_data executable_ : option string)
         (w : World),
    emitted (_low_level_execute_command self cmd false in_data executable_) w
    = if PyStr.nonempty cmd
      then [EvExec (with_executable self cmd executable_) in_data false]
      else [].
Proof.
  intros self cmd in_data executable_ w.
  unfold emitted, _low_level_execute_command, with_executable.
  destruct (PyStr.nonempty cmd); cbn [negb andb].
  - unfold bind, get_trace, emit, lift, ret. cbn [w_trace w_task].
    match goal with
    | |- context [exec_command ?c ?t ?x ?i ?s] =>
        destruct (exec_command c t x i s) as [[[rc out] err]|e]
    end; cbn [snd w_trace]; apply skipn_length_app.
  - unfold ret. cbn [snd]. apply List.skipn_all.
Qed.

(** Looking at a result does not touch the world. *)
Lemma check_rc_keeps_world :
  forall (A : Type) (prefix : string) (res : CmdResult) (a : A) (w : World),
    snd ((rc <- getitem_rc res ;;
          if negb (Z.eqb rc 0) then
            msg <- rc_err_message prefix res ;; raise (AnsibleError msg)
          else ret a) w) = w.
Proof.
  intros A prefix res a w.
  unfold rc_err_message.
  unfold bind, getitem_rc, getitem_stderr, KeyError, raise, ret.
  destruct (res_rc res) as [rc|]; [|reflexivity].
  destruct (negb (Z.eqb rc 0)); [|reflexivity].
  destruct (res_stderr res); reflexivity.
Qed.

(** C7, as stated, fails: with become to root and the execute flag
    set, [_fixup_perms] runs chmod u+x on the remote side. *)
Lemma fixup_perms_chmods_under_become_root :
  let self :=
    Fixture.action_base (Fixture.connection false (Ret (Some 0%Z, "", "")))
      (Fixture.play true (Some "root") false) "new" Fixture.no_json in
  let w := Fixture.world (Fixture.task [] PNone) in
  String.eqb (SHELL_FAMILY (_shell (_connection self))) "powershell" = false
  /\ become (_play_context self) = true
  /\ become_user (_play_context self) = Some "root"
  /\ emitted (_fixup_perms self (Some "/tmp/x") (PStr "alice") true true) w
     = [EvExec "chmod u+x /tmp/x" None false].
Proof. repeat split; reflexivity. Qed.

(** C7, amended: on a shell that is not PowerShell, with a path, with
    become active and the become user equal to root or to the remote
    user, [_fixup_perms] issues no chown and no setfacl; it issues
    nothing at all when the execute flag is off and exactly the one
    chmod u+x command of the shell plugin when it is on. *)
Theorem fixup_perms_same_or_root_user :
  forall (self : ActionBase) (path : string) (remote_user_ : pyval)
         (execute recursive : bool) (w : World),
    String.eqb (SHELL_FAMILY (_shell (_connection self))) "powershell" = false ->
    become (_play_context self) = true ->
    text_eq (become_user (_play_context self)) (PStr "root")
    || text_eq (become_user (_play_context self)) remote_user_ = true ->
    emitted (_fixup_perms self (Some path) remote_user_ execute recursive) w
    = let cmd := chmod (_shell (_connection self)) "u+x" path recursive in
      if execute && PyStr.nonempty cmd
      then [EvExec (with_executable self cmd None) None false]
      else [].
Proof.
  intros self path remote_user_ execute recursive w Hsh Hbecome Huser.
  cbv zeta. unfold _fixup_perms, become_user_is_other.
  rewrite Hsh, Hbecome, Huser. cbn [negb andb].
  destruct execute; cbn [andb].
  - rewrite <- low_level_execute_command_emitted with (w := w).
    unfold emitted. rewrite bind_unfold. unfold _remote_chmod.
    destruct (_low_level_execute_command self _ false None None w)
      as [[res|e] w1]; cbn [snd]; [|reflexivity].
    now rewrite check_rc_keeps_world.
  - unfold emitted, ret. cbn [snd]. apply List.skipn_all.
Qed.

Lemma fixup_perms_same_or_root_user_witness :
  let self :=
    Fixture.action_base (Fixture.connection false (Ret (Some 0%Z, "", "")))
      (Fixture.play true (Some "alice") false) "new" Fixture.no_json in
  let w := Fixture.world (Fixture.task [] PNone) in
  emitted (_fixup_perms self (Some "/tmp/x") (PStr "alice") false true) w = [].
Proof.
  intros self w.
  apply (fixup_perms_same_or_root_user self "/tmp/x" (PStr "alice") false true w);
    reflexivity.
Defined.

(* ------------------------------------------------------------------ *)
(** ** Invariants kept along a run *)

Section Respects.

Variable self : ActionBase.
Variables persist_files delete_remote_tmp : bool.
Variable R : World -> World -> Prop.
Variable ok : Event -> Prop.
Variable args_may_change : Prop.

Hypothesis R_refl : forall w, R w w.
Hypothesis R_trans : forall a b c, R a b -> R b c -> R a c.
Hypothesis R_emit :
  forall w e, ok e ->
    R w {| w_task := w_task w; w_trace := w_trace w ++ [e] |}.
Hypothesis ok_exec : forall c i s, ok (EvExec c i s).
Hypothesis ok_put : forall p d, ok (EvPutFile p d).
Hypothesis ok_env : forall d, ok (EvEnvPrefix d).
Hypothesis ok_build :
  forall env shebang cmd arg_path rm_tmp,
    removal_allowed self persist_files delete_remote_tmp
      (EvBuildModuleCommand env shebang cmd arg_path rm_tmp) ->
    ok (EvBuildModuleCommand env shebang cmd arg_path rm_tmp).
Hypothesis R_reverse :
  forall w l,
    environment (w_task w) = PList l ->
    R w {| w_task := {| action := action (w_task w);
                        args := args (w_task w);
                        environment := PList (List.rev l);
                        async := async (w_task w) |};
           w_trace := w_trace w |}.
Hypothesis R_args :
  args_may_change ->
  forall w k v,
    In k (control_keys ++ path_keys) ->
    R w {| w_task := {| action := action (w_task w);
                        args := Dict.set k v (args (w_task w));
                        environment := environment (w_task w);
                        async := async (w_task w) |};
           w_trace := w_trace w |}.

Lemma respects_ret : forall (A : Type) (Q : A -> Prop) (a : A),
  Q a -> respects R Q (ret a).
Proof.
  intros A Q a HQ w. split; [apply R_refl|].
  intros a' H. inversion H. now subst.
Qed.

Lemma respects_raise : forall (A : Type) (Q : A -> Prop) (e : exn),
  respects R Q (raise e).
Proof. intros A Q e w. split; [apply R_refl|]. intros a H. discriminate H. Qed.

Lemma respects_lift : forall (A : Type) (o : outcome A),
  respects R any (lift o).
Proof. intros A o w. split; [apply R_refl|]. intros; exact I. Qed.

Lemma respects_get_trace : respects R any get_trace.
Proof. intros w. split; [apply R_refl|]. intros; exact I. Qed.

Lemma respects_get_task : respects R any get_task.
Proof. intros w. split; [apply R_refl|]. intros; exact I. Qed.

Lemma respects_emit : forall e : Event, ok e -> respects R any (emit e).
Proof. intros e He w. split; [now apply R_emit|]. intros; exact I. Qed.

Lemma respects_bind :
  forall (A B : Type) (P : A -> Prop) (Q : B -> Prop) (m : M A) (k : A -> M B),
    respects R P m ->
    (forall a : A, P a -> respects R Q (k a)) ->
    respects R Q (bind m k).
Proof.
  intros A B P Q m k Hm Hk w. unfold bind.
  destruct (Hm w) as [HR HP].
  destruct (m w) as [[a|e] w1]; cbn [fst snd] in *.
  - destruct (Hk a (HP a eq_refl) w1) as [HR1 HQ1].
    split; [eapply R_trans; eassumption | exact HQ1].
  - split; [exact HR|]. intros b H. discriminate H.
Qed.

Lemma respects_weaken :
  forall (A : Type) (P : A -> Prop) (m : M A),
    respects R P m -> respects R any m.
Proof. intros A P m H w. split; [apply H|]. intros; exact I. Qed.

(** One step through a computation whose parts are known to respect
    [R] whatever they return. *)
Ltac respects_step :=
  first
    [ apply respects_ret; exact I
    | apply respects_raise
    | apply respects_lift
    | apply respects_get_trace
    | apply respects_get_task
    | apply respects_emit; solve [auto]
    | eapply respects_bind with (P := any); [ | intros ? _ ]
    | match goal with
      | |- respects _ _ (if ?b then _ else _) => destruct b
      | |- respects _ _ (match ?x with _ => _ end) => destruct x
      end ].

Ltac respects_auto := repeat respects_step.

Lemma respects_getitem_rc : forall res, respects R any (getitem_rc res).
Proof. intros res. unfold getitem_rc, KeyError. respects_auto. Qed.

Lemma respects_getitem_stdout : forall res, respects R any (getitem_stdout res).
Proof. intros res. unfold getitem_stdout, KeyError. respects_auto. Qed.

Lemma respects_getitem_stderr : forall res, respects R any (getitem_stderr res).
Proof. intros res. unfold getitem_stderr, KeyError. respects_auto. Qed.

Lemma respects_rc_err_message :
  forall prefix res, respects R any (rc_err_message prefix res).
Proof.
  intros prefix res.
  unfold rc_err_message, getitem_rc, getitem_stderr, KeyError.
  respects_auto.
Qed.

Lemma respects_low_level_execute_command :
  forall cmd sudoable in_data executable_,
    respects R any
      (_low_level_execute_command self cmd sudoable in_data executable_).
Proof.
  intros. unfold _low_level_execute_command. respects_auto.
Qed.

Ltac respects_calls :=
  first
    [ apply respects_low_level_execute_command
    | apply respects_getitem_rc
    | apply respects_getitem_stdout
    | apply respects_getitem_stderr
    | apply respects_rc_err_message
    | respects_step ].

Lemma respects_remote_chmod : forall mode path recursive sudoable,
  respects R any (_remote_chmod self mode path recursive sudoable).
Proof. intros. unfold _remote_chmod. repeat respects_calls. Qed.

Lemma respects_remote_chown : forall path user group recursive sudoable,
  respects R any (_remote_chown self path user group recursive sudoable).
Proof. intros. unfold _remote_chown. repeat respects_calls. Qed.

Lemma respects_remote_set_user_facl :
  forall path user mode recursive sudoable,
    respects R any
      (_remote_set_user_facl self path user mode recursive sudoable).
Proof. intros. unfold _remote_set_user_facl. repeat respects_calls. Qed.

Ltac respects_calls2 :=
  first
    [ apply respects_remote_chmod
    | apply respects_remote_chown
    | apply respects_remote_set_user_facl
    | respects_calls ].

Lemma respects_fixup_perms : forall remote_path remote_user_ execute recursive,
  respects R any
    (_fixup_perms self remote_path remote_user_ execute recursive).
Proof. intros. unfold _fixup_perms. repeat respects_calls2. Qed.

Lemma respects_make_tmp_path : forall remote_user_,
  respects R any (_make_tmp_path self remote_user_).
Proof. intros. unfold _make_tmp_path. repeat respects_calls2. Qed.

Lemma respects_remove_tmp_path : forall tmp_path,
  respects R any (_remove_tmp_path self tmp_path).
Proof. intros. unfold _remove_tmp_path. repeat respects_calls2. Qed.

Lemma respects_transfer_data : forall remote_path data,
  respects R any (_transfer_data self remote_path data).
Proof. intros. unfold _transfer_data. repeat respects_calls2. Qed.

Lemma respects_compute_environment_string :
  respects R any (_compute_environment_string self).
Proof.
  intros w. split; [|intros; exact I].
  unfold _compute_environment_string.
  rewrite bind_unfold. unfold get_task at 1.
  destruct (environment (w_task w)) as [| | | |l|d] eqn:Henv.
  5: {
    match goal with
    | |- R w (snd (bind (bind (set_task ?t) ?k1) ?k2 w)) =>
        change (bind (bind (set_task t) k1) k2 w)
          with (bind (k1 tt) k2 {| w_task := t; w_trace := w_trace w |});
        apply R_trans with (b := {| w_task := t; w_trace := w_trace w |});
        [ now apply R_reverse
        | assert (H : respects R any (bind (k1 tt) k2))
            by (repeat respects_calls2);
          apply H ]
    end. }
  all: match goal with
       | |- R ?w0 (snd (?m ?w0)) =>
           assert (H : respects R any m) by (repeat respects_calls2);
           apply H
       end.
Qed.

Ltac respects_calls3 :=
  first
    [ apply respects_fixup_perms
    | apply respects_make_tmp_path
    | apply respects_transfer_data
    | apply respects_compute_environment_string
    | respects_calls2 ].

Lemma respects_args_read : forall h, respects R any (args_read h).
Proof. intros h. unfold args_read. repeat respects_calls3. Qed.

Lemma respects_args_setitem : forall k v h,
  In k (control_keys ++ path_keys) ->
  ref_ok args_may_change h ->
  respects R (ref_ok args_may_change) (args_setitem k v h).
Proof.
  intros k v h Hk Hh. destruct h as [|d]; cbn [args_setitem].
  - intros w. split.
    + cbn. now apply R_args.
    + intros a Ha. cbn in Ha. inversion Ha. exact Hh.
  - apply respects_ret. exact I.
Qed.

Lemma respects_unquote_keys : forall unquote keys h,
  incl keys path_keys ->
  ref_ok args_may_change h ->
  respects R (ref_ok args_may_change) (unquote_keys unquote keys h).
Proof.
  intros unquote keys. induction keys as [|key rest IH]; intros h Hin Hh.
  - cbn. now apply respects_ret.
  - cbn [unquote_keys].
    eapply respects_bind with (P := any); [apply respects_args_read|].
    intros d _.
    eapply respects_bind with (P := ref_ok args_may_change).
    + destruct (Dict.get key d).
      * apply respects_args_setitem; [|exact Hh].
        apply in_or_app. right. apply Hin. now left.
      * now apply respects_ret.
    + intros h' Hh'. apply IH; [|exact Hh'].
      intros x Hx. apply Hin. now right.
Qed.

Lemma respects_search_module_path : forall prefs module_name h,
  ref_ok args_may_change h ->
  respects R (fun r => ref_ok args_may_change (snd r))
    (search_module_path self prefs module_name h).
Proof.
  induction prefs as [|mod_type rest IH]; intros module_name h Hh.
  - cbn. now apply respects_ret.
  - cbn [search_module_path].
    eapply respects_bind
      with (P := fun r : string * ArgsRef => ref_ok args_may_change (snd r)).
    + destruct (String.eqb mod_type ".ps1"); [|now apply respects_ret].
      eapply respects_bind with (P := any); [apply respects_get_task|].
      intros task _.
      eapply respects_bind with (P := any); [apply respects_args_read|].
      intros d _.
      eapply respects_bind with (P := ref_ok args_may_change).
      * destruct (_unquote (_shell (_connection self))) as [unquote|];
          [|now apply respects_ret].
        match goal with
        | |- respects _ _ (if ?b then _ else _) => destruct b
        end; [|now apply respects_ret].
        apply respects_unquote_keys; [apply incl_refl|exact Hh].
      * intros h' Hh'. now apply respects_ret.
    + intros [name h'] Hh'. cbn [snd] in Hh'.
      match goal with
      | |- respects _ _ (if ?b then _ else _) => destruct b
      end; [now apply respects_ret|].
      now apply IH.
Qed.

Lemma respects_configure_module : forall module_name h task_vars,
  ref_ok args_may_change h ->
  respects R (fun r => ref_ok args_may_change (snd r))
    (_configure_module self module_name h task_vars).
Proof.
  intros module_name h task_vars Hh. unfold _configure_module.
  eapply respects_bind; [now apply respects_search_module_path|].
  intros [[found name] h'] Hh'. cbn [snd] in Hh'.
  destruct found as [module_path|].
  - eapply respects_bind with (P := any); [apply respects_args_read|].
    intros d _.
    eapply respects_bind with (P := any); [apply respects_lift|].
    intros [[module_data module_style] module_shebang] _.
    now apply respects_ret.
  - match goal with
    | |- respects _ _ (match ?x with _ => _ end) => destruct x
    end; apply respects_raise.
Qed.

Ltac respects_calls4 :=
  first
    [ apply respects_args_read
    | progress cbv zeta
    | respects_calls3 ].

Lemma rm_tmp_allowed :
  forall (env shebang cmd : string) (arg_path tmp : option string),
    removal_allowed self persist_files delete_remote_tmp
      (EvBuildModuleCommand env shebang cmd arg_path
         (if opt_truthy tmp && tmp_contains "tmp" tmp
             && negb (DEFAULT_KEEP_REMOTE_FILES (C self))
             && negb persist_files && delete_remote_tmp
          then
            if negb (become (_play_context self))
               || opt_text_eqb (become_user (_play_context self)) (Some "root")
            then tmp
            else None
          else None)).
Proof.
  intros env shebang cmd arg_path tmp. unfold removal_allowed.
  destruct (opt_truthy tmp && tmp_contains "tmp" tmp
            && negb (DEFAULT_KEEP_REMOTE_FILES (C self))
            && negb persist_files && delete_remote_tmp) eqn:E1; [|exact I].
  destruct (negb (become (_play_context self))
            || opt_text_eqb (become_user (_play_context self)) (Some "root"))
    eqn:E2; [|exact I].
  destruct tmp as [t|]; [|exact I].
  unfold piggyback_allowed. rewrite E2.
  apply andb_prop in E1 as [E1 Hd].
  apply andb_prop in E1 as [E1 Hp].
  apply andb_prop in E1 as [E1 Hk].
  apply andb_prop in E1 as [_ Ht].
  cbn [tmp_contains] in Ht. now rewrite Ht, Hk, Hp, Hd.
Qed.

(** [_execute_module] keeps the invariant, as long as it may write
    into the dictionary it was given. *)
Lemma respects_execute_module : forall module_name h tmp task_vars,
  ref_ok args_may_change h ->
  respects R any
    (_execute_module self module_name h tmp task_vars
       persist_files delete_remote_tmp).
Proof.
  intros module_name h tmp task_vars Hh. unfold _execute_module. cbv zeta.
  eapply respects_bind with (P := any); [apply respects_get_task|].
  intros task _.
  eapply respects_bind with (P := ref_ok args_may_change).
  { destruct (check_mode (_play_context self));
      [destruct (negb (_supports_check_mode self)); [apply respects_raise|]|];
      (apply respects_args_setitem; [cbn; tauto|exact Hh]). }
  intros h1 Hh1.
  eapply respects_bind with (P := ref_ok args_may_change);
    [apply respects_args_setitem; [cbn; tauto|exact Hh1]|].
  intros h2 Hh2.
  eapply respects_bind with (P := ref_ok args_may_change);
    [apply respects_args_setitem; [cbn; tauto|exact Hh2]|].
  intros h3 Hh3.
  eapply respects_bind with (P := ref_ok args_may_change);
    [apply respects_args_setitem; [cbn; tauto|exact Hh3]|].
  intros h4 Hh4.
  eapply respects_bind with (P := ref_ok args_may_change);
    [apply respects_args_setitem; [cbn; tauto|exact Hh4]|].
  intros h5 Hh5.
  eapply respects_bind; [now apply respects_configure_module|].
  intros [[[module_style shebang] module_data] h6] Hh6.
  repeat respects_calls4.
  all: apply respects_emit; apply ok_build; apply rm_tmp_allowed.
Qed.

End Respects.

(* ------------------------------------------------------------------ *)
(** ** C5: removal of the temporary directory within the module command *)

Lemma grows_by_same_trace : forall ok w w',
  w_trace w' = w_trace w -> grows_by ok w w'.
Proof.
  intros ok w w' H. exists []. split; [now rewrite app_nil_r | constructor].
Qed.

Lemma grows_by_refl : forall ok w, grows_by ok w w.
Proof. intros ok w. now apply grows_by_same_trace. Qed.

Lemma grows_by_trans : forall ok a b c,
  grows_by ok a b -> grows_by ok b c -> grows_by ok a c.
Proof.
  intros ok a b c [l1 [H1 F1]] [l2 [H2 F2]]. exists (l1 ++ l2). split.
  - now rewrite H2, H1, app_assoc.
  - apply Forall_app. now split.
Qed.

Lemma grows_by_emitted : forall (A : Type) ok (m : M A) w,
  grows_by ok w (snd (m w)) -> Forall ok (emitted m w).
Proof.
  intros A ok m w [l [Hl Hok]]. unfold emitted. rewrite Hl.
  now rewrite skipn_length_app.
Qed.

(** Every call of [build_module_command] that [_execute_module] makes
    asks for a removal only when that is allowed. *)
Lemma execute_module_removal_allowed :
  forall (self : ActionBase) (module_name : option string)
         (module_args : ArgsRef) (tmp : option string)
         (task_vars : option dict) (persist_files delete_remote_tmp : bool)
         (w : World),
    Forall (removal_allowed self persist_files delete_remote_tmp)
      (emitted (_execute_module self module_name module_args tmp task_vars
                  persist_files delete_remote_tmp) w).
Proof.
  intros. apply grows_by_emitted.
  apply (respects_execute_module self persist_files delete_remote_tmp
           (grows_by (removal_allowed self persist_files delete_remote_tmp))
           (removal_allowed self persist_files delete_remote_tmp) True).
  - apply grows_by_refl.
  - apply grows_by_trans.
  - intros w0 e He. exists [e]. split; [reflexivity | now constructor].
  - intros; exact I.
  - intros; exact I.
  - intros; exact I.
  - intros; assumption.
  - intros w0 l _. now apply grows_by_same_trace.
  - intros _ w0 k v _. now apply grows_by_same_trace.
  - destruct module_args; exact I.
Qed.

(** C5, as stated, fails: a temporary directory whose name has tmp in
    it but not -tmp- is handed to [build_module_command] for removal. *)
Lemma piggyback_removal_without_dash_tmp :
  let self :=
    Fixture.action_base (Fixture.connection true (Ret (Some 0%Z, "{}", "")))
      (Fixture.play false None true) "new" Fixture.no_json in
  let w := Fixture.world (Fixture.task [] PNone) in
  PyStr.contains "-tmp-" "/var/tmp/x" = false
  /\ In (EvBuildModuleCommand "" "#!/usr/bin/python" "" None (Some "/var/tmp/x"))
        (emitted (_execute_module self None TaskArgs (Some "/var/tmp/x") None
                    false true) w).
Proof. split; [reflexivity|]. vm_compute. tauto. Qed.

(** C5, amended: [_execute_module] passes a non-null rm_tmp to
    [build_module_command] only if the temporary path contains the
    substring tmp, DEFAULT_KEEP_REMOTE_FILES is off, persist_files is
    false, delete_remote_tmp is true, and become is inactive or the
    become user is root; so for a path that does not contain tmp no
    removal is asked for within the module command. *)
Theorem execute_module_piggyback_cleanup :
  forall (self : ActionBase) (module_name : option string)
         (module_args : ArgsRef) (tmp : option string)
         (task_vars : option dict) (persist_files delete_remote_tmp : bool)
         (w : World) (env shebang cmd : string) (arg_path : option string)
         (t : string),
    In (EvBuildModuleCommand env shebang cmd arg_path (Some t))
       (emitted (_execute_module self module_name module_args tmp task_vars
                   persist_files delete_remote_tmp) w) ->
    PyStr.contains "tmp" t = true
    /\ DEFAULT_KEEP_REMOTE_FILES (C self) = false
    /\ persist_files = false
    /\ delete_remote_tmp = true
    /\ (become (_play_context self) = false
        \/ become_user (_play_context self) = Some "root").
Proof.
  intros self module_name module_args tmp task_vars persist_files
         delete_remote_tmp w env shebang cmd arg_path t Hin.
  pose proof (execute_module_removal_allowed self module_name module_args tmp
                task_vars persist_files delete_remote_tmp w) as Hall.
  rewrite Forall_forall in Hall. specialize (Hall _ Hin).
  cbn [removal_allowed] in Hall. unfold piggyback_allowed in Hall.
  apply andb_prop in Hall as [Hall Hb].
  apply andb_prop in Hall as [Hall Hd].
  apply andb_prop in Hall as [Hall Hp].
  apply andb_prop in Hall as [Ht Hk].
  apply negb_true_iff in Hk, Hp.
  repeat split; try assumption.
  apply orb_prop in Hb as [Hb|Hb].
  - left. now apply negb_true_iff.
  - right. destruct (become_user (_play_context self)) as [u|];
      cbn in Hb; [|discriminate].
    apply String.eqb_eq in Hb. now subst.
Qed.

Lemma execute_module_piggyback_cleanup_witness :
  let self :=
    Fixture.action_base (Fixture.connection true (Ret (Some 0%Z, "{}", "")))
      (Fixture.play false None true) "new" Fixture.no_json in
  PyStr.contains "tmp" "/home/alice/.ansible/tmp/ansible-tmp-1-2" = true
  /\ DEFAULT_KEEP_REMOTE_FILES (C self) = false
  /\ false = false
  /\ true = true
  /\ (become (_play_context self) = false
      \/ become_user (_play_context self) = Some "root").
Proof.
  intros self.
  apply (execute_module_piggyback_cleanup self None TaskArgs
           (Some "/home/alice/.ansible/tmp/ansible-tmp-1-2") None false true
           (Fixture.world (Fixture.task [] PNone))
           "" "#!/usr/bin/python" "" None).
  vm_compute. tauto.
Defined.

(* ------------------------------------------------------------------ *)
(** ** C2: what happens to the task *)

Lemma task_kept_refl : forall keys w, task_kept_except keys w w.
Proof. intros keys w. unfold task_kept_except. repeat split; auto. Qed.

Lemma task_kept_trans : forall keys a b c,
  task_kept_except keys a b -> task_kept_except keys b c ->
  task_kept_except keys a c.
Proof.
  intros keys a b c [Ha1 [Hs1 [He1 [Hg1 Hn1]]]] [Ha2 [Hs2 [He2 [Hg2 Hn2]]]].
  repeat split.
  - now rewrite Ha2.
  - now rewrite Hs2.
  - destruct He2 as [He2|[l2 [Hb Hc]]].
    + rewrite He2. exact He1.
    + destruct He1 as [He1|[l1 [Ha Hb']]].
      * right. exists l2. rewrite <- He1. now split.
      * left. rewrite Hc, Ha. rewrite Hb' in Hb. inversion Hb.
        now rewrite List.rev_involutive.
  - intros k Hk. now rewrite (Hg2 k Hk), (Hg1 k Hk).
  - intros Hnil. now rewrite (Hn2 Hnil), (Hn1 Hnil).
Qed.

Lemma task_kept_same_task : forall keys w w',
  w_task w' = w_task w -> task_kept_except keys w w'.
Proof.
  intros keys w w' H. unfold task_kept_except. rewrite H.
  repeat split; auto.
Qed.

(** [_execute_module] changes the task at most in [args], at the
    control and path keys, and in the order of a list environment. *)
Lemma execute_module_task_kept :
  forall (self : ActionBase) (module_name : option string)
         (module_args : ArgsRef) (tmp : option string)
         (task_vars : option dict) (persist_files delete_remote_tmp : bool)
         (w : World),
    task_kept_except (control_keys ++ path_keys) w
      (snd (_execute_module self module_name module_args tmp task_vars
              persist_files delete_remote_tmp w)).
Proof.
  intros.
  apply (respects_execute_module self persist_files delete_remote_tmp
           (task_kept_except (control_keys ++ path_keys)) (fun _ => True) True).
  - apply task_kept_refl.
  - apply task_kept_trans.
  - intros w0 e _. now apply task_kept_same_task.
  - intros; exact I.
  - intros; exact I.
  - intros; exact I.
  - intros; exact I.
  - intros w0 l Hl. repeat split; cbn; auto. right. exists l. now split.
  - intros _ w0 k v Hk. repeat split; cbn; auto.
    + intros k' Hk'. rewrite dict_get_set.
      destruct (String.eqb k' k) eqn:E; [|reflexivity].
      apply String.eqb_eq in E. subst k'. contradiction.
    + intros Hnil. discriminate Hnil.
  - destruct module_args; exact I.
Qed.

(** With a dictionary of the caller's own, [_execute_module] leaves
    [args] of the task as it is. *)
Lemma execute_module_own_args_task_kept :
  forall (self : ActionBase) (module_name : option string) (d : dict)
         (tmp : option string) (task_vars : option dict)
         (persist_files delete_remote_tmp : bool) (w : World),
    task_kept_except [] w
      (snd (_execute_module self module_name (OwnArgs d) tmp task_vars
              persist_files delete_remote_tmp w)).
Proof.
  intros.
  apply (respects_execute_module self persist_files delete_remote_tmp
           (task_kept_except []) (fun _ => True) False).
  - apply task_kept_refl.
  - apply task_kept_trans.
  - intros w0 e _. now apply task_kept_same_task.
  - intros; exact I.
  - intros; exact I.
  - intros; exact I.
  - intros; exact I.
  - intros w0 l Hl. repeat split; cbn; auto. right. exists l. now split.
  - intros [].
  - exact I.
Qed.

Lemma compute_environment_string_task_kept :
  forall (self : ActionBase) (w : World),
    task_kept_except [] w (snd (_compute_environment_string self w)).
Proof.
  intros.
  apply (respects_compute_environment_string self
           (task_kept_except []) (fun _ => True)).
  - apply task_kept_refl.
  - apply task_kept_trans.
  - intros w0 e _. now apply task_kept_same_task.
  - intros; exact I.
  - intros w0 l Hl. repeat split; cbn; auto. right. exists l. now split.
Qed.

(** C2, as stated, fails: [_execute_module] called with the defaults
    writes its control arguments into [args] of the task, and
    [_compute_environment_string] turns the list in [environment]
    around. *)
Lemma task_is_not_left_unchanged :
  let self :=
    Fixture.action_base (Fixture.connection true (Ret (Some 0%Z, "{}", "")))
      (Fixture.play false None true) "new" Fixture.no_json in
  let first := PDict [("PATH", PStr "/first")] in
  let second := PDict [("LANG", PStr "C")] in
  let t := Fixture.task [("name", PStr "x")] (PList [first; second]) in
  let w := Fixture.world t in
  args (w_task (snd (_execute_module self None TaskArgs None None false true w)))
  = [("name", PStr "x");
     ("_ansible_check_mode", PBool false); ("_ansible_no_log", PBool false);
     ("_ansible_debug", PBool false); ("_ansible_diff", PBool false);
     ("_ansible_verbosity", PInt 0)]
  /\ args t = [("name", PStr "x")]
  /\ environment (w_task (snd (_compute_environment_string self w)))
     = PList [second; first]
  /\ environment t = PList [first; second].
Proof. repeat split; reflexivity. Qed.

(** C2, amended: [_compute_environment_string] leaves the action, the
    async value and the arguments of the task as they are, and its
    environment too when that is not a list.  [_execute_module] leaves
    the action and the async value as they are, and the environment when
    it is not a list; called with a dictionary of the caller's own it
    leaves the arguments of the task as they are, and called with the
    arguments of the task themselves it changes them at most under the
    five control keys it writes and under src, dest and path, which
    [_configure_module] may unquote. *)
Theorem task_frame :
  forall (self : ActionBase) (module_name : option string)
         (module_args : ArgsRef) (tmp : option string)
         (task_vars : option dict) (persist_files delete_remote_tmp : bool)
         (w : World),
    let t := w_task w in
    let t1 := w_task (snd (_compute_environment_string self w)) in
    let t2 :=
      w_task (snd (_execute_module self module_name module_args tmp task_vars
                     persist_files delete_remote_tmp w)) in
    (action t1 = action t /\ async t1 = async t /\ args t1 = args t)
    /\ (action t2 = action t /\ async t2 = async t)
    /\ ((forall l : list pyval, environment t <> PList l) ->
        environment t1 = environment t /\ environment t2 = environment t)
    /\ (forall d : dict, module_args = OwnArgs d -> args t2 = args t)
    /\ (forall k : string,
           ~ In k (control_keys ++ path_keys) ->
           Dict.get k (args t2) = Dict.get k (args t)).
Proof.
  intros self module_name module_args tmp task_vars persist_files
         delete_remote_tmp w t t1 t2.
  destruct (compute_environment_string_task_kept self w)
    as [Ha1 [Hs1 [He1 [_ Hn1]]]].
  destruct (execute_module_task_kept self module_name module_args tmp task_vars
              persist_files delete_remote_tmp w)
    as [Ha2 [Hs2 [He2 [Hg2 _]]]].
  fold t t1 in Ha1, Hs1, He1, Hn1. fold t t2 in Ha2, Hs2, He2, Hg2.
  repeat split; auto.
  - destruct He1 as [He1|[l [Hl _]]]; [exact He1|].
    exfalso. exact (H l Hl).
  - destruct He2 as [He2|[l [Hl _]]]; [exact He2|].
    exfalso. exact (H l Hl).
  - intros d Hd. subst module_args.
    destruct (execute_module_own_args_task_kept self module_name d tmp
                task_vars persist_files delete_remote_tmp w)
      as [_ [_ [_ [_ Hn]]]].
    now apply Hn.
Qed.

Lemma task_frame_witness :
  let self :=
    Fixture.action_base (Fixture.connection true (Ret (Some 0%Z, "{}", "")))
      (Fixture.play false None true) "new" Fixture.no_json in
  let t := Fixture.task [("name", PStr "x")] (PDict [("LANG", PStr "C")]) in
  let w := Fixture.world t in
  let t1 := w_task (snd (_compute_environment_string self w)) in
  let t2 :=
    w_task (snd (_execute_module self (Some "stat")
                   (OwnArgs (stat_module_args "/etc/motd" false)) None None
                   false true w)) in
  (environment t1 = environment t /\ environment t2 = environment t)
  /\ args t2 = args t.
Proof.
  intros self t w t1 t2.
  pose proof (task_frame self (Some "stat")
                (OwnArgs (stat_module_args "/etc/motd" false)) None None
                false true w) as H.
  cbv zeta in H. destruct H as [_ [_ [Henv [Hown _]]]].
  split.
  - apply Henv. intros l Hl. discriminate Hl.
  - apply (Hown (stat_module_args "/etc/motd" false)). reflexivity.
Defined.

(* ------------------------------------------------------------------ *)
(** ** C4: the args file of an old-style module *)

(** C4: the code does not do what the claim says.  For the arguments
    foo = a b and bar = x of an old-style module, the args file that
    [_execute_module] puts on the remote side holds the [pipes.quote]
    form of every value between a further pair of double quotes.  A shell
    reads the value of foo in that file as a b with a single quote on
    either side, not as a b; the line the specification expects for these
    arguments does read back as they are. *)
Theorem execute_module_args_file_is_quoted_twice :
  let self :=
    Fixture.action_base (Fixture.connection true (Ret (Some 0%Z, "{}", "")))
      (Fixture.play false None true) "old" Fixture.no_json in
  let dq := PyStr.chr PyStr.DQ in
  let given : dict := [("foo", PStr "a b"); ("bar", PStr "x")] in
  let w := Fixture.world (Fixture.task given PNone) in
  let file :=
    "foo=" +++ dq +++ "'a b'" +++ dq
    +++ " bar=" +++ dq +++ "x" +++ dq
    +++ " _ansible_check_mode=" +++ dq +++ "False" +++ dq
    +++ " _ansible_no_log=" +++ dq +++ "False" +++ dq
    +++ " _ansible_debug=" +++ dq +++ "False" +++ dq
    +++ " _ansible_diff=" +++ dq +++ "False" +++ dq
    +++ " _ansible_verbosity=" +++ dq +++ "0" +++ dq +++ " " in
  let expected := "foo=" +++ dq +++ "a b" +++ dq +++ " bar=x " in
  In (EvPutFile (Some "/home/alice/ansible-tmp-1/args") file)
     (emitted (_execute_module self None TaskArgs
                 (Some "/home/alice/ansible-tmp-1") None false true) w)
  /\ shell_args file
     = Some [("foo", "'a b'"); ("bar", "x");
             ("_ansible_check_mode", "False"); ("_ansible_no_log", "False");
             ("_ansible_debug", "False"); ("_ansible_diff", "False");
             ("_ansible_verbosity", "0")]
  /\ shell_args expected = Some [("foo", "a b"); ("bar", "x")]
  /\ shell_args file <> shell_args expected
  /\ "'a b'" <> "a b".
Proof.
  cbv zeta. split; [vm_compute; tauto|].
  split; [vm_compute; reflexivity|].
  split; [vm_compute; reflexivity|].
  split; [vm_compute; discriminate|discriminate].
Qed.

(* ------------------------------------------------------------------ *)
(** ** What is cut off the output of a module *)

Lemma drop_banner_lines_head : forall lines : list string,
  match drop_banner_lines lines with
  | [] => True
  | line :: _ => starts_json line = true
  end.
Proof.
  induction lines as [|line rest IH]; [exact I|].
  cbn [drop_banner_lines]. fold (starts_json line).
  destruct (starts_json line) eqn:E; [exact E | exact IH].
Qed.

Lemma prefix_one_char : forall (d c : ascii) (s t : string),
  String.prefix (String d "") (String c s)
  = String.prefix (String d "") (String c t).
Proof.
  intros d c s t. cbn [String.prefix].
  destruct (ascii_dec d c); [|reflexivity].
  now destruct s, t.
Qed.

Lemma starts_json_head : forall (c : ascii) (s t : string),
  starts_json (String c s) = starts_json (String c t).
Proof.
  intros c s t. unfold starts_json, PyStr.startswith.
  now rewrite (prefix_one_char _ c s t), (prefix_one_char _ c s t).
Qed.

Lemma starts_json_append : forall a b : string,
  starts_json a = true -> starts_json (a +++ b) = true.
Proof.
  intros [|c a] b H; [discriminate H|].
  cbn [String.append]. now rewrite (starts_json_head c _ a).
Qed.

Lemma discard_banner_head : forall data : string,
  discard_banner data = "" \/ starts_json (discard_banner data) = true.
Proof.
  intros data. unfold discard_banner.
  pose proof (drop_banner_lines_head (PyStr.splitlines_keepends data)) as H.
  destruct (drop_banner_lines (PyStr.splitlines_keepends data)) as [|l ls].
  - now left.
  - right. rewrite concat_empty_cons. now apply starts_json_append.
Qed.

Lemma splitlines_keepends_head : forall (c : ascii) (s : string),
  exists (l : string) (ls : list string),
    PyStr.splitlines_keepends (String c s) = String c l :: ls.
Proof.
  intros c s. cbn [PyStr.splitlines_keepends].
  destruct (PyStr.ends_line_here c s).
  - now exists "", (PyStr.splitlines_keepends s).
  - destruct (PyStr.splitlines_keepends s) as [|l ls].
    + now exists "", [].
    + now exists l, ls.
Qed.

Lemma filter_keeps_json_start : forall s : string,
  starts_json s = true -> _filter_leading_non_json_lines s = s.
Proof.
  intros [|c s] H; [discriminate H|].
  unfold _filter_leading_non_json_lines.
  destruct (splitlines_keepends_head c s) as [l [ls E]]. rewrite E.
  cbn [leading_non_json_idx].
  assert (Hl : starts_json (String c l) = true)
    by now rewrite (starts_json_head c l s).
  unfold starts_json in Hl. rewrite Hl. reflexivity.
Qed.

Lemma drop_banner_lines_suffix : forall lines : list string,
  exists banner : string,
    String.concat "" lines
    = banner +++ String.concat "" (drop_banner_lines lines).
Proof.
  induction lines as [|line rest IH]; [now exists ""|].
  cbn [drop_banner_lines].
  destruct (PyStr.startswith line "{" || PyStr.startswith line "[")%bool.
  - now exists "".
  - destruct IH as [banner IH]. exists (line +++ banner).
    now rewrite concat_empty_cons, IH, append_assoc.
Qed.

(** X1: what [_filter_leading_non_json_lines] returns is empty or
    begins with an opening brace or bracket, and it is the end of the
    text it was given. *)
Theorem filter_leading_non_json_lines_result :
  forall data : string,
    (_filter_leading_non_json_lines data = ""
     \/ starts_json (_filter_leading_non_json_lines data) = true)
    /\ exists banner : string,
         data = banner +++ _filter_leading_non_json_lines data.
Proof.
  intros data. rewrite filter_leading_non_json_lines_spec. split.
  - apply discard_banner_head.
  - destruct (drop_banner_lines_suffix (PyStr.splitlines_keepends data))
      as [banner H].
    exists banner. unfold discard_banner.
    now rewrite <- H, concat_splitlines_keepends.
Qed.

(** X2: filtering twice is the same as filtering once. *)
Theorem filter_leading_non_json_lines_idempotent :
  forall data : string,
    _filter_leading_non_json_lines (_filter_leading_non_json_lines data)
    = _filter_leading_non_json_lines data.
Proof.
  intros data.
  destruct (discard_banner_head data) as [H|H];
    rewrite <- filter_leading_non_json_lines_spec in H.
  - rewrite H. reflexivity.
  - now apply filter_keeps_json_start.
Qed.

(* ------------------------------------------------------------------ *)
(** ** What [_strip_success_message] removes *)

Lemma strip_prefix_sound : forall p s s' : string,
  Re.strip_prefix p s = Some s' -> s = p +++ s'.
Proof.
  induction p as [|a p IH]; intros s s' H.
  - cbn in H. now inversion H.
  - destruct s as [|b s]; [discriminate H|].
    cbn [Re.strip_prefix] in H.
    destruct (Ascii.eqb a b) eqn:E; [|discriminate H].
    apply Ascii.eqb_eq in E. subst b. cbn. f_equal. now apply IH.
Qed.

Lemma dotstar_sound : forall (s : string) (k : string -> option string)
                             (x : string),
  Re.dotstar s k = Some x ->
  exists p s' : string,
    s = p +++ s' /\ no_newline p = true /\ k s' = Some x.
Proof.
  induction s as [|c s IH]; intros k x H.
  - cbn in H. now exists "", "".
  - cbn [Re.dotstar] in H.
    destruct (Ascii.eqb c PyStr.LF) eqn:E.
    + now exists "", (String c s).
    + destruct (Re.dotstar s k) as [r|] eqn:D.
      * inversion H; subst r.
        destruct (IH k x D) as [p [s' [Hs [Hp Hk]]]].
        exists (String c p), s'. repeat split; [now rewrite Hs| |exact Hk].
        unfold no_newline in *. cbn [PyStr.forallb]. now rewrite E, Hp.
      * now exists "", (String c s).
Qed.

(** The matcher is sound: what it consumes before it hands over to
    its continuation is a text the pattern matches. *)
Lemma matches_sound : forall (r : Re.regex) (s : string)
                             (k : string -> option string) (x : string),
  Re.matches r s k = Some x ->
  exists p s' : string,
    s = p +++ s' /\ re_matches_text r p /\ k s' = Some x.
Proof.
  induction r as [l|r IH|r1 IH1 r2 IH2|]; intros s k x H;
    cbn [Re.matches re_matches_text] in *.
  - destruct (Re.strip_prefix l s) as [s'|] eqn:E; [|discriminate H].
    exists l, s'. repeat split; [now apply strip_prefix_sound|exact H].
  - destruct (Re.matches r s k) as [y|] eqn:E.
    + inversion H; subst y.
      destruct (IH s k x E) as [p [s' [Hs [Hp Hk]]]].
      exists p, s'. repeat split; [exact Hs|now right|exact Hk].
    + exists "", s. repeat split; [now left|exact H].
  - destruct (IH1 s _ x H) as [p1 [s1 [Hs1 [Hp1 Hk1]]]].
    destruct (IH2 s1 k x Hk1) as [p2 [s2 [Hs2 [Hp2 Hk2]]]].
    exists (p1 +++ p2), s2. repeat split.
    + now rewrite Hs1, Hs2, append_assoc.
    + now exists p1, p2.
    + exact Hk2.
  - now apply dotstar_sound.
Qed.

Lemma no_newline_append : forall a b : string,
  no_newline (a +++ b) = no_newline a && no_newline b.
Proof.
  induction a as [|c a IH]; intros b; [reflexivity|].
  unfold no_newline in *. cbn [String.append PyStr.forallb].
  now rewrite IH, andb_assoc.
Qed.

(** A text that [become_success_re] matches has a line feed in it. *)
Lemma become_success_re_has_newline : forall p : string,
  re_matches_text become_success_re p -> no_newline p = false.
Proof.
  intros p H. unfold become_success_re in H. cbn [re_matches_text] in H.
  destruct H as [a [b [-> [_ [c [d [-> [_ [e [f [-> [_ H]]]]]]]]]]]].
  destruct H as [g [h [-> [_ ->]]]].
  rewrite !no_newline_append. cbn.
  now rewrite !andb_false_r.
Qed.

(** X3: [_strip_success_message] takes text away at the start of the
    data only, and what it takes away is nothing or a text the pattern
    matches; the rest is kept as it is. *)
Theorem strip_success_message_removes_prefix :
  forall data : string,
    exists removed : string,
      data = removed +++ _strip_success_message data
      /\ (removed = "" \/ re_matches_text become_success_re removed).
Proof.
  intros data. unfold _strip_success_message, Re.sub_at_start.
  destruct (PyStr.startswith (PyStr.strip data) "BECOME-SUCCESS-");
    [|exists ""; split; [reflexivity|now left]].
  destruct (Re.matches become_success_re data Some) as [rest|] eqn:E;
    [|exists ""; split; [reflexivity|now left]].
  destruct (matches_sound _ _ _ _ E) as [p [s' [Hs [Hp Hk]]]].
  inversion Hk; subst s'. exists p. split; [exact Hs|now right].
Qed.

(** X4: output without a line feed in it is returned as it is, whether
    or not it carries the sentinel. *)
Theorem strip_success_message_needs_newline :
  forall data : string,
    no_newline data = true -> _strip_success_message data = data.
Proof.
  intros data Hn. unfold _strip_success_message, Re.sub_at_start.
  destruct (PyStr.startswith (PyStr.strip data) "BECOME-SUCCESS-");
    [|reflexivity].
  destruct (Re.matches become_success_re data Some) as [rest|] eqn:E;
    [|reflexivity].
  destruct (matches_sound _ _ _ _ E) as [p [s' [Hs [Hp _]]]].
  apply become_success_re_has_newline in Hp.
  rewrite Hs, no_newline_append, Hp in Hn. discriminate Hn.
Qed.

Lemma strip_success_message_needs_newline_witness :
  _strip_success_message "BECOME-SUCCESS-abcdef" = "BECOME-SUCCESS-abcdef".
Proof.
  apply (strip_success_message_needs_newline "BECOME-SUCCESS-abcdef").
  reflexivity.
Defined.

(* ------------------------------------------------------------------ *)
(** ** The temporary directory *)

Lemma emitted_ret : forall (A : Type) (a : A) (w : World),
  emitted (ret a) w = [].
Proof. intros. unfold emitted, ret. cbn [snd]. apply List.skipn_all. Qed.

Lemma emitted_then_ret : forall (A B : Type) (m : M A) (b : B) (w : World),
  emitted (m ;;; ret b) w = emitted m w.
Proof.
  intros A B m b w. unfold emitted, bind, ret.
  now destruct (m w) as [[a|e] w1].
Qed.

(** One unsudoable [_low_level_execute_command], step by step. *)
Lemma low_level_execute_command_plain :
  forall (self : ActionBase) (cmd : string) (in_data executable_ : option string)
         (w : World),
    _low_level_execute_command self cmd false in_data executable_ w
    = if PyStr.nonempty cmd then
        let c := with_executable self cmd executable_ in
        match exec_command (_connection self) (w_trace w) c in_data false with
        | Ret (rc, stdout, stderr) =>
            (Ret {| res_rc := Some match rc with Some z => z | None => 0%Z end;
                    res_stdout := Some (_strip_success_message stdout);
                    res_stdout_lines :=
                      Some (PyStr.splitlines (_strip_success_message stdout));
                    res_stderr := Some stderr |},
             after_exec w c in_data false)
        | Raise e => (Raise e, after_exec w c in_data false)
        end
      else
        (Ret {| res_rc := Some 254%Z; res_stdout := Some "";
                res_stdout_lines := None; res_stderr := Some "" |}, w).
Proof.
  intros self cmd in_data executable_ w.
  unfold _low_level_execute_command, with_executable, after_exec.
  destruct (PyStr.nonempty cmd); cbn [negb andb]; [|reflexivity].
  unfold bind, get_trace, emit, lift, ret. cbn [w_trace w_task].
  match goal with
  | |- context [exec_command ?c ?t ?x ?i ?s] =>
      destruct (exec_command c t x i s) as [[[rc out] err]|e]
  end; reflexivity.
Qed.

Lemma bind_ret_inv :
  forall (A B : Type) (m : M A) (k : A -> M B) (w w' : World) (b : B),
    bind m k w = (Ret b, w') ->
    exists (a : A) (w1 : World), m w = (Ret a, w1) /\ k a w1 = (Ret b, w').
Proof.
  intros A B m k w w' b H. unfold bind in H.
  destruct (m w) as [[a|e] w1]; [|discriminate H].
  now exists a, w1.
Qed.

(** X5: [_remove_tmp_path] runs one command at most, the removal of
    the path, never through become, and only for a path that has -tmp-
    in it, when the action asked for the cleanup and remote files are not
    to be kept. *)
Theorem remove_tmp_path_guard :
  forall (self : ActionBase) (tmp_path : option string) (w : World) (e : Event),
    In e (emitted (_remove_tmp_path self tmp_path) w) ->
    exists path : string,
      tmp_path = Some path
      /\ PyStr.contains "-tmp-" path = true
      /\ _cleanup_remote_tmp self = true
      /\ DEFAULT_KEEP_REMOTE_FILES (C self) = false
      /\ emitted (_remove_tmp_path self tmp_path) w = [e]
      /\ e = EvExec
               (with_executable self
                  (remove (_shell (_connection self)) path true) None)
               None false.
Proof.
  intros self tmp_path w e. unfold _remove_tmp_path.
  destruct tmp_path as [path|]; [|rewrite emitted_ret; intros []].
  destruct (PyStr.nonempty path && _cleanup_remote_tmp self
            && negb (DEFAULT_KEEP_REMOTE_FILES (C self))
            && PyStr.contains "-tmp-" path) eqn:G;
    [|rewrite emitted_ret; intros []].
  rewrite emitted_then_ret, low_level_execute_command_emitted.
  destruct (PyStr.nonempty (remove _ path true)); [|intros []].
  intros [<-|[]].
  apply andb_prop in G as [G Ht].
  apply andb_prop in G as [G Hk].
  apply andb_prop in G as [_ Hc].
  apply negb_true_iff in Hk.
  exists path. repeat split; assumption.
Qed.

Lemma remove_tmp_path_guard_witness :
  let self :=
    Fixture.action_base (Fixture.connection true (Ret (Some 1%Z, "", "gone")))
      (Fixture.play false None true) "new" Fixture.no_json in
  let w := Fixture.world (Fixture.task [] PNone) in
  let e := EvExec "rm -rf /tmp/ansible-tmp-1-2" None false in
  exists path : string,
    Some "/tmp/ansible-tmp-1-2" = Some path
    /\ PyStr.contains "-tmp-" path = true
    /\ _cleanup_remote_tmp self = true
    /\ DEFAULT_KEEP_REMOTE_FILES (C self) = false
    /\ emitted (_remove_tmp_path self (Some "/tmp/ansible-tmp-1-2")) w = [e]
    /\ e = EvExec
             (with_executable self
                (remove (_shell (_connection self)) path true) None)
             None false.
Proof.
  intros self w e.
  apply (remove_tmp_path_guard self (Some "/tmp/ansible-tmp-1-2") w e).
  vm_compute. tauto.
Defined.

(** X6: when [_make_tmp_path] returns, it has run one command, the
    mkdtemp command of the shell with mode 0700, not through become; the
    remote side ended it with rc 0 or without an rc; the task is as it
    was; and the path returned is the last line of what was printed,
    joined with the empty name, and is not the one-character text that
    is a single slash.  Other spellings of the root directory, such as
    two slashes, are not ruled out. *)
Theorem make_tmp_path_success :
  forall (self : ActionBase) (remote_user_ : pyval) (w w' : World)
         (p : string),
    _make_tmp_path self remote_user_ w = (Ret p, w') ->
    let cmd :=
      with_executable self (mkdtemp_command self remote_user_ w) None in
    p <> "/"
    /\ w' = after_exec w cmd None false
    /\ exists (rc : option Z) (out err : string) (before : list string),
         exec_command (_connection self) (w_trace w) cmd None false
         = Ret (rc, out, err)
         /\ (rc = None \/ rc = Some 0%Z)
         /\ PyStr.splitlines
              (join_path (_shell (_connection self))
                 (PyStr.strip (_strip_success_message out)) [""])
            = before ++ [p].
Proof.
  intros self remote_user_ w w' p H cmd. subst cmd.
  unfold _make_tmp_path in H.
  apply bind_ret_inv in H as [tr [w0 [Htr H]]].
  unfold get_trace in Htr. inversion Htr; subst tr w0. clear Htr.
  cbv zeta in H. fold (mkdtemp_command self remote_user_ w) in H.
  apply bind_ret_inv in H as [result [w1 [Hrun H]]].
  apply bind_ret_inv in H as [rc0 [w2 [Hrc H]]].
  apply bind_ret_inv in H as [u [w3 [Hcheck H]]].
  apply bind_ret_inv in H as [out0 [w4 [Hout H]]].
  destruct (negb (Z.eqb rc0 0)) eqn:Hz.
  { apply bind_ret_inv in Hcheck as [output [w5 [_ Hcheck]]].
    discriminate Hcheck. }
  apply negb_false_iff, Z.eqb_eq in Hz. subst rc0.
  unfold ret in Hcheck. inversion Hcheck; subst u w3. clear Hcheck.
  rewrite low_level_execute_command_plain in Hrun.
  destruct (PyStr.nonempty (mkdtemp_command self remote_user_ w)).
  2: { inversion Hrun; subst result w1. discriminate Hrc. }
  cbv zeta in Hrun.
  destruct (exec_command _ _ _ None false) as [[[rc out] err]|e];
    [|discriminate Hrun].
  inversion Hrun; subst result w1. clear Hrun.
  cbn in Hrc. inversion Hrc; subst w2. clear Hrc.
  cbn in Hout. inversion Hout; subst out0 w4. clear Hout.
  remember (PyStr.splitlines
              (join_path (_shell (_connection self))
                 (PyStr.strip (_strip_success_message out)) [""])) as lines.
  assert (Hrev : lines = List.rev (List.rev lines))
    by now rewrite List.rev_involutive.
  destruct (List.rev lines) as [|last before].
  - cbn in H. discriminate H.
  - destruct (String.eqb last "/") eqn:E; [discriminate H|].
    unfold ret in H. inversion H; subst.
    split; [now apply String.eqb_neq|]. split; [reflexivity|].
    exists rc, out, err, (List.rev before).
    split; [reflexivity|]. split; [|exact Hrev].
    destruct rc as [z|]; [right; now subst|now left].
Qed.

Lemma make_tmp_path_success_witness :
  let self :=
    Fixture.action_base
      (Fixture.connection true
         (Ret (Some 0%Z, "/home/alice/.ansible/tmp/ansible-tmp-1-42", "")))
      (Fixture.play false None true) "new" Fixture.no_json in
  let w := Fixture.world (Fixture.task [] PNone) in
  let p := "/home/alice/.ansible/tmp/ansible-tmp-1-42/" in
  let cmd := with_executable self (mkdtemp_command self PNone w) None in
  p <> "/"
  /\ snd (_make_tmp_path self PNone w) = after_exec w cmd None false
  /\ exists (rc : option Z) (out err : string) (before : list string),
       exec_command (_connection self) (w_trace w) cmd None false
       = Ret (rc, out, err)
       /\ (rc = None \/ rc = Some 0%Z)
       /\ PyStr.splitlines
            (join_path (_shell (_connection self))
               (PyStr.strip (_strip_success_message out)) [""])
          = before ++ [p].
Proof.
  intros self w p.
  apply (make_tmp_path_success self PNone w
           (snd (_make_tmp_path self PNone w)) p).
  reflexivity.
Defined.

(** X7: when the remote side ends the mkdtemp command with an rc other
    than 0, [_make_tmp_path] raises AnsibleConnectionFailure, with the
    message Authentication failure. for rc 5, and what the command
    printed put last in the message. *)
Theorem make_tmp_path_failure :
  forall (self : ActionBase) (remote_user_ : pyval) (w : World)
         (rc : Z) (out err : string),
    let cmd :=
      with_executable self (mkdtemp_command self remote_user_ w) None in
    PyStr.nonempty (mkdtemp_command self remote_user_ w) = true ->
    exec_command (_connection self) (w_trace w) cmd None false
    = Ret (Some rc, out, err) ->
    rc <> 0%Z ->
    exists reason : string,
      _make_tmp_path self remote_user_ w
      = (Raise (AnsibleConnectionFailure
                  (if String.eqb (_strip_success_message out) ""
                   then reason
                   else reason +++ ": " +++ _strip_success_message out)),
         after_exec w cmd None false)
      /\ (rc = 5%Z -> reason = "Authentication failure.").
Proof.
  intros self remote_user_ w rc out err cmd Hcmd Hexec Hrc. subst cmd.
  unfold _make_tmp_path. rewrite bind_unfold. unfold get_trace at 1.
  cbv zeta. fold (mkdtemp_command self remote_user_ w).
  rewrite bind_unfold, low_level_execute_command_plain, Hcmd.
  cbv zeta. rewrite Hexec.
  rewrite bind_unfold. cbn [getitem_rc res_rc]. unfold ret at 1.
  apply Z.eqb_neq in Hrc. rewrite bind_unfold, Hrc. cbn [negb].
  rewrite bind_unfold. cbn [res_stdout res_stderr getitem_stderr
                            getitem_stdout].
  match goal with
  | |- context [(if Z.eqb rc 5 then ?a else ?b) ?w0] =>
      destruct ((if Z.eqb rc 5 then a else b) w0) as [[reason|e] w1] eqn:E
  end.
  - assert (Hw : w1 = after_exec w
                        (with_executable self
                           (mkdtemp_command self remote_user_ w) None)
                        None false
                 /\ (rc = 5%Z -> reason = "Authentication failure.")).
    { destruct (Z.eqb rc 5) eqn:E5.
      - unfold ret in E. inversion E. split; [reflexivity|]. reflexivity.
      - assert (rc <> 5%Z) by now apply Z.eqb_neq.
        destruct (Z.eqb rc 255 && String.eqb _ "ssh").
        + destruct (Z.ltb 3 _); unfold bind, ret in E; inversion E;
            (split; [reflexivity|intros; contradiction]).
        + unfold bind, ret in E. destruct (PyStr.contains _ err);
            inversion E; (split; [reflexivity|intros; contradiction]). }
    destruct Hw as [-> Hreason]. exists reason. split; [|exact Hreason].
    unfold raise. destruct (String.eqb (_strip_success_message out) "");
      reflexivity.
  - exfalso. destruct (Z.eqb rc 5); [discriminate E|].
    destruct (Z.eqb rc 255 && String.eqb _ "ssh").
    + destruct (Z.ltb 3 _); discriminate E.
    + unfold bind, ret in E. destruct (PyStr.contains _ err); discriminate E.
Qed.

Lemma make_tmp_path_failure_witness :
  let self :=
    Fixture.action_base
      (Fixture.connection true (Ret (Some 5%Z, "denied", "")))
      (Fixture.play false None true) "new" Fixture.no_json in
  let w := Fixture.world (Fixture.task [] PNone) in
  let cmd := with_executable self (mkdtemp_command self PNone w) None in
  exists reason : string,
    _make_tmp_path self PNone w
    = (Raise (AnsibleConnectionFailure
                (if String.eqb (_strip_success_message "denied") ""
                 then reason
                 else reason +++ ": " +++ _strip_success_message "denied")),
       after_exec w cmd None false)
    /\ (5%Z = 5%Z -> reason = "Authentication failure.").
Proof.
  intros self w cmd.
  apply (make_tmp_path_failure self PNone w 5%Z "denied" "").
  - reflexivity.
  - reflexivity.
  - discriminate.
Defined.

(* ------------------------------------------------------------------ *)
(** ** Tilde expansion on the remote side *)

Lemma islinebreak_isspace : forall c : ascii,
  PyStr.islinebreak c = true -> PyStr.isspace c = true.
Proof.
  intros c. destruct c as [[] [] [] [] [] [] [] []];
    vm_compute; intros H; try reflexivity; discriminate H.
Qed.

(** What [rstrip] leaves is empty or ends with a character that is
    not white space. *)
Lemma rstrip_last : forall s : string,
  PyStr.rstrip s = ""
  \/ exists (t : string) (c : ascii),
       PyStr.rstrip s = t +++ PyStr.chr c /\ PyStr.isspace c = false.
Proof.
  induction s as [|c s IH]; [now left|].
  cbn [PyStr.rstrip].
  destruct IH as [E|[t [d [E Hd]]]]; rewrite E.
  - destruct (PyStr.isspace c) eqn:Hc; [now left|].
    right. now exists "", c.
  - right. exists (String c t), d. split; [|exact Hd].
    destruct t; reflexivity.
Qed.

(** The last line of a text that ends with a character that is no
    line boundary is not empty. *)
Lemma splitlines_keepends_last : forall (c : ascii) (t : string),
  PyStr.islinebreak c = false ->
  exists (before : list string) (last : string),
    PyStr.splitlines_keepends (t +++ PyStr.chr c) = before ++ [last]
    /\ PyStr.chomp last <> "".
Proof.
  intros c t Hc. induction t as [|d t IH].
  - exists [], (PyStr.chr c).
    cbn [String.append PyStr.chr PyStr.splitlines_keepends PyStr.chomp].
    unfold PyStr.ends_line_here. rewrite Hc. cbn [andb List.app].
    split; [reflexivity|discriminate].
  - destruct IH as [before [last [E Hlast]]].
    cbn [String.append PyStr.splitlines_keepends]. rewrite E.
    destruct (PyStr.ends_line_here d (t +++ PyStr.chr c)) eqn:Hd.
    + exists (PyStr.chr d :: before), last. now split.
    + destruct before as [|b bs]; cbn [List.app].
      * exists [], (String d last). split; [reflexivity|].
        cbn [PyStr.chomp].
        destruct (PyStr.islinebreak d) eqn:Hlb; [|discriminate].
        exfalso. unfold PyStr.ends_line_here in Hd. rewrite Hlb in Hd.
        cbn [andb negb] in Hd. apply negb_false_iff in Hd.
        apply andb_prop in Hd as [_ Hlf].
        unfold PyStr.startswith in Hlf.
        destruct (t +++ PyStr.chr c)%string as [|x rest] eqn:Et;
          [discriminate Hlf|].
        cbn [PyStr.chr String.prefix] in Hlf.
        destruct (ascii_dec PyStr.LF x) as [<-|]; [|discriminate Hlf].
        cbn [PyStr.splitlines_keepends] in E.
        replace (PyStr.ends_line_here PyStr.LF rest) with true in E
          by (unfold PyStr.ends_line_here; reflexivity).
        cbn in E. inversion E; subst last. now apply Hlast.
      * exists (String d b :: bs), last. now split.
Qed.

Lemma last_line_of_strip : forall s : string,
  match List.rev (PyStr.splitlines (PyStr.strip s)) with
  | [] => PyStr.strip s = ""
  | last :: _ => PyStr.nonempty last = true
  end.
Proof.
  intros s. unfold PyStr.strip.
  destruct (rstrip_last (PyStr.lstrip s)) as [E|[t [c [E Hc]]]]; rewrite E.
  - reflexivity.
  - assert (Hlb : PyStr.islinebreak c = false).
    { destruct (PyStr.islinebreak c) eqn:Hlb; [|reflexivity].
      apply islinebreak_isspace in Hlb. now rewrite Hlb in Hc. }
    destruct (splitlines_keepends_last c t Hlb) as [before [last [El Hl]]].
    unfold PyStr.splitlines. rewrite El, map_app, rev_app_distr. cbn.
    destruct (PyStr.chomp last); [contradiction|reflexivity].
Qed.

Lemma expand_target_eq : forall (self : ActionBase) (path : string),
  (if String.eqb (fst (split_once os_path_sep path)) "~"
   then if become (_play_context self)
           && opt_truthy (become_user (_play_context self))
        then "~" +++ match become_user (_play_context self) with
                     | Some u => u
                     | None => ""
                     end
        else fst (split_once os_path_sep path)
   else fst (split_once os_path_sep path))
  = expand_target self path.
Proof.
  intros self path. unfold expand_target. cbv zeta.
  destruct (String.eqb (fst (split_once os_path_sep path)) "~");
    [|reflexivity].
  cbn [andb].
  now destruct (become (_play_context self)
                && opt_truthy (become_user (_play_context self))).
Qed.

Lemma emitted_bind_pure :
  forall (A B : Type) (m : M A) (k : A -> M B) (w : World),
    (forall (a : A) (w1 : World), snd (k a w1) = w1) ->
    emitted (bind m k) w = emitted m w.
Proof.
  intros A B m k w Hk. unfold emitted, bind.
  destruct (m w) as [[a|e] w1] eqn:E; cbn [snd]; [|reflexivity].
  now rewrite Hk.
Qed.

(** X8: for a path that begins with a tilde, [_remote_expand_user]
    never gives back the path it was given because the expansion came out
    empty.  When the remote side prints nothing but white space the call
    ends in IndexError; otherwise the last line of what was printed stands
    for the part of the path before the first separator. *)
Theorem remote_expand_user_result :
  forall (self : ActionBase) (path : string) (w w1 : World)
         (data : CmdResult) (out : string),
    PyStr.startswith path "~" = true ->
    _low_level_execute_command self
      (expand_user (_shell (_connection self)) (expand_target self path))
      false None None w = (Ret data, w1) ->
    res_stdout data = Some out ->
    _remote_expand_user self path w
    = (match List.rev (PyStr.splitlines (PyStr.strip out)) with
       | [] => Raise (PyException "IndexError")
       | home :: _ =>
           Ret match snd (split_once os_path_sep path) with
               | Some rest =>
                   join_path (_shell (_connection self)) home [rest]
               | None => home
               end
       end, w1).
Proof.
  intros self path w w1 data out Ht Hrun Hout.
  unfold _remote_expand_user. rewrite Ht. cbn [negb]. cbv zeta.
  rewrite expand_target_eq.
  rewrite bind_unfold, Hrun, bind_unfold.
  unfold getitem_stdout. rewrite Hout. unfold ret at 1.
  pose proof (last_line_of_strip out) as Hlast.
  destruct (List.rev (PyStr.splitlines (PyStr.strip out))) as [|home rest].
  - reflexivity.
  - rewrite Hlast. cbn [negb].
    now destruct (snd (split_once os_path_sep path)).
Qed.

Lemma remote_expand_user_result_witness :
  let self :=
    Fixture.action_base (Fixture.connection true (Ret (Some 0%Z, "  ", "")))
      (Fixture.play true (Some "bob") true) "new" Fixture.no_json in
  let w := Fixture.world (Fixture.task [] PNone) in
  _remote_expand_user self "~/notes" w
  = (match List.rev (PyStr.splitlines (PyStr.strip "  ")) with
     | [] => Raise (PyException "IndexError")
     | home :: _ =>
         Ret match snd (split_once os_path_sep "~/notes") with
             | Some rest => join_path (_shell (_connection self)) home [rest]
             | None => home
             end
     end, after_exec w "echo ~bob" None false).
Proof.
  intros self w.
  apply (remote_expand_user_result self "~/notes" w
           (after_exec w "echo ~bob" None false)
           {| res_rc := Some 0%Z; res_stdout := Some "  ";
              res_stdout_lines := Some ["  "]; res_stderr := Some "" |} "  ").
  - reflexivity.
  - reflexivity.
  - reflexivity.
Defined.

(** X9: [_remote_expand_user] gets in touch with the remote side only
    for a path that begins with a tilde, and then with one command, the
    expansion the shell plugin writes for the part before the first
    separator, run without become; the task is left as it is. *)
Theorem remote_expand_user_contact :
  forall (self : ActionBase) (path : string) (w : World),
    w_task (snd (_remote_expand_user self path w)) = w_task w
    /\ forall e : Event,
         In e (emitted (_remote_expand_user self path) w) ->
         PyStr.startswith path "~" = true
         /\ emitted (_remote_expand_user self path) w = [e]
         /\ e = EvExec
                  (with_executable self
                     (expand_user (_shell (_connection self))
                        (expand_target self path)) None)
                  None false.
Proof.
  intros self path w. unfold _remote_expand_user.
  destruct (PyStr.startswith path "~"); cbn [negb].
  2: { split; [reflexivity|]. rewrite emitted_ret. intros e []. }
  cbv zeta. rewrite expand_target_eq.
  assert (Hk : forall (data : CmdResult) (w1 : World),
             snd ((out <- getitem_stdout data ;;
                   match List.rev (PyStr.splitlines (PyStr.strip out)) with
                   | [] => raise (PyException "IndexError")
                   | initial_fragment :: _ =>
                       if negb (PyStr.nonempty initial_fragment)
                       then ret path
                       else
                         match snd (split_once os_path_sep path) with
                         | Some rest =>
                             ret (join_path (_shell (_connection self))
                                    initial_fragment [rest])
                         | None => ret initial_fragment
                         end
                   end) w1) = w1).
  { intros data w1. unfold bind, getitem_stdout, KeyError, raise, ret.
    destruct (res_stdout data) as [out|]; [|reflexivity].
    destruct (List.rev (PyStr.splitlines (PyStr.strip out))) as [|l ls];
      [reflexivity|].
    destruct (negb (PyStr.nonempty l)); [reflexivity|].
    now destruct (snd (split_once os_path_sep path)). }
  split.
  - rewrite bind_unfold, low_level_execute_command_plain.
    destruct (PyStr.nonempty _); cbv zeta.
    + destruct (exec_command _ _ _ None false) as [[[rc out] err]|e];
        [now rewrite Hk|reflexivity].
    + now rewrite Hk.
  - intros e. rewrite (emitted_bind_pure _ _ _ _ w Hk).
    rewrite low_level_execute_command_emitted.
    destruct (PyStr.nonempty _); [|intros []].
    intros [<-|[]]. repeat split.
Qed.

Lemma remote_expand_user_contact_witness :
  let self :=
    Fixture.action_base
      (Fixture.connection true (Ret (Some 0%Z, "/home/bob", "")))
      (Fixture.play true (Some "bob") true) "new" Fixture.no_json in
  let w := Fixture.world (Fixture.task [] PNone) in
  let e := EvExec "echo ~bob" None false in
  PyStr.startswith "~/notes" "~" = true
  /\ emitted (_remote_expand_user self "~/notes") w = [e]
  /\ e = EvExec
           (with_executable self
              (expand_user (_shell (_connection self))
                 (expand_target self "~/notes")) None)
           None false.
Proof.
  intros self w e.
  apply (proj2 (remote_expand_user_contact self "~/notes" w) e).
  vm_compute. tauto.
Defined.

(* ------------------------------------------------------------------ *)
(** ** The first available file *)

(** X10: without a fallback, [_get_first_available_file] returns the
    place of the first name of the list, in the order of the list, whose
    place exists on the controlling machine, and [None] when there is no
    such name; a name is templated before it is looked for. *)
Theorem get_first_available_file_is_first_existing :
  forall (self : ActionBase) (ctl : Controller) (faf : list pyval)
         (searchdir : string),
    _get_first_available_file self ctl faf PNone searchdir
    = List.find (os_path_exists ctl)
        (map (fun fn => candidate_path ctl searchdir (template self fn)) faf).
Proof.
  intros self ctl faf searchdir.
  induction faf as [|fn rest IH]; [reflexivity|].
  cbn [_get_first_available_file map List.find].
  rewrite andb_false_r. fold (candidate_path ctl searchdir (template self fn)).
  now rewrite IH.
Qed.

(** X11: with a fallback whose place exists, only the first name of
    the list counts: the result is its place when that exists and the
    place of the fallback otherwise, whatever names follow. *)
Theorem get_first_available_file_fallback_ends_search :
  forall (self : ActionBase) (ctl : Controller) (fn : pyval)
         (rest : list pyval) (of_ : pyval) (searchdir : string),
    of_ <> PNone ->
    os_path_exists ctl (candidate_path ctl searchdir of_) = true ->
    _get_first_available_file self ctl (fn :: rest) of_ searchdir
    = Some (if os_path_exists ctl
                 (candidate_path ctl searchdir (template self fn))
            then candidate_path ctl searchdir (template self fn)
            else candidate_path ctl searchdir of_).
Proof.
  intros self ctl fn rest of_ searchdir Hof Hex.
  cbn [_get_first_available_file].
  fold (candidate_path ctl searchdir (template self fn)).
  fold (candidate_path ctl searchdir of_).
  destruct (os_path_exists ctl
              (candidate_path ctl searchdir (template self fn))) eqn:E;
    cbn [negb andb].
  - now rewrite E.
  - destruct of_; try contradiction; now rewrite Hex.
Qed.

Lemma get_first_available_file_fallback_ends_search_witness :
  let self :=
    Fixture.action_base (Fixture.connection true (Ret (Some 0%Z, "", "")))
      (Fixture.play false None true) "new" Fixture.no_json in
  let ctl := ControllerFixture.controller ["files/default.conf";
                                           "files/b.conf"] in
  _get_first_available_file self ctl [PStr "a.conf"; PStr "b.conf"]
    (PStr "default.conf") "files"
  = Some (if os_path_exists ctl
               (candidate_path ctl "files" (template self (PStr "a.conf")))
          then candidate_path ctl "files" (template self (PStr "a.conf"))
          else candidate_path ctl "files" (PStr "default.conf")).
Proof.
  intros self ctl.
  apply (get_first_available_file_fallback_ends_search self ctl
           (PStr "a.conf") [PStr "b.conf"] (PStr "default.conf") "files").
  - discriminate.
  - reflexivity.
Defined.

(* ------------------------------------------------------------------ *)
(** ** The data for a diff *)

Lemma hide_diff_before : forall diff : dict,
  Dict.get "before" (hide_diff diff) = None
  \/ Dict.get "before" (hide_diff diff) = Some (PStr "").
Proof.
  intros diff. unfold hide_diff, Dict.mem. cbv zeta.
  destruct (Dict.get "before" diff) as [v|] eqn:Eb.
  - right.
    destruct (Dict.get "after" (Dict.set "before" (PStr "") diff));
      rewrite ?dict_get_set; reflexivity.
  - left. destruct (Dict.get "after" diff);
      rewrite ?dict_get_set; cbn [String.eqb Ascii.eqb Bool.eqb]; exact Eb.
Qed.

Lemma hide_diff_after : forall diff : dict,
  Dict.get "after" (hide_diff diff) = None
  \/ Dict.get "after" (hide_diff diff) = Some (PStr hidden_diff_text).
Proof.
  intros diff. unfold hide_diff. cbv zeta.
  set (d := if Dict.mem "before" diff
            then Dict.set "before" (PStr "") diff else diff).
  clearbody d. unfold Dict.mem.
  destruct (Dict.get "after" d) as [v|] eqn:Ea.
  - right. now rewrite dict_get_set.
  - now left.
Qed.

(** X12: under no_log, what [_get_diff_data] returns shows no content
    of a file: the entry before, when there is one, is the empty text,
    and the entry after, when there is one, is the notice that the diff
    has been hidden. *)
Theorem get_diff_data_hides_contents :
  forall (self : ActionBase) (ctl : Controller) (destination source : string)
         (task_vars : option dict) (source_file : bool) (w w' : World)
         (diff : dict),
    no_log (_play_context self) = true ->
    _get_diff_data self ctl destination source task_vars source_file w
    = (Ret diff, w') ->
    (Dict.get "before" diff = None \/ Dict.get "before" diff = Some (PStr ""))
    /\ (Dict.get "after" diff = None
        \/ Dict.get "after" diff = Some (PStr hidden_diff_text)).
Proof.
  intros self ctl destination source task_vars source_file w w' diff Hlog H.
  unfold _get_diff_data in H. cbv zeta in H. rewrite Hlog in H.
  apply bind_ret_inv in H as [peek_result [w1 [_ H]]].
  apply bind_ret_inv in H as [has_failed [w2 [_ H]]].
  apply bind_ret_inv in H as [failed [w3 [_ H]]].
  apply bind_ret_inv in H as [proceed [w4 [_ H]]].
  apply bind_ret_inv in H as [d [w5 [_ H]]].
  unfold ret in H. inversion H; subst.
  split; [apply hide_diff_before | apply hide_diff_after].
Qed.

Lemma get_diff_data_hides_contents_witness :
  let self :=
    Fixture.action_base (Fixture.connection true (Ret (Some 0%Z, "{}", "")))
      ControllerFixture.play_no_log "new"
      (Fixture.one_json "{}" ControllerFixture.peek_document) in
  let ctl := ControllerFixture.controller [] in
  let diff :=
    [("before_header", PStr "/etc/motd"); ("before", PStr "");
     ("after_header", PStr "dynamically generated");
     ("after", PStr hidden_diff_text)] in
  (Dict.get "before" diff = None \/ Dict.get "before" diff = Some (PStr ""))
  /\ (Dict.get "after" diff = None
      \/ Dict.get "after" diff = Some (PStr hidden_diff_text)).
Proof.
  intros self ctl diff.
  apply (get_diff_data_hides_contents self ctl "/etc/motd" "new secret" None
           false (Fixture.world (Fixture.task [] PNone))
           (snd (_get_diff_data self ctl "/etc/motd" "new secret" None false
                   (Fixture.world (Fixture.task [] PNone))))
           diff).
  - reflexivity.
  - reflexivity.
Defined.

(* ------------------------------------------------------------------ *)
(** ** Which calls a run makes on the connection *)

Lemma grows_by_emit : forall (ok : Event -> Prop) (w : World) (e : Event),
  ok e ->
  grows_by ok w {| w_task := w_task w; w_trace := w_trace w ++ [e] |}.
Proof.
  intros ok w e He. exists [e]. split; [reflexivity | now constructor].
Qed.

Lemma grows_by_reverse : forall (ok : Event -> Prop) (w : World) (l : list pyval),
  environment (w_task w) = PList l ->
  grows_by ok w
    {| w_task := {| action := action (w_task w); args := args (w_task w);
                    environment := PList (List.rev l);
                    async := async (w_task w) |};
       w_trace := w_trace w |}.
Proof. intros ok w l _. now apply grows_by_same_trace. Qed.

Lemma grows_by_args : forall (ok : Event -> Prop),
  True ->
  forall (w : World) (k : string) (v : pyval),
    In k (control_keys ++ path_keys) ->
    grows_by ok w
      {| w_task := {| action := action (w_task w);
                      args := Dict.set k v (args (w_task w));
                      environment := environment (w_task w);
                      async := async (w_task w) |};
         w_trace := w_trace w |}.
Proof. intros ok _ w k v _. now apply grows_by_same_trace. Qed.

Lemma respects_post :
  forall (R : World -> World -> Prop) (A : Type) (P Q : A -> Prop) (m : M A),
    respects R P m ->
    (forall (w : World) (a : A), fst (m w) = Ret a -> Q a) ->
    respects R (fun a => P a /\ Q a) m.
Proof.
  intros R A P Q m Hm HQ w. destruct (Hm w) as [HR HP].
  split; [exact HR|]. intros a Ha. split; [now apply HP | now apply (HQ w)].
Qed.

Lemma fst_bind_ret_inv :
  forall (A B : Type) (m : M A) (k : A -> M B) (w : World) (b : B),
    fst (bind m k w) = Ret b ->
    exists (a : A) (w1 : World), m w = (Ret a, w1) /\ fst (k a w1) = Ret b.
Proof.
  intros A B m k w b H. unfold bind in H.
  destruct (m w) as [[a|e] w1]; [|discriminate H].
  now exists a, w1.
Qed.

(** What [_configure_module] returns is what the module assembler
    made of the module it found. *)
Lemma configure_module_result :
  forall (self : ActionBase) (module_name : string) (h : ArgsRef)
         (task_vars : dict) (w : World)
         (style : string) (shebang : option string) (data : string)
         (h' : ArgsRef),
    fst (_configure_module self module_name h task_vars w)
    = Ret (style, shebang, data, h') ->
    exists (name path : string) (module_args : dict),
      modify_module self name path module_args task_vars
        (module_compression (_play_context self))
      = Ret (data, style, shebang).
Proof.
  intros self module_name h task_vars w style shebang data h' H.
  unfold _configure_module in H.
  apply fst_bind_ret_inv in H as [[[found name] h1] [w1 [_ H]]].
  destruct found as [path|].
  - apply fst_bind_ret_inv in H as [module_args [w2 [_ H]]].
    apply fst_bind_ret_inv in H as [[[d s] sb] [w3 [Hm H]]].
    unfold lift in Hm. inversion Hm; subst. cbn in H. inversion H; subst.
    now exists name, path, module_args.
  - destruct (find_plugin_any self _ _); discriminate H.
Qed.

Lemma late_needs_tmp_path_pipelined :
  forall (self : ActionBase) (tmp : option string),
    has_pipelining (_connection self) = true ->
    pipelining (_play_context self) = true ->
    DEFAULT_KEEP_REMOTE_FILES (C self) = false ->
    opt_text_eqb (become_method (_play_context self)) (Some "su") = false ->
    _late_needs_tmp_path self tmp "new" = false.
Proof.
  intros self tmp H1 H2 H3 H4. unfold _late_needs_tmp_path.
  rewrite H1, H2, H3, H4. cbn.
  now destruct (opt_truthy tmp && _).
Qed.

Section Traces.

Variable self : ActionBase.
Variable ok : Event -> Prop.

Ltac grows_side :=
  first
    [ exact (grows_by_refl ok)
    | exact (grows_by_trans ok)
    | exact (grows_by_emit ok)
    | exact (grows_by_reverse ok)
    | exact (grows_by_args ok) ].

Ltac traces_step :=
  first
    [ apply respects_ret; [grows_side | exact I]
    | apply respects_raise; grows_side
    | apply respects_lift; grows_side
    | apply respects_get_trace; grows_side
    | apply respects_get_task; grows_side
    | apply respects_getitem_rc; grows_side
    | apply respects_getitem_stdout; grows_side
    | apply respects_getitem_stderr; grows_side
    | apply respects_rc_err_message; grows_side
    | apply respects_args_read; grows_side
    | eapply respects_bind with (P := any); [ grows_side | | intros ? _ ]
    | lazymatch goal with
      | |- respects _ _ (if false then _ else _) => cbv iota
      | |- respects _ _ (if true then _ else _) => cbv iota
      | |- respects _ _ (if ?b then _ else _) => destruct b
      | |- respects _ _ (match ?x with _ => _ end) => destruct x
      end ].

(** A command that is not to go through become: the transport gets
    it with the executable before it and nothing else. *)
Lemma traces_plain_command :
  forall (cmd : string) (in_data executable_ : option string),
    ok (EvExec (with_executable self cmd executable_) in_data false) ->
    respects (grows_by ok) any
      (_low_level_execute_command self cmd false in_data executable_).
Proof.
  intros cmd in_data executable_ Hok w. split; [|intros; exact I].
  rewrite low_level_execute_command_plain.
  destruct (PyStr.nonempty cmd); [|apply grows_by_refl]. cbv zeta.
  destruct (exec_command _ _ _ in_data false) as [[[rc out] err]|e];
    cbn [snd]; now apply grows_by_emit.
Qed.

(** A command, whatever the transport gets for it. *)
Lemma traces_command :
  forall (cmd : string) (sudoable : bool) (in_data executable_ : option string),
    (forall c : string, ok (EvExec c in_data sudoable)) ->
    respects (grows_by ok) any
      (_low_level_execute_command self cmd sudoable in_data executable_).
Proof.
  intros cmd sudoable in_data executable_ Hok.
  unfold _low_level_execute_command.
  destruct (negb (PyStr.nonempty cmd)); [traces_step|].
  cbv zeta. repeat traces_step.
  apply respects_emit with (ok := ok); [grows_side | apply Hok].
Qed.

Ltac traces_plain_calls leaf :=
  repeat first
    [ apply traces_plain_command; leaf
    | traces_step ].

(** Without ALLOW_WORLD_READABLE_TMPFILES, [_fixup_perms] keeps to
    the commands that do not open the path to every user. *)
Lemma traces_fixup_perms_private :
  forall (path : string) (remote_user_ : pyval) (execute recursive : bool),
    ALLOW_WORLD_READABLE_TMPFILES (C self) = false ->
    (forall e : Event,
        In e (private_perms_commands self path execute recursive) -> ok e) ->
    respects (grows_by ok) any
      (_fixup_perms self (Some path) remote_user_ execute recursive).
Proof.
  intros path remote_user_ execute recursive Hknob Hok.
  unfold _fixup_perms, _remote_chown, _remote_chmod, _remote_set_user_facl.
  rewrite Hknob.
  traces_plain_calls
    ltac:(apply Hok; unfold private_perms_commands; cbn [map In]; tauto).
Qed.

(** [_fixup_perms] runs nothing through become. *)
Lemma traces_fixup_perms :
  forall (remote_path : option string) (remote_user_ : pyval)
         (execute recursive : bool),
    (forall c : string, ok (EvExec c None false)) ->
    respects (grows_by ok) any
      (_fixup_perms self remote_path remote_user_ execute recursive).
Proof.
  intros remote_path remote_user_ execute recursive Hok.
  unfold _fixup_perms, _remote_chown, _remote_chmod, _remote_set_user_facl.
  traces_plain_calls ltac:(apply Hok).
Qed.

(** Nor does [_make_tmp_path]. *)
Lemma traces_make_tmp_path : forall remote_user_ : pyval,
  (forall c : string, ok (EvExec c None false)) ->
  respects (grows_by ok) any (_make_tmp_path self remote_user_).
Proof.
  intros remote_user_ Hok. unfold _make_tmp_path.
  traces_plain_calls ltac:(apply Hok).
Qed.


Ltac traces_calls exec_leaf :=
  repeat first
    [ apply traces_fixup_perms; exec_leaf
    | apply traces_make_tmp_path; exec_leaf
    | apply traces_command; exec_leaf
    | apply respects_transfer_data with (ok := ok);
        [grows_side | grows_side | grows_side | exec_leaf]
    | apply respects_compute_environment_string with (ok := ok);
        [grows_side | grows_side | grows_side | exec_leaf | grows_side]
    | apply respects_emit with (ok := ok); [grows_side | exec_leaf]
    | progress cbv zeta
    | traces_step ].

Ltac traces_setitem H :=
  eapply respects_bind with (P := ref_ok True);
    [ grows_side
    | apply respects_args_setitem;
        [grows_side | grows_side | cbn; tauto | exact H]
    | ].

(** The accelerate module is run as the connecting user: with it,
    [_execute_module] runs nothing through become. *)
Lemma traces_execute_module_accelerate :
  forall (h : ArgsRef) (tmp : option string) (task_vars : option dict)
         (persist_files delete_remote_tmp : bool),
    (forall (c : string) (i : option string), ok (EvExec c i false)) ->
    (forall (p : option string) (d : string), ok (EvPutFile p d)) ->
    (forall d : dict, ok (EvEnvPrefix d)) ->
    (forall (env shebang cmd : string) (arg_path rm_tmp : option string),
        ok (EvBuildModuleCommand env shebang cmd arg_path rm_tmp)) ->
    respects (grows_by ok) any
      (_execute_module self (Some "accelerate") h tmp task_vars
         persist_files delete_remote_tmp).
Proof.
  intros h tmp task_vars persist_files delete_remote_tmp
         Hexec Hput Henv Hbuild.
  assert (Hh : ref_ok True h) by (destruct h; exact I).
  unfold _execute_module. cbv zeta.
  eapply respects_bind with (P := any);
    [grows_side | apply respects_get_task; grows_side |].
  intros task _.
  eapply respects_bind with (P := ref_ok True); [grows_side| |].
  { destruct (check_mode (_play_context self));
      [destruct (negb (_supports_check_mode self));
         [apply respects_raise; grows_side|]|];
      (apply respects_args_setitem;
         [grows_side | grows_side | cbn; tauto | exact Hh]). }
  intros h1 Hh1. traces_setitem Hh1.
  intros h2 Hh2. traces_setitem Hh2.
  intros h3 Hh3. traces_setitem Hh3.
  intros h4 Hh4. traces_setitem Hh4.
  intros h5 Hh5.
  eapply respects_bind;
    [ grows_side
    | apply respects_configure_module with (args_may_change := True);
        [grows_side | grows_side | grows_side | exact Hh5]
    | ].
  intros [[[module_style shebang] module_data] h6] Hh6.
  traces_calls ltac:(first [intros; apply Hexec | apply Hput | apply Henv
                           | apply Hbuild]).
Qed.

(** A module of the new style that goes down the pipe: nothing is put
    on the remote side as a file. *)
Lemma traces_execute_module_pipelined :
  forall (module_name : option string) (h : ArgsRef) (tmp : option string)
         (task_vars : option dict) (persist_files delete_remote_tmp : bool),
    only_new_style self ->
    opt_truthy tmp = false ->
    has_pipelining (_connection self) = true ->
    pipelining (_play_context self) = true ->
    DEFAULT_KEEP_REMOTE_FILES (C self) = false ->
    opt_text_eqb (become_method (_play_context self)) (Some "su") = false ->
    (forall (c : string) (i : option string) (s : bool), ok (EvExec c i s)) ->
    (forall d : dict, ok (EvEnvPrefix d)) ->
    (forall (env shebang cmd : string) (arg_path rm_tmp : option string),
        ok (EvBuildModuleCommand env shebang cmd arg_path rm_tmp)) ->
    respects (grows_by ok) any
      (_execute_module self module_name h tmp task_vars
         persist_files delete_remote_tmp).
Proof.
  intros module_name h tmp task_vars persist_files delete_remote_tmp
         Hnew Htmp Hhas Hpipe Hkeep Hsu Hexec Henv Hbuild.
  assert (Hh : ref_ok True h) by (destruct h; exact I).
  unfold _execute_module. cbv zeta.
  eapply respects_bind with (P := any);
    [grows_side | apply respects_get_task; grows_side |].
  intros task _.
  eapply respects_bind with (P := ref_ok True); [grows_side| |].
  { destruct (check_mode (_play_context self));
      [destruct (negb (_supports_check_mode self));
         [apply respects_raise; grows_side|]|];
      (apply respects_args_setitem;
         [grows_side | grows_side | cbn; tauto | exact Hh]). }
  intros h1 Hh1. traces_setitem Hh1.
  intros h2 Hh2. traces_setitem Hh2.
  intros h3 Hh3. traces_setitem Hh3.
  intros h4 Hh4. traces_setitem Hh4.
  intros h5 Hh5.
  eapply respects_bind with
    (P := fun r : string * option string * string * ArgsRef =>
            ref_ok True (snd r) /\ fst (fst (fst r)) = "new");
    [ grows_side | | ].
  { apply respects_post.
    - apply respects_configure_module with (args_may_change := True);
        [grows_side | grows_side | grows_side | exact Hh5].
    - intros w [[[style shebang] data] h6] Hrun. cbn [fst].
      destruct (configure_module_result _ _ _ _ _ _ _ _ _ Hrun)
        as [name [path [module_args Hm]]].
      exact (Hnew _ _ _ _ _ _ _ _ Hm). }
  intros [[[module_style shebang] module_data] h6] [Hh6 Hstyle].
  cbn [fst] in Hstyle. subst module_style.
  rewrite (late_needs_tmp_path_pipelined self tmp Hhas Hpipe Hkeep Hsu).
  rewrite andb_false_r.
  eapply respects_bind with (P := any); [grows_side| |intros ? _].
  { destruct (negb (opt_truthy shebang));
      [apply respects_raise; grows_side
      |apply respects_ret; [grows_side|exact I]]. }
  eapply respects_bind with (P := fun t : option string => t = tmp);
    [grows_side | apply respects_ret; [grows_side|reflexivity] | ].
  intros ? ->. rewrite !Htmp. cbn [orb andb negb].
  change (String.eqb "new" "new") with true. cbn [negb].
  traces_calls ltac:(first [intros; apply Hexec | apply Henv | apply Hbuild]).
Qed.

(** [_get_diff_data] runs the file module and the slurp module, both
    with persist_files set. *)
Lemma traces_get_diff_data :
  forall (ctl : Controller) (destination source : string)
         (task_vars : option dict) (source_file : bool),
    (forall (c : string) (i : option string) (s : bool), ok (EvExec c i s)) ->
    (forall (p : option string) (d : string), ok (EvPutFile p d)) ->
    (forall d : dict, ok (EvEnvPrefix d)) ->
    (forall (env shebang cmd : string) (arg_path rm_tmp : option string),
        removal_allowed self true true
          (EvBuildModuleCommand env shebang cmd arg_path rm_tmp) ->
        ok (EvBuildModuleCommand env shebang cmd arg_path rm_tmp)) ->
    respects (grows_by ok) any
      (_get_diff_data self ctl destination source task_vars source_file).
Proof.
  intros ctl destination source task_vars source_file
         Hexec Hput Henv Hbuild.
  unfold _get_diff_data, diff_before, diff_after. cbv zeta.
  repeat first
    [ apply respects_execute_module with (ok := ok) (args_may_change := True);
        [ grows_side | grows_side | grows_side | exact Hexec | exact Hput
        | exact Henv | exact Hbuild | grows_side | grows_side | exact I ]
    | traces_step ].
Qed.

End Traces.

(** X14: unless ALLOW_WORLD_READABLE_TMPFILES is set, [_fixup_perms]
    runs nothing but the chown to the become user, chmod u+x and the
    setfacl for the become user on the path it was given: it never opens
    the path to every user, and it runs nothing through become. *)
Theorem fixup_perms_keeps_files_private :
  forall (self : ActionBase) (remote_path : option string)
         (remote_user_ : pyval) (execute recursive : bool) (w : World)
         (e : Event),
    ALLOW_WORLD_READABLE_TMPFILES (C self) = false ->
    In e (emitted (_fixup_perms self remote_path remote_user_ execute
                     recursive) w) ->
    exists path : string,
      remote_path = Some path
      /\ In e (private_perms_commands self path execute recursive).
Proof.
  intros self remote_path remote_user_ execute recursive w e Hknob Hin.
  destruct remote_path as [path|].
  - exists path. split; [reflexivity|].
    pose proof (traces_fixup_perms_private self
                  (fun e => In e (private_perms_commands self path execute
                                    recursive))
                  path remote_user_ execute recursive Hknob
                  (fun e H => H) w) as [Hg _].
    apply grows_by_emitted in Hg. rewrite Forall_forall in Hg.
    now apply Hg.
  - exfalso. unfold _fixup_perms in Hin.
    destruct (String.eqb _ "powershell"); rewrite emitted_ret in Hin;
      exact Hin.
Qed.

Lemma fixup_perms_keeps_files_private_witness :
  let self :=
    Fixture.action_base (Fixture.connection true (Ret (Some 1%Z, "", "no")))
      (Fixture.play true (Some "bob") true) "new" Fixture.no_json in
  let w := Fixture.world (Fixture.task [] PNone) in
  exists path : string,
    Some "/tmp/ansible-tmp-1-2/" = Some path
    /\ In (EvExec "setfacl -m u:bob:rX /tmp/ansible-tmp-1-2/" None false)
         (private_perms_commands self path false true).
Proof.
  intros self w.
  apply (fixup_perms_keeps_files_private self (Some "/tmp/ansible-tmp-1-2/")
           (PStr "alice") false true w).
  - reflexivity.
  - vm_compute. tauto.
Defined.

Lemma execute_module_default_name :
  forall (self : ActionBase) (h : ArgsRef) (tmp : option string)
         (task_vars : option dict) (persist_files delete_remote_tmp : bool)
         (w : World),
    _execute_module self None h tmp task_vars persist_files delete_remote_tmp w
    = _execute_module self (Some (action (w_task w))) h tmp task_vars
        persist_files delete_remote_tmp w.
Proof. reflexivity. Qed.

(** X15: the accelerate module is always run as the user of the play:
    when [_execute_module] runs it, no command of the run, neither the
    module itself nor the commands around it, goes through become. *)
Theorem execute_module_accelerate_unprivileged :
  forall (self : ActionBase) (module_name : option string)
         (module_args : ArgsRef) (tmp : option string)
         (task_vars : option dict) (persist_files delete_remote_tmp : bool)
         (w : World),
    match module_name with Some n => n | None => action (w_task w) end
    = "accelerate" ->
    Forall unprivileged
      (emitted (_execute_module self module_name module_args tmp task_vars
                  persist_files delete_remote_tmp) w).
Proof.
  intros self module_name module_args tmp task_vars persist_files
         delete_remote_tmp w Hname.
  apply grows_by_emitted.
  assert (H : _execute_module self module_name module_args tmp task_vars
                persist_files delete_remote_tmp w
              = _execute_module self (Some "accelerate") module_args tmp
                  task_vars persist_files delete_remote_tmp w).
  { destruct module_name as [n|]; [now subst n|].
    now rewrite execute_module_default_name, Hname. }
  rewrite H.
  apply (traces_execute_module_accelerate self unprivileged);
    intros; exact I || reflexivity.
Qed.

Lemma execute_module_accelerate_unprivileged_witness :
  let self :=
    Fixture.action_base (Fixture.connection false (Ret (Some 0%Z, "{}", "")))
      (Fixture.play true (Some "root") false) "new" Fixture.no_json in
  let w := Fixture.world (Fixture.task [] PNone) in
  Forall unprivileged
    (emitted (_execute_module self (Some "accelerate") TaskArgs None None
                false true) w).
Proof.
  intros self w.
  apply (execute_module_accelerate_unprivileged self (Some "accelerate")
           TaskArgs None None false true w).
  reflexivity.
Defined.

(** X16: a module of the new style is not put on the remote side as a
    file when it can go down the pipe: with no temporary directory handed
    in, pipelining on in the connection and in the play, remote files not
    kept and a become method other than su, [_execute_module] never calls
    put_file. *)
Theorem execute_module_pipelined_uploads_nothing :
  forall (self : ActionBase) (module_name : option string)
         (module_args : ArgsRef) (tmp : option string)
         (task_vars : option dict) (persist_files delete_remote_tmp : bool)
         (w : World),
    only_new_style self ->
    opt_truthy tmp = false ->
    has_pipelining (_connection self) = true ->
    pipelining (_play_context self) = true ->
    DEFAULT_KEEP_REMOTE_FILES (C self) = false ->
    opt_text_eqb (become_method (_play_context self)) (Some "su") = false ->
    Forall no_upload
      (emitted (_execute_module self module_name module_args tmp task_vars
                  persist_files delete_remote_tmp) w).
Proof.
  intros self module_name module_args tmp task_vars persist_files
         delete_remote_tmp w Hnew Htmp Hhas Hpipe Hkeep Hsu.
  apply grows_by_emitted.
  apply (traces_execute_module_pipelined self no_upload); try assumption;
    intros; exact I.
Qed.

Lemma execute_module_pipelined_uploads_nothing_witness :
  let self :=
    Fixture.action_base (Fixture.connection true (Ret (Some 0%Z, "{}", "")))
      (Fixture.play true (Some "bob") true) "new" Fixture.no_json in
  let w := Fixture.world (Fixture.task [] PNone) in
  Forall no_upload
    (emitted (_execute_module self None TaskArgs None None false true) w).
Proof.
  intros self w.
  apply (execute_module_pipelined_uploads_nothing self None TaskArgs None None
           false true w).
  - intros name path module_args task_vars compression data style shebang H.
    inversion H. reflexivity.
  - reflexivity.
  - reflexivity.
  - reflexivity.
  - reflexivity.
  - reflexivity.
Defined.

(** X13: the two modules [_get_diff_data] runs are run with
    persist_files set, so neither of their commands is asked to remove a
    temporary directory. *)
Theorem get_diff_data_removes_nothing :
  forall (self : ActionBase) (ctl : Controller) (destination source : string)
         (task_vars : option dict) (source_file : bool) (w : World)
         (env shebang cmd : string) (arg_path rm_tmp : option string),
    In (EvBuildModuleCommand env shebang cmd arg_path rm_tmp)
       (emitted (_get_diff_data self ctl destination source task_vars
                   source_file) w) ->
    rm_tmp = None.
Proof.
  intros self ctl destination source task_vars source_file w
         env shebang cmd arg_path rm_tmp Hin.
  pose proof (traces_get_diff_data self (removal_allowed self true true)
                ctl destination source task_vars source_file
                (fun _ _ _ => I) (fun _ _ => I) (fun _ => I)
                (fun _ _ _ _ _ H => H) w) as [Hg _].
  apply grows_by_emitted in Hg. rewrite Forall_forall in Hg.
  specialize (Hg _ Hin). destruct rm_tmp as [t|]; [|reflexivity].
  cbn [removal_allowed] in Hg. unfold piggyback_allowed in Hg.
  cbn [negb] in Hg. rewrite andb_false_r in Hg. discriminate Hg.
Qed.

Lemma get_diff_data_removes_nothing_witness :
  let self :=
    Fixture.action_base (Fixture.connection true (Ret (Some 0%Z, "{}", "")))
      ControllerFixture.play_no_log "new"
      (Fixture.one_json "{}" ControllerFixture.peek_document) in
  @None string = None.
Proof.
  intros self.
  apply (get_diff_data_removes_nothing self (ControllerFixture.controller [])
           "/etc/motd" "new secret" None false
           (Fixture.world (Fixture.task [] PNone))
           "" "#!/usr/bin/python" "" None None).
  vm_compute. tauto.
Defined.

(* ------------------------------------------------------------------ *)
(** ** The environment, asked for a second time *)

(** X17: [_compute_environment_string] turns the list of the task
    around in place, so a second call on the same task goes through the
    entries in the other order: after one call that returned, the next
    one gives every key the value of the last entry of the original list
    that has the key, and leaves the list in its original order. *)
Theorem compute_environment_string_second_call :
  forall (self : ActionBase) (w w1 w2 : World) (environments : list pyval)
         (s1 s2 : string),
    environment (w_task w) = PList environments ->
    Forall (templates_to_dict (template self)) environments ->
    _compute_environment_string self w = (Ret s1, w1) ->
    _compute_environment_string self w1 = (Ret s2, w2) ->
    exists merged passed : dict,
      (forall k : string,
          Dict.get k merged = last_binding (template self) k environments)
      /\ template self (PDict merged) = PDict passed
      /\ emitted (_compute_environment_string self) w1 = [EvEnvPrefix passed]
      /\ s2 = env_prefix (_shell (_connection self)) passed
      /\ environment (w_task w2) = PList environments.
Proof.
  intros self w w1 w2 environments s1 s2 Henv Hwf Hrun1 Hrun2.
  rewrite (compute_environment_string_run self w environments Henv) in Hrun1.
  assert (Henv1 : environment (w_task w1) = PList (List.rev environments)).
  { destruct (merge_environments self (List.rev environments) [])
      as [merged|e]; [|discriminate Hrun1].
    destruct (template self (PDict merged)); try discriminate Hrun1.
    now inversion Hrun1. }
  clear Hrun1. unfold emitted.
  rewrite (compute_environment_string_run self w1 _ Henv1) in *.
  rewrite List.rev_involutive in *.
  destruct (merge_environments self environments []) as [merged|e] eqn:Hm;
    [|discriminate Hrun2].
  destruct (template self (PDict merged)) as [| | | | |passed] eqn:Ht;
    try discriminate Hrun2.
  inversion Hrun2; subst. cbn [snd w_trace w_task environment].
  exists merged, passed.
  split; [|split; [exact Ht|split; [apply skipn_length_app|now split]]].
  intros k. unfold last_binding.
  rewrite (merge_environments_get self k environments [] merged Hwf Hm).
  now destruct (first_binding (template self) k (List.rev environments)).
Qed.

Lemma compute_environment_string_second_call_witness :
  let environments :=
    [PDict [("PATH", PStr "/first")]; PDict [("PATH", PStr "/last")]] in
  let self :=
    Fixture.action_base (Fixture.connection false (Raise (PyException "IOError")))
      (Fixture.play false None false) "new" Fixture.no_json in
  let w := Fixture.world (Fixture.task [] (PList environments)) in
  let w1 := snd (_compute_environment_string self w) in
  let w2 := snd (_compute_environment_string self w1) in
  exists merged passed : dict,
    (forall k : string,
        Dict.get k merged = last_binding (template self) k environments)
    /\ template self (PDict merged) = PDict passed
    /\ emitted (_compute_environment_string self) w1 = [EvEnvPrefix passed]
    /\ "" = env_prefix (_shell (_connection self)) passed
    /\ environment (w_task w2) = PList environments.
Proof.
  intros environments self w w1 w2.
  apply (compute_environment_string_second_call self w w1 w2 environments
           "" "").
  - reflexivity.
  - repeat constructor; intros d H; inversion H; subst;
      repeat constructor; simpl; intuition discriminate.
  - reflexivity.
  - reflexivity.
Defined.

(* ------------------------------------------------------------------ *)
(** ** A module without an interpreter line *)

Lemma execute_module_without_interpreter :
  forall (self : ActionBase) (module_name : option string) (h : ArgsRef)
         (tmp : option string) (task_vars : option dict)
         (persist_files delete_remote_tmp : bool),
    no_interpreter_line self ->
    respects (grows_by no_call) (fun _ : pyval => False)
      (_execute_module self module_name h tmp task_vars
         persist_files delete_remote_tmp).
Proof.
  intros self module_name h tmp task_vars persist_files delete_remote_tmp
         Hno.
  assert (Hh : ref_ok True h) by (destruct h; exact I).
  assert (Hset : forall k v h0,
             In k (control_keys ++ path_keys) -> ref_ok True h0 ->
             respects (grows_by no_call) (ref_ok True) (args_setitem k v h0)).
  { intros k v h0 Hk Hh0. apply respects_args_setitem;
      [exact (grows_by_refl no_call) | exact (grows_by_args no_call)
      | exact Hk | exact Hh0]. }
  unfold _execute_module. cbv zeta.
  eapply respects_bind with (P := any);
    [ exact (grows_by_trans no_call)
    | apply respects_get_task; exact (grows_by_refl no_call) |].
  intros task _.
  eapply respects_bind with (P := ref_ok True);
    [exact (grows_by_trans no_call)| |].
  { destruct (check_mode (_play_context self));
      [destruct (negb (_supports_check_mode self));
         [apply respects_raise; exact (grows_by_refl no_call)|]|];
      (apply Hset; [cbn; tauto | exact Hh]). }
  intros h1 Hh1.
  eapply respects_bind with (P := ref_ok True);
    [exact (grows_by_trans no_call) | apply Hset; [cbn; tauto|exact Hh1] |].
  intros h2 Hh2.
  eapply respects_bind with (P := ref_ok True);
    [exact (grows_by_trans no_call) | apply Hset; [cbn; tauto|exact Hh2] |].
  intros h3 Hh3.
  eapply respects_bind with (P := ref_ok True);
    [exact (grows_by_trans no_call) | apply Hset; [cbn; tauto|exact Hh3] |].
  intros h4 Hh4.
  eapply respects_bind with (P := ref_ok True);
    [exact (grows_by_trans no_call) | apply Hset; [cbn; tauto|exact Hh4] |].
  intros h5 Hh5.
  eapply respects_bind with
    (P := fun r : string * option string * string * ArgsRef =>
            ref_ok True (snd r) /\ opt_truthy (snd (fst (fst r))) = false);
    [ exact (grows_by_trans no_call) | | ].
  { apply respects_post.
    - apply respects_configure_module with (args_may_change := True);
        [ exact (grows_by_refl no_call) | exact (grows_by_trans no_call)
        | exact (grows_by_args no_call) | exact Hh5 ].
    - intros w [[[style shebang] data] h6] Hrun. cbn [fst snd].
      destruct (configure_module_result _ _ _ _ _ _ _ _ _ Hrun)
        as [name [path [module_args Hm]]].
      exact (Hno _ _ _ _ _ _ _ _ Hm). }
  intros [[[module_style shebang] module_data] h6] [Hh6 Hsb].
  cbn [fst snd] in Hsb. rewrite Hsb. cbn [negb].
  eapply respects_bind with (P := fun _ : unit => False);
    [ exact (grows_by_trans no_call)
    | apply respects_raise; exact (grows_by_refl no_call)
    | intros ? [] ].
Qed.

(** X18: a module in which the assembler finds no interpreter line is
    neither sent nor run: [_execute_module] makes no call on the
    connection and does not return. *)
Theorem execute_module_needs_interpreter_line :
  forall (self : ActionBase) (module_name : option string)
         (module_args : ArgsRef) (tmp : option string)
         (task_vars : option dict) (persist_files delete_remote_tmp : bool)
         (w : World),
    no_interpreter_line self ->
    emitted (_execute_module self module_name module_args tmp task_vars
               persist_files delete_remote_tmp) w = []
    /\ exists e : exn,
         fst (_execute_module self module_name module_args tmp task_vars
                persist_files delete_remote_tmp w) = Raise e.
Proof.
  intros self module_name module_args tmp task_vars persist_files
         delete_remote_tmp w Hno.
  destruct (execute_module_without_interpreter self module_name module_args
              tmp task_vars persist_files delete_remote_tmp Hno w)
    as [Hg Hq].
  split.
  - apply grows_by_emitted in Hg.
    destruct (emitted _ w) as [|e l]; [reflexivity|].
    inversion Hg as [|? ? He]. destruct He.
  - destruct (fst (_execute_module self module_name module_args tmp task_vars
                     persist_files delete_remote_tmp w)) as [a|e].
    + destruct (Hq a eq_refl).
    + now exists e.
Qed.

Lemma execute_module_needs_interpreter_line_witness :
  let self :=
    ExecutorFixture.executor
      (Fixture.connection true (Ret (Some 0%Z, "{}", "")))
      (Fixture.play false None true) ["ping"] None Fixture.no_json in
  let w := Fixture.world (Fixture.task [] PNone) in
  emitted (_execute_module self None TaskArgs None None false true) w = []
  /\ exists e : exn,
       fst (_execute_module self None TaskArgs None None false true w)
       = Raise e.
Proof.
  intros self w.
  apply (execute_module_needs_interpreter_line self None TaskArgs None None
           false true w).
  intros name path module_args task_vars compression data style shebang H.
  inversion H. reflexivity.
Defined.

(* ------------------------------------------------------------------ *)
(** ** The lines of what a module printed *)

Lemma dict_mem_set : forall (k : string) (v : pyval) (d : dict),
  Dict.mem k (Dict.set k v d) = true.
Proof.
  intros k v d. unfold Dict.mem. now rewrite dict_get_set, String.eqb_refl.
Qed.

Ltac peel H :=
  apply bind_ret_inv in H as [? [? [_ H]]]; cbv beta in H.

(** X19: what [_execute_module] returns has stdout_lines whenever it
    has stdout. *)
Theorem execute_module_result_has_stdout_lines :
  forall (self : ActionBase) (module_name : option string)
         (module_args : ArgsRef) (tmp : option string)
         (task_vars : option dict) (persist_files delete_remote_tmp : bool)
         (w w' : World) (data : pyval),
    _execute_module self module_name module_args tmp task_vars
      persist_files delete_remote_tmp w = (Ret data, w') ->
    Dyn.contains "stdout" data = Ret true ->
    Dyn.contains "stdout_lines" data = Ret true.
Proof.
  intros self module_name module_args tmp task_vars persist_files
         delete_remote_tmp w w' data H Hout.
  unfold _execute_module in H. cbv zeta in H.
  do 6 peel H.
  apply bind_ret_inv in H as [[[[style shebang] module_data] h] [? [_ H]]].
  cbv beta iota zeta in H.
  do 8 peel H.
  apply bind_ret_inv in H as [parsed [w0 [_ H]]].
  apply bind_ret_inv in H as [has_stdout [w1 [Hhas H]]].
  unfold lift in Hhas. inversion Hhas as [[Hc Hw]]. clear Hhas.
  destruct has_stdout.
  - apply bind_ret_inv in H as [has_lines [w2 [Hl H]]].
    unfold lift in Hl. inversion Hl as [[Hcl Hw2]]. clear Hl.
    destruct has_lines; cbn [negb] in H.
    + unfold ret in H. inversion H; subst. exact Hcl.
    + apply bind_ret_inv in H as [out [w3 [_ H]]].
      apply bind_ret_inv in H as [lines [w4 [_ H]]].
      unfold lift in H. inversion H as [[Hs Hw4]].
      destruct parsed as [| | | | |d]; try discriminate Hs.
      cbn [Dyn.setitem] in Hs. inversion Hs; subst.
      cbn [Dyn.contains]. now rewrite dict_mem_set.
  - unfold ret in H. inversion H; subst. rewrite Hout in Hc.
    discriminate Hc.
Qed.

Lemma execute_module_result_has_stdout_lines_witness :
  let self :=
    Fixture.action_base (Fixture.connection true (Ret (Some 0%Z, "{}", "")))
      (Fixture.play false None true) "new"
      (Fixture.one_json "{}" (PDict [("stdout", PStr "up")])) in
  Dyn.contains "stdout_lines"
    (PDict [("stdout", PStr "up"); ("stdout_lines", PList [PStr "up"])])
  = Ret true.
Proof.
  intros self.
  apply (execute_module_result_has_stdout_lines self None TaskArgs None None
           false true (Fixture.world (Fixture.task [] PNone))
           (snd (_execute_module self None TaskArgs None None false true
                   (Fixture.world (Fixture.task [] PNone))))).
  - reflexivity.
  - reflexivity.
Defined.

(* ------------------------------------------------------------------ *)
(** ** What the remote stat reports *)

(** X20: what [_execute_remote_stat] returns is a dictionary that has
    a checksum, and for a file that does not exist that checksum is the
    text 1. *)
Theorem execute_remote_stat_has_checksum :
  forall (self : ActionBase) (path : string) (all_vars : option dict)
         (follow : bool) (tmp : option string) (w w' : World)
         (remote_stat : pyval),
    _execute_remote_stat self path all_vars follow tmp w
    = (Ret remote_stat, w') ->
    exists (d : dict) (exists_v : pyval),
      remote_stat = PDict d
      /\ Dict.get "exists" d = Some exists_v
      /\ Dict.mem "checksum" d = true
      /\ (truthy exists_v = false ->
          Dict.get "checksum" d = Some (PStr "1")).
Proof.
  intros self path all_vars follow tmp w w' remote_stat H.
  unfold _execute_remote_stat in H. cbv zeta in H.
  apply bind_ret_inv in H as [mystat [w1 [_ H]]].
  apply bind_ret_inv in H as [has_failed [w2 [_ H]]].
  apply bind_ret_inv in H as [failed [w3 [_ H]]].
  apply bind_ret_inv in H as [u [w4 [_ H]]].
  apply bind_ret_inv in H as [stat [w5 [_ H]]].
  apply bind_ret_inv in H as [exists_v [w6 [Hex H]]].
  apply bind_ret_inv in H as [stat1 [w7 [Hfix H]]].
  apply bind_ret_inv in H as [has_checksum [w8 [Hhas H]]].
  unfold lift in Hex, Hhas.
  destruct stat as [| | | | |ds]; try discriminate Hex.
  cbn [Dyn.getitem] in Hex.
  destruct (Dict.get "exists" ds) as [v|] eqn:Eex; [|discriminate Hex].
  inversion Hex; subst v w6. clear Hex.
  destruct (negb (truthy exists_v)) eqn:Et.
  - unfold lift in Hfix. cbn [Dyn.setitem] in Hfix.
    inversion Hfix; subst stat1 w7. clear Hfix.
    cbn [Dyn.contains] in Hhas. rewrite dict_mem_set in Hhas.
    inversion Hhas; subst has_checksum w8. cbn [negb] in H.
    unfold ret in H. inversion H; subst.
    exists (Dict.set "checksum" (PStr "1") ds), exists_v.
    repeat split.
    + rewrite dict_get_set. exact Eex.
    + apply dict_mem_set.
    + intros _. rewrite dict_get_set. reflexivity.
  - unfold ret in Hfix. inversion Hfix; subst stat1 w7. clear Hfix.
    apply negb_false_iff in Et.
    cbn [Dyn.contains] in Hhas. inversion Hhas; subst has_checksum w8.
    destruct (Dict.mem "checksum" ds) eqn:Em; cbn [negb] in H.
    + unfold ret in H. inversion H; subst.
      exists ds, exists_v. repeat split; try assumption.
      intros Hf. rewrite Hf in Et. discriminate Et.
    + unfold lift in H. cbn [Dyn.setitem] in H. inversion H; subst.
      exists (Dict.set "checksum" (PStr "") ds), exists_v. repeat split.
      * rewrite dict_get_set. exact Eex.
      * apply dict_mem_set.
      * intros Hf. rewrite Hf in Et. discriminate Et.
Qed.

Lemma execute_remote_stat_has_checksum_witness :
  let self :=
    Fixture.action_base (Fixture.connection true (Ret (Some 0%Z, "{}", "")))
      (Fixture.play false None true) "new"
      (Fixture.one_json "{}"
         (PDict [("stat", PDict [("exists", PBool false)])])) in
  exists (d : dict) (exists_v : pyval),
    PDict [("exists", PBool false); ("checksum", PStr "1")] = PDict d
    /\ Dict.get "exists" d = Some exists_v
    /\ Dict.mem "checksum" d = true
    /\ (truthy exists_v = false -> Dict.get "checksum" d = Some (PStr "1")).
Proof.
  intros self.
  apply (execute_remote_stat_has_checksum self "/etc/motd" None false None
           (Fixture.world (Fixture.task [] PNone))
           (snd (_execute_remote_stat self "/etc/motd" None false None
                   (Fixture.world (Fixture.task [] PNone))))).
  reflexivity.
Defined.

Lemma rev_acc_append : forall s acc : string,
  PyStr.rev_acc s acc = PyStr.rev s +++ acc.
Proof.
  unfold PyStr.rev. induction s as [|c s IH]; intros acc; [reflexivity|].
  cbn [PyStr.rev_acc]. rewrite IH, (IH (String c "")), append_assoc.
  reflexivity.
Qed.

Lemma rev_append : forall a b : string,
  PyStr.rev (a +++ b) = PyStr.rev b +++ PyStr.rev a.
Proof.
  induction a as [|c a IH]; intros b.
  - cbn. now rewrite append_empty_r.
  - unfold PyStr.rev in *. cbn [String.append PyStr.rev_acc].
    rewrite rev_acc_append, (rev_acc_append a (String c "")).
    unfold PyStr.rev. rewrite IH, append_assoc. reflexivity.
Qed.

(** What [_execute_module] returns when nothing parses: the failure
    that [_parse_returned_data] writes. *)
Lemma execute_module_module_failure :
  forall (self : ActionBase) (module_name : option string)
         (module_args : ArgsRef) (tmp : option string)
         (task_vars : option dict) (persist_files delete_remote_tmp : bool)
         (w w' : World) (data : pyval),
    never_json self ->
    _execute_module self module_name module_args tmp task_vars
      persist_files delete_remote_tmp w = (Ret data, w') ->
    Dyn.contains "failed" data = Ret true
    /\ Dyn.getitem "failed" data = Ret (PBool true)
    /\ Dyn.getitem "msg" data = Ret (PStr "MODULE FAILURE").
Proof.
  intros self module_name module_args tmp task_vars persist_files
         delete_remote_tmp w w' data Hnever H.
  unfold _execute_module in H. cbv zeta in H.
  do 6 peel H.
  apply bind_ret_inv in H as [[[[style shebang] module_data] h] [? [_ H]]].
  cbv beta iota zeta in H.
  do 8 peel H.
  match type of H with
  | context [_parse_returned_data self ?res] =>
      assert (Hp : exists d : dict,
                 _parse_returned_data self res = Ret (PDict d)
                 /\ Dict.get "failed" d = Some (PBool true)
                 /\ Dict.get "msg" d = Some (PStr "MODULE FAILURE")
                 /\ Dict.get "stdout" d = None);
      [|destruct Hp as [d [Hp [Hf [Hm Hs]]]]; rewrite Hp in H]
  end.
  2: { apply bind_ret_inv in H as [parsed [w0 [Hparsed H]]].
       unfold lift in Hparsed. inversion Hparsed; subst parsed w0.
       clear Hparsed.
       apply bind_ret_inv in H as [has_stdout [w1 [Hhas H]]].
       unfold lift in Hhas. cbn [Dyn.contains] in Hhas.
       unfold Dict.mem in Hhas.
       rewrite Hs in Hhas. inversion Hhas; subst has_stdout w1.
       unfold ret in H. inversion H; subst.
       cbn [Dyn.contains Dyn.getitem]. unfold Dict.mem. rewrite Hf, Hm.
       auto. }
  { unfold _parse_returned_data. rewrite Hnever. cbv zeta.
    eexists. split; [reflexivity|].
    match goal with
    | |- context [res_stderr ?r] => destruct (res_stderr r) as [err|]
    end; [destruct (PyStr.startswith err "Traceback")|];
      rewrite ?dict_get_set; cbn; auto. }
Qed.

(** X21: when nothing the remote side prints is JSON, a run of the
    stat module that comes back makes [_remote_checksum] return the text
    4, the sign that the module could not be run. *)
Theorem remote_checksum_module_failure :
  forall (self : ActionBase) (path : string) (all_vars : option dict)
         (w : World) (mystat : pyval),
    never_json self ->
    fst (stat_run self path all_vars w) = Ret mystat ->
    _remote_checksum self path all_vars w
    = (Ret (PStr "4"), snd (stat_run self path all_vars w)).
Proof.
  intros self path all_vars w mystat Hnever Hrun.
  unfold stat_run in *. unfold _remote_checksum, _execute_remote_stat.
  fold (stat_module_args path false). cbv zeta.
  destruct (_execute_module self (Some "stat") _ None all_vars false true w)
    as [o w1] eqn:E.
  cbn [fst snd] in *. subst o.
  destruct (execute_module_module_failure _ _ _ _ _ _ _ _ _ _ Hnever E)
    as [Hc [Hf Hm]].
  rewrite !bind_unfold, E.
  rewrite !bind_unfold. unfold lift at 1. rewrite Hc.
  rewrite !bind_unfold. unfold lift at 1. rewrite Hf. unfold ret at 1.
  cbn [truthy]. rewrite !bind_unfold. unfold lift at 1. rewrite Hm.
  unfold raise. cbn [ansible_error_text text_type].
  unfold PyStr.endswith.
  rewrite <- !append_assoc, !rev_append.
  reflexivity.
Qed.

Lemma remote_checksum_module_failure_witness :
  let self :=
    Fixture.action_base
      (Fixture.connection true (Ret (Some 127%Z, "", "python: not found")))
      (Fixture.play false None true) "new" Fixture.no_json in
  let w := Fixture.world (Fixture.task [] PNone) in
  _remote_checksum self "/etc/motd" None w
  = (Ret (PStr "4"), snd (stat_run self "/etc/motd" None w)).
Proof.
  intros self w.
  eapply (remote_checksum_module_failure self "/etc/motd" None w).
  - intros s. reflexivity.
  - reflexivity.
Defined.

(* ------------------------------------------------------------------ *)
(** ** Looking for a module *)

Lemma search_module_path_plain :
  forall (self : ActionBase) (prefs : list string) (module_name : string)
         (h : ArgsRef) (w : World),
    ~ In ".ps1" prefs ->
    search_module_path self prefs module_name h w
    = (Ret (match List.find
                    (fun t => opt_truthy (find_plugin self module_name t))
                    prefs with
            | Some t => find_plugin self module_name t
            | None => None
            end, module_name, h), w).
Proof.
  intros self prefs module_name h w.
  induction prefs as [|t rest IH]; intros Hps; [reflexivity|].
  cbn [search_module_path List.find].
  destruct (String.eqb t ".ps1") eqn:E.
  { exfalso. apply Hps. left. now apply String.eqb_eq in E. }
  rewrite bind_unfold. unfold ret at 1. cbv beta iota zeta.
  destruct (opt_truthy (find_plugin self module_name t)); [reflexivity|].
  apply IH. intros Hin. apply Hps. now right.
Qed.

Lemma prefix_append : forall a b : string, String.prefix a (a +++ b) = true.
Proof.
  induction a as [|c a IH]; intros b; cbn [String.append String.prefix].
  - now destruct b.
  - destruct (ascii_dec c c) as [_|n]; [apply IH | now elim n].
Qed.

(** X22: when the connection has no PowerShell among its module
    preferences and no preference finds the module, [_configure_module]
    raises AnsibleError with a message that names the module as it was
    asked for, and leaves the task and the connection alone. *)
Theorem configure_module_not_found :
  forall (self : ActionBase) (module_name : string) (h : ArgsRef)
         (task_vars : dict) (w : World),
    ~ In ".ps1" (module_implementation_preferences (_connection self)) ->
    (forall t : string,
        In t (module_implementation_preferences (_connection self)) ->
        opt_truthy (find_plugin self module_name t) = false) ->
    exists msg : string,
      _configure_module self module_name h task_vars w
      = (Raise (AnsibleError msg), w)
      /\ PyStr.startswith msg
           ("The module " +++ module_name
            +++ " was not found in configured module paths") = true.
Proof.
  intros self module_name h task_vars w Hps Hnone.
  unfold _configure_module.
  rewrite bind_unfold, (search_module_path_plain _ _ _ _ _ Hps).
  cbv beta iota zeta.
  destruct (List.find _ _) as [t|] eqn:Ef.
  { apply List.find_some in Ef as [Hin Ht].
    rewrite (Hnone t Hin) in Ht. discriminate Ht. }
  destruct (find_plugin_any self _ _); eexists; (split; [reflexivity|]);
    unfold PyStr.startswith.
  - rewrite <- (append_empty_r
                  ("The module " +++ module_name
                   +++ " was not found in configured module paths")) at 2.
    apply prefix_append.
  - change ("The module " +++ module_name +++
            " was not found in configured module paths. Additionally, core modules are missing. If this is a checkout, run 'git submodule update --init --recursive' to correct this problem.")
      with ("The module " +++ module_name +++
            " was not found in configured module paths" +++
            ". Additionally, core modules are missing. If this is a checkout, run 'git submodule update --init --recursive' to correct this problem.").
    rewrite <- !append_assoc. rewrite (append_assoc "The module ").
    apply prefix_append.
Qed.

Lemma configure_module_not_found_witness :
  let self :=
    ExecutorFixture.executor
      (Fixture.connection true (Ret (Some 0%Z, "{}", "")))
      (Fixture.play false None true) [] (Some "#!/usr/bin/python")
      Fixture.no_json in
  let w := Fixture.world (Fixture.task [] PNone) in
  exists msg : string,
    _configure_module self "ping" TaskArgs [] w
    = (Raise (AnsibleError msg), w)
    /\ PyStr.startswith msg
         ("The module " +++ "ping"
          +++ " was not found in configured module paths") = true.
Proof.
  intros self w.
  apply (configure_module_not_found self "ping" TaskArgs [] w).
  - cbn. intros [H|[]]. discriminate H.
  - intros t _. reflexivity.
Defined.
